(** * mediasoup Worker: the supervisor of the worker process

    A shallow embedding of the [Worker] class of the Node layer (the second
    part of [node/src/ActiveSpeakerObserverTypes.ts]: the supervisor of one
    [mediasoup-worker] child process) together with the properties its
    specification states about spawn arguments, start-up failure, death,
    closing, the cascade over routers and WebRtcServers, and the request
    operations.

    Conventions of the embedding:
    - a method of the class is a function from the state of the Worker to
      its next state and the list of calls it made on its collaborators
      (child process, channel, routers, event emitters), in program order;
    - an [async] method is split at its [await]: the part that runs up to
      [channel.request()] and the part that runs when the response arrives;
    - [logger] calls are left out, and with them the ['data'] handlers of
      the child's stdout and stderr, which only log;
    - what a [Router] or a [WebRtcServer] does in its [workerClosed()], and
      what listeners do with the events raised, lies outside the class:
      the calls are recorded, in order, and the Worker goes on. *)

From stdpp Require Import base strings list gmap pretty.

Open Scope string_scope.
Open Scope Z_scope.
Open Scope list_scope.
Set Warnings "-register-all".

(** ** JavaScript values *)

(** What the code needs of an IEEE-754 [number]: the [Number.isNaN] test,
    its conversion to a string in a template literal, its truthiness and
    the conversion [Number(x)] of a [bigint]. *)
Class JSNumber (number : Type) := {
  Number_isNaN : number -> bool;
  Number_toString : number -> string;
  Number_truthy : number -> bool;
  Number_of_bigint : Z -> number
}.

Module JS.

Section Values.
Context {number : Type} `{JSNumber number}.

(** A value as a caller can pass it at run time (the TypeScript types
    are erased, and the code tests [typeof] itself). Objects carry
    their own properties in insertion order. *)
Inductive Value : Type :=
| Undefined
| Null
| Boolean (b : bool)
| Num (n : number)
| Str (s : string)
| BigInt (z : Z)
| Symbol (description : string)
| Function (name : string)
| Array (items : list Value)
| Object (props : list (string * Value)).

(** [typeof v] *)
Definition typeof (v : Value) : string :=
  match v with
  | Undefined => "undefined"
  | Null => "object"
  | Boolean _ => "boolean"
  | Num _ => "number"
  | Str _ => "string"
  | BigInt _ => "bigint"
  | Symbol _ => "symbol"
  | Function _ => "function"
  | Array _ => "object"
  | Object _ => "object"
  end.

(** ToBoolean: what [v && ...], [v || ...] and [if (v)] test. *)
Definition truthy (v : Value) : bool :=
  match v with
  | Undefined | Null => false
  | Boolean b => b
  | Num n => Number_truthy n
  | Str s => negb (String.eqb s "")
  | BigInt z => negb (z =? 0)
  | Symbol _ | Function _ | Array _ | Object _ => true
  end.

(** [Array.isArray(v) ? v : []] *)
Definition array_or_empty (v : Value) : list Value :=
  match v with
  | Array items => items
  | _ => []
  end.

(** [a || b] *)
Definition or_else (a b : Value) : Value := if truthy a then a else b.

(** The keys of an object literal, in order. *)
Definition keys (v : Value) : list string :=
  match v with
  | Object props => props.*1
  | _ => []
  end.

(** [v[k]] on an object literal (later properties shadow none: the
    literals of this file have distinct keys). *)
Definition get (v : Value) (k : string) : option Value :=
  match v with
  | Object props => snd <$> List.find (fun p => String.eqb (fst p) k) props
  | _ => None
  end.
End Values.

Arguments Value : clear implicits.

(** The error classes the Worker throws or forwards. *)
Inductive Error : Type :=
| TypeError (message : string)
| PlainError (message : string)
| InvalidStateError (message : string)
| Thrown (name message : string).

End JS.

(** ** Strings *)

(** A string holds its text in UTF-8, the encoding in which Node reads
    the environment and writes the arguments of a child process. *)

(** The characters that [\s] matches in a JavaScript regular expression,
    by their bytes: tab, line feed, vertical tab, form feed, carriage
    return and space; U+00A0; U+1680, U+2000 to U+200A, U+2028, U+2029,
    U+202F, U+205F, U+3000 and U+FEFF. *)
Definition space_byte (a : N) : bool :=
  (((9 <=? a) && (a <=? 13)) || (a =? 32))%N.

Definition space_bytes2 (a b : N) : bool :=
  ((a =? 194) && (b =? 160))%N.

Definition space_bytes3 (a b c : N) : bool :=
  (((a =? 225) && (b =? 154) && (c =? 128)) ||
   ((a =? 226) && (b =? 128) &&
    (((128 <=? c) && (c <=? 138)) || (c =? 168) || (c =? 169) || (c =? 175))) ||
   ((a =? 226) && (b =? 129) && (c =? 159)) ||
   ((a =? 227) && (b =? 128) && (c =? 128)) ||
   ((a =? 239) && (b =? 187) && (c =? 191)))%N.

(** The number of bytes of the white space character a text begins with,
    and 0 when it begins with none. *)
Definition space_width (s : list Ascii.ascii) : nat :=
  match s with
  | [] => 0%nat
  | a :: s1 =>
      if space_byte (Ascii.N_of_ascii a) then 1%nat
      else
        match s1 with
        | [] => 0%nat
        | b :: s2 =>
            if space_bytes2 (Ascii.N_of_ascii a) (Ascii.N_of_ascii b) then 2%nat
            else
              match s2 with
              | [] => 0%nat
              | c :: _ =>
                  if space_bytes3 (Ascii.N_of_ascii a) (Ascii.N_of_ascii b)
                       (Ascii.N_of_ascii c)
                  then 3%nat
                  else 0%nat
              end
        end
  end.

(** [s.split(/\s+/)]: the text is cut at every run of white space
    characters. A leading or trailing run yields an empty first or last
    element, as in JavaScript. [skip] counts the bytes still to pass of
    the white space character being read, [in_run] tells that the last
    character was white space, and [tok] holds the bytes of the element
    being read, last byte first. *)
Fixpoint split_spaces_go (skip : nat) (in_run : bool) (tok s : list Ascii.ascii)
  : list string :=
  match s with
  | [] => [String.string_of_list_ascii (rev tok)]
  | c :: rest =>
      match skip with
      | S k => split_spaces_go k in_run tok rest
      | O =>
          match space_width s with
          | O => split_spaces_go 0 false (c :: tok) rest
          | S k =>
              if in_run then split_spaces_go k true tok rest
              else
                String.string_of_list_ascii (rev tok) ::
                split_spaces_go k true [] rest
          end
      end
  end.

Definition split_spaces (s : string) : list string :=
  split_spaces_go 0 false [] (String.list_ascii_of_string s).

(** The code points that [\s] matches: the white space and the line
    terminators of ECMAScript. *)
Definition white_space : list N :=
  [9; 10; 11; 12; 13; 32; 160; 5760;
   8192; 8193; 8194; 8195; 8196; 8197; 8198; 8199; 8200; 8201; 8202;
   8232; 8233; 8239; 8287; 12288; 65279]%N.

(** The bytes of a code point below U+10000 in UTF-8. *)
Definition utf8 (cp : N) : list Ascii.ascii :=
  map Ascii.ascii_of_N
    (if cp <? 128 then [cp]
     else if cp <? 2048 then [192 + cp / 64; 128 + cp mod 64]
     else [224 + cp / 4096; 128 + (cp / 64) mod 64; 128 + cp mod 64])%N.

(** [s.startsWith(p)] *)
Definition starts_with (p s : string) : bool := String.prefix p s.

(** ** Spawn arguments (the head of the constructor) *)

Module Spawn.

(** The part of [process.env] the constructor reads, and the module
    constant [workerBin]. *)
Record Env := {
  MEDIASOUP_USE_VALGRIND : option string;
  MEDIASOUP_VALGRIND_BIN : option string;
  MEDIASOUP_VALGRIND_OPTIONS : option string;
  workerBin : string
}.

(** [process.env.X || fallback] and [if (process.env.X)]: an unset or
    empty variable is falsy. *)
Definition env_truthy (v : option string) : option string :=
  match v with
  | Some s => if String.eqb s "" then None else Some s
  | None => None
  end.

Section Settings.
Context {number : Type} `{JSNumber number}.
Abbreviation Value := (JS.Value number).

(** [WorkerSettings], as destructured by the constructor: an absent
    property is [undefined]. *)
Record WorkerSettings := {
  logLevel : Value;
  logTags : Value;
  rtcMinPort : Value;
  rtcMaxPort : Value;
  dtlsCertificateFile : Value;
  dtlsPrivateKeyFile : Value;
  libwebrtcFieldTrials : Value;
  appData : Value
}.

(** [if (typeof v === 'string' && v) spawnArgs.push(`--key=${v}`)] *)
Definition push_string (key : string) (v : Value) (spawnArgs : list string)
  : list string :=
  match v with
  | JS.Str s =>
      if String.eqb (JS.typeof v) "string" && JS.truthy v
      then spawnArgs ++ ["--" +:+ key +:+ "=" +:+ s]
      else spawnArgs
  | _ => spawnArgs
  end.

(** [if (typeof v === 'number' && !Number.isNaN(v))
      spawnArgs.push(`--key=${v}`)] *)
Definition push_number (key : string) (v : Value) (spawnArgs : list string)
  : list string :=
  match v with
  | JS.Num n =>
      if String.eqb (JS.typeof v) "number" && negb (Number_isNaN n)
      then spawnArgs ++ ["--" +:+ key +:+ "=" +:+ Number_toString n]
      else spawnArgs
  | _ => spawnArgs
  end.

(** The valgrind prefix: [spawnBin] and the arguments pushed before
    the settings are looked at. *)
Definition spawnBin (env : Env) : string :=
  match MEDIASOUP_USE_VALGRIND env with
  | Some "true" => default "valgrind" (env_truthy (MEDIASOUP_VALGRIND_BIN env))
  | _ => workerBin env
  end.

Definition valgrindArgs (env : Env) : list string :=
  match MEDIASOUP_USE_VALGRIND env with
  | Some "true" =>
      match env_truthy (MEDIASOUP_VALGRIND_OPTIONS env) with
      | Some opts => [] ++ split_spaces opts
      | None => []
      end ++ [workerBin env]
  | _ => []
  end.

(** The arguments the settings contribute, pushed onto [spawnArgs] in
    the order of the source. *)
Definition push_settings (s : WorkerSettings) (spawnArgs : list string)
  : list string :=
  let spawnArgs := push_string "logLevel" (logLevel s) spawnArgs in
  let spawnArgs :=
    fold_left (fun args logTag => push_string "logTag" logTag args)
              (JS.array_or_empty (logTags s)) spawnArgs in
  let spawnArgs := push_number "rtcMinPort" (rtcMinPort s) spawnArgs in
  let spawnArgs := push_number "rtcMaxPort" (rtcMaxPort s) spawnArgs in
  let spawnArgs :=
    push_string "dtlsCertificateFile" (dtlsCertificateFile s) spawnArgs in
  let spawnArgs :=
    push_string "dtlsPrivateKeyFile" (dtlsPrivateKeyFile s) spawnArgs in
  push_string "libwebrtcFieldTrials" (libwebrtcFieldTrials s) spawnArgs.

Definition spawnArgs (env : Env) (s : WorkerSettings) : list string :=
  push_settings s (valgrindArgs env).
End Settings.

Arguments WorkerSettings : clear implicits.

End Spawn.


(** ** The control channel *)

Module Channel.

(** The notifications of [fbs/notification] the Worker looks at. *)
Inductive Event : Type :=
| WORKER_RUNNING
| OTHER_EVENT (code : Z).

(** The request methods of [fbs/request] the Worker uses. *)
Inductive Method : Type :=
| WORKER_DUMP
| WORKER_GET_RESOURCE_USAGE
| WORKER_UPDATE_SETTINGS
| WORKER_CREATE_WEBRTCSERVER
| WORKER_CREATE_ROUTER.

Section Channel.
(** [K]: what a pending request's waiter will do with the response;
    [L]: the listeners registered on the channel. *)
Context {K L : Type}.

(** Modelled from the spec: the class [Channel] ([node/src/Channel.ts])
    is not among the sources. Section 3 gives it a closed flag, a
    pending-request table from request identifier to outstanding waiter, a
    monotonically assigned request-identifier source and a subject-keyed
    listener table. *)
Record t := {
  closed : bool;
  nextId : Z;
  sents : gmap Z K;
  listeners : list (string * L)
}.

(** Modelled from the spec: [new Channel(...)], a channel that is open,
    with nothing pending and no listener. *)
Definition create : t :=
  {| closed := false; nextId := 0; sents := ∅; listeners := [] |}.

(** Modelled from the spec: [Channel.request] fails at once on a closed
    channel (sections 4.1 and 7: a uniform "closed" error, nothing is
    sent); otherwise it takes the next identifier, sends the request and
    records the waiter under that identifier. The result is the error, or
    the identifier the caller now awaits. *)
Definition request (k : K) (ch : t) : (JS.Error + Z) * t :=
  if closed ch then (inl (JS.InvalidStateError "Channel closed"), ch)
  else
    let id := nextId ch + 1 in
    (inr id,
     {| closed := false; nextId := id; sents := <[id := k]> (sents ch);
        listeners := listeners ch |}).

(** Modelled from the spec: [Channel.close] is a no-op on a closed channel;
    otherwise it sets the closed flag and drains the pending table, every
    outstanding waiter being resolved with a failure (section 3). The
    result lists the drained waiters. *)
Definition close (ch : t) : list (Z * K) * t :=
  if closed ch then ([], ch)
  else
    (map_to_list (sents ch),
     {| closed := true; nextId := nextId ch; sents := ∅;
        listeners := listeners ch |}).

(** Modelled from the spec: a response is matched to the pending request
    of its identifier, which it resolves and removes (section 4.2: each
    identifier is resolved exactly once). *)
Definition take (id : Z) (ch : t) : option K * t :=
  match sents ch !! id with
  | Some k =>
      (Some k,
       {| closed := closed ch; nextId := nextId ch;
          sents := delete id (sents ch); listeners := listeners ch |})
  | None => (None, ch)
  end.

(** Modelled from the spec: [Channel.once(subject, listener)] appends a
    one-time listener for a subject. *)
Definition once (subject : string) (l : L) (ch : t) : t :=
  {| closed := closed ch; nextId := nextId ch; sents := sents ch;
     listeners := listeners ch ++ [(subject, l)] |}.

(** Modelled from the spec: a notification on a subject is handed to the
    listeners of that subject, in order; one-time listeners are removed
    before they run. *)
Definition notify (subject : string) (ch : t) : list L * t :=
  (snd <$> filter (fun p => fst p = subject) (listeners ch),
   {| closed := closed ch; nextId := nextId ch; sents := sents ch;
      listeners := filter (fun p => fst p <> subject) (listeners ch) |}).
End Channel.

Arguments t : clear implicits.

End Channel.

(** ** The Worker *)

(** Functions of other modules the Worker calls:
    [ortc.generateRouterRtpCapabilities], which may throw, and
    [socketFlagsToFbs] of [Router.ts]. *)
Class Collaborators (number : Type) := {
  generateRouterRtpCapabilities : JS.Value number -> JS.Error + JS.Value number;
  socketFlagsToFbs : JS.Value number -> JS.Value number
}.

Module Worker.

(** A [Router] or [WebRtcServer] object, by identity. *)
Definition ObjRef := nat.

(** The listeners the Worker puts on its [ChildProcess]: its own ['exit']
    and ['error'] handlers, and the empty handler [() => {}] that [close]
    leaves on ['error']. *)
Inductive ChildListener : Type :=
| OnExit
| OnError
| Inert.

(** The [ChildProcess] object returned by [spawn]. It outlives the field
    [#child]: Node keeps delivering its events to whatever listeners are
    still registered on it. *)
Record ChildProcess := {
  exit_listeners : list ChildListener;
  error_listeners : list ChildListener
}.

(** The listener registered on the channel: the one for the 'running'
    notification. *)
Inductive ChannelListener : Type :=
| OnRunning.

(** [Set.prototype.add] and [Set.prototype.delete] on an insertion-ordered
    set of object references. *)
Definition set_add (x : ObjRef) (s : list ObjRef) : list ObjRef :=
  if decide (x ∈ s) then s else s ++ [x].

Definition set_delete (x : ObjRef) (s : list ObjRef) : list ObjRef :=
  filter (fun y => y <> x) s.

(** The decoded [FbsWorker.ResourceUsageResponse]: sixteen unsigned 64-bit
    counters, which the generated code hands out as [bigint]. *)
Record ResourceUsageResponseT := {
  ruUtime : Z;
  ruStime : Z;
  ruMaxrss : Z;
  ruIxrss : Z;
  ruIdrss : Z;
  ruIsrss : Z;
  ruMinflt : Z;
  ruMajflt : Z;
  ruNswap : Z;
  ruInblock : Z;
  ruOublock : Z;
  ruMsgsnd : Z;
  ruMsgrcv : Z;
  ruNsignals : Z;
  ruNvcsw : Z;
  ruNivcsw : Z
}.

(** What the accessors of a [FbsWorker.DumpResponse] return. *)
Record LiburingDump := {
  sqeProcessCount_ : Z;
  sqeMissCount_ : Z;
  userDataMissCount_ : Z
}.

Record DumpResponse := {
  binary_pid : Z;
  binary_webRtcServerIds : list string;
  binary_routerIds : list string;
  binary_channelRequestHandlers : list string;
  binary_channelNotificationHandlers : list string;
  binary_liburing : option LiburingDump
}.

Section Model.
Context {number : Type} `{JSNumber number} `{Collaborators number}.
Abbreviation Value := (JS.Value number).


(** [WorkerDump] *)
Record Liburing := {
  sqeProcessCount : number;
  sqeMissCount : number;
  userDataMissCount : number
}.

Record WorkerDump := {
  dump_pid : Z;
  webRtcServerIds : list string;
  routerIds : list string;
  channelRequestHandlers : list string;
  channelNotificationHandlers : list string;
  liburing : option Liburing
}.

(** [WebRtcServerOptions], [RouterOptions] and [WorkerUpdateableSettings]
    as the methods destructure them. *)
Record ListenInfo := {
  protocol : Value;
  ip : Value;
  announcedIp : Value;
  port : Value;
  flags : Value;
  sendBufferSize : Value;
  recvBufferSize : Value
}.

Record WebRtcServerOptions := {
  listenInfos : list ListenInfo;
  webRtcServer_appData : Value
}.

Record RouterOptions := {
  mediaCodecs : Value;
  router_appData : Value
}.

Record WorkerUpdateableSettings := {
  update_logLevel : Value;
  update_logTags : Value
}.

Inductive FbsTransportProtocol : Type :=
| UDP
| TCP.

Record FbsListenInfoT := {
  fbs_protocol : FbsTransportProtocol;
  fbs_ip : Value;
  fbs_announcedIp : Value;
  fbs_port : Value;
  fbs_flags : Value;
  fbs_sendBufferSize : Value;
  fbs_recvBufferSize : Value
}.

(** The body packed for a request. *)
Inductive RequestBody : Type :=
| NoBody
| UpdateSettingsRequest (logLevel logTags : Value)
| CreateWebRtcServerRequest (webRtcServerId : string)
    (listenInfos : list FbsListenInfoT)
| CreateRouterRequest (routerId : string).

(** What an [async] method suspended at [await channel.request()] still
    has to do, with the local variables it needs for it. *)
Inductive Pending : Type :=
| AwaitDump
| AwaitResourceUsage
| AwaitUpdateSettings
| AwaitCreateWebRtcServer (webRtcServerId : string) (appData : Value)
| AwaitCreateRouter (routerId : string) (rtpCapabilities appData : Value).

(** Events of the Worker itself and of its observer. *)
Inductive WorkerEvent : Type :=
| Success
| Failure (error : JS.Error)
| Died (error : JS.Error).

Inductive ObserverEvent : Type :=
| OClose
| NewWebRtcServer (webRtcServer : ObjRef)
| NewRouter (router : ObjRef).

(** The calls the Worker makes on its collaborators. *)
Inductive Call : Type :=
| SpawnChild (command : string) (args : list string)
| ChildRemoveAllListeners (event : string)
| ChildOn (event : string) (listener : ChildListener)
| ChildKill (signal : string)
| ChannelOnce (subject : string)
| ChannelClose
| ChannelSend (id : Z) (method : Channel.Method) (body : RequestBody)
| RequestFailed (id : Z) (error : JS.Error)
| RouterWorkerClosed (router : ObjRef)
| WebRtcServerWorkerClosed (webRtcServer : ObjRef)
| Emit (event : WorkerEvent)
| SafeEmit (event : WorkerEvent)
| ObserverSafeEmit (event : ObserverEvent).

(** The private fields of the class, the constructor's local [spawnDone]
    that its closures share, the [ChildProcess] object and the next free
    object reference. [child] is [true] while [#child] holds the
    [ChildProcess] and [false] once it is [undefined]; [pid] is [None] when
    [child.pid] is [undefined] (the spawn failed). *)
Record t := {
  child : bool;
  pid : option Z;
  channel : Channel.t Pending ChannelListener;
  closed : bool;
  died : bool;
  appData : Value;
  webRtcServers : list ObjRef;
  routers : list ObjRef;
  spawnDone : bool;
  process : ChildProcess;
  next_object : ObjRef
}.

Definition set_child (b : bool) (w : t) : t :=
  {| child := b; pid := pid w; channel := channel w; closed := closed w;
     died := died w; appData := appData w; webRtcServers := webRtcServers w;
     routers := routers w; spawnDone := spawnDone w; process := process w;
     next_object := next_object w |}.

Definition set_channel (ch : Channel.t Pending ChannelListener) (w : t) : t :=
  {| child := child w; pid := pid w; channel := ch; closed := closed w;
     died := died w; appData := appData w; webRtcServers := webRtcServers w;
     routers := routers w; spawnDone := spawnDone w; process := process w;
     next_object := next_object w |}.

Definition set_closed (b : bool) (w : t) : t :=
  {| child := child w; pid := pid w; channel := channel w; closed := b;
     died := died w; appData := appData w; webRtcServers := webRtcServers w;
     routers := routers w; spawnDone := spawnDone w; process := process w;
     next_object := next_object w |}.

Definition set_died (b : bool) (w : t) : t :=
  {| child := child w; pid := pid w; channel := channel w; closed := closed w;
     died := b; appData := appData w; webRtcServers := webRtcServers w;
     routers := routers w; spawnDone := spawnDone w; process := process w;
     next_object := next_object w |}.

Definition set_appData (v : Value) (w : t) : t :=
  {| child := child w; pid := pid w; channel := channel w; closed := closed w;
     died := died w; appData := v; webRtcServers := webRtcServers w;
     routers := routers w; spawnDone := spawnDone w; process := process w;
     next_object := next_object w |}.

Definition set_webRtcServers (s : list ObjRef) (w : t) : t :=
  {| child := child w; pid := pid w; channel := channel w; closed := closed w;
     died := died w; appData := appData w; webRtcServers := s;
     routers := routers w; spawnDone := spawnDone w; process := process w;
     next_object := next_object w |}.

Definition set_routers (s : list ObjRef) (w : t) : t :=
  {| child := child w; pid := pid w; channel := channel w; closed := closed w;
     died := died w; appData := appData w; webRtcServers := webRtcServers w;
     routers := s; spawnDone := spawnDone w; process := process w;
     next_object := next_object w |}.

Definition set_spawnDone (b : bool) (w : t) : t :=
  {| child := child w; pid := pid w; channel := channel w; closed := closed w;
     died := died w; appData := appData w; webRtcServers := webRtcServers w;
     routers := routers w; spawnDone := b; process := process w;
     next_object := next_object w |}.

Definition set_process (p : ChildProcess) (w : t) : t :=
  {| child := child w; pid := pid w; channel := channel w; closed := closed w;
     died := died w; appData := appData w; webRtcServers := webRtcServers w;
     routers := routers w; spawnDone := spawnDone w; process := p;
     next_object := next_object w |}.

Definition set_next_object (n : ObjRef) (w : t) : t :=
  {| child := child w; pid := pid w; channel := channel w; closed := closed w;
     died := died w; appData := appData w; webRtcServers := webRtcServers w;
     routers := routers w; spawnDone := spawnDone w; process := process w;
     next_object := n |}.

(** *** Methods as state transformers that log their calls *)

Definition M (A : Type) : Type := t -> A * t * list Call.

Definition ret {A : Type} (a : A) : M A := fun w => (a, w, []).

Definition bind {A B : Type} (m : M A) (k : A -> M B) : M B := fun w =>
  let '(a, w1, c1) := m w in
  let '(b, w2, c2) := k a w1 in
  (b, w2, c1 ++ c2).

Notation "'let*' x ':=' m 'in' k" := (bind m (fun x => k))
  (at level 10, x name, m at level 100, k at level 200, only parsing).
Notation "m ';;' k" := (bind m (fun _ => k))
  (at level 100, k at level 200, only parsing, right associativity).

Definition gets {A : Type} (f : t -> A) : M A := fun w => (f w, w, []).
Definition modify (f : t -> t) : M unit := fun w => (tt, f w, []).
Definition call (c : Call) : M unit := fun w => (tt, w, [c]).

Definition state_of {A : Type} (r : A * t * list Call) : t := r.1.2.
Definition calls_of {A : Type} (r : A * t * list Call) : list Call := r.2.
Definition value_of {A : Type} (r : A * t * list Call) : A := r.1.1.

(** [for (const x of xs) body(x)] over a snapshot the body does not
    change. *)
Fixpoint for_each {A : Type} (xs : list A) (body : A -> M unit) : M unit :=
  match xs with
  | [] => ret tt
  | x :: xs' => body x ;; for_each xs' body
  end.

(** *** Calls on the child process and the channel *)

(** [child.removeAllListeners(event)] *)
Definition child_removeAllListeners (event : string) : M unit :=
  call (ChildRemoveAllListeners event) ;;
  modify (fun w =>
    set_process
      {| exit_listeners :=
           if String.eqb event "exit" then [] else exit_listeners (process w);
         error_listeners :=
           if String.eqb event "error" then []
           else error_listeners (process w) |} w).

(** [child.on('error', () => {})] *)
Definition child_on_error_inert : M unit :=
  call (ChildOn "error" Inert) ;;
  modify (fun w =>
    set_process
      {| exit_listeners := exit_listeners (process w);
         error_listeners := error_listeners (process w) ++ [Inert] |} w).

(** [channel.close()]: the waiters it drains fail with the "closed"
    error. *)
Definition channel_close : M unit := fun w =>
  let '(drained, ch) := Channel.close (channel w) in
  (tt, set_channel ch w,
   ChannelClose ::
   map (fun p => RequestFailed p.1 (JS.InvalidStateError "Channel closed"))
       drained).

(** [channel.request(method, bodyType, bodyOffset)] up to the point where
    the caller awaits: the error thrown, or the identifier awaited. *)
Definition channel_request (method : Channel.Method) (body : RequestBody)
  (k : Pending) : M (JS.Error + Z) := fun w =>
  match Channel.request k (channel w) with
  | (inl e, _) => (inl e, w, [])
  | (inr id, ch) => (inr id, set_channel ch w, [ChannelSend id method body])
  end.

(** *** close and workerDied *)

Definition close : M unit :=
  let* is_closed := gets closed in
  if is_closed then ret tt
  else
    modify (set_closed true) ;;
    (let* has_child := gets child in
     if has_child then
       child_removeAllListeners "exit" ;;
       child_removeAllListeners "error" ;;
       child_on_error_inert ;;
       call (ChildKill "SIGTERM") ;;
       modify (set_child false)
     else ret tt) ;;
    channel_close ;;
    (let* rs := gets routers in
     for_each rs (fun router => call (RouterWorkerClosed router))) ;;
    modify (set_routers []) ;;
    (let* ss := gets webRtcServers in
     for_each ss (fun server => call (WebRtcServerWorkerClosed server))) ;;
    modify (set_webRtcServers []) ;;
    call (ObserverSafeEmit OClose).

Definition workerDied (error : JS.Error) : M unit :=
  let* is_closed := gets closed in
  if is_closed then ret tt
  else
    modify (set_closed true) ;;
    modify (set_died true) ;;
    channel_close ;;
    (let* rs := gets routers in
     for_each rs (fun router => call (RouterWorkerClosed router))) ;;
    modify (set_routers []) ;;
    (let* ss := gets webRtcServers in
     for_each ss (fun server => call (WebRtcServerWorkerClosed server))) ;;
    modify (set_webRtcServers []) ;;
    call (SafeEmit (Died error)) ;;
    call (ObserverSafeEmit OClose).

(** *** The constructor and the handlers it installs *)

(** [`${this.#pid}`], [`${code}`] and [`${signal}`]: [child.pid] is a
    number or [undefined], [code] a number or [null], [signal] a string or
    [null]. *)
Definition pid_string (p : option Z) : string := from_option pretty "undefined" p.
Definition code_string (c : option Z) : string := from_option pretty "null" c.
Definition signal_string (s : option string) : string := default "null" s.

(** [`[pid:${this.#pid}, code:${code}, signal:${signal}]`] *)
Definition exit_message (p c : option Z) (s : option string) : string :=
  "[pid:" +:+ pid_string p +:+ ", code:" +:+ code_string c +:+
  ", signal:" +:+ signal_string s +:+ "]".

(** The listener of the 'running' notification. *)
Definition on_running (event : Channel.Event) : M unit :=
  let* done := gets spawnDone in
  match event with
  | Channel.WORKER_RUNNING =>
      if negb done then modify (set_spawnDone true) ;; call (Emit Success)
      else ret tt
  | _ => ret tt
  end.

(** The ['exit'] handler of the child process. *)
Definition on_exit (code : option Z) (signal : option string) : M unit :=
  modify (set_child false) ;;
  let* done := gets spawnDone in
  let* p := gets pid in
  if negb done then
    modify (set_spawnDone true) ;;
    if decide (code = Some 42) then
      close ;;
      call (Emit (Failure (JS.TypeError "wrong settings")))
    else
      close ;;
      call (Emit (Failure (JS.PlainError (exit_message p code signal))))
  else workerDied (JS.PlainError (exit_message p code signal)).

(** The ['error'] handler of the child process. *)
Definition on_error (error : JS.Error) : M unit :=
  modify (set_child false) ;;
  let* done := gets spawnDone in
  if negb done then
    modify (set_spawnDone true) ;;
    close ;;
    call (Emit (Failure error))
  else workerDied error.

(** [new Worker(settings)] in the environment [env], [child_pid] being the
    [pid] of the [ChildProcess] that [spawn] returns. *)
Definition constructor (env : Spawn.Env) (settings : Spawn.WorkerSettings number)
  (child_pid : option Z) : t * list Call :=
  ({| child := true;
      pid := child_pid;
      channel := Channel.once (pid_string child_pid) OnRunning Channel.create;
      closed := false;
      died := false;
      appData := JS.or_else (Spawn.appData settings) (JS.Object []);
      webRtcServers := [];
      routers := [];
      spawnDone := false;
      process := {| exit_listeners := [OnExit]; error_listeners := [OnError] |};
      next_object := 0%nat |},
   [SpawnChild (Spawn.spawnBin env) (Spawn.spawnArgs env settings);
    ChannelOnce (pid_string child_pid);
    ChildOn "exit" OnExit;
    ChildOn "error" OnError]).

(** *** Getters and the setter *)

Definition get_pid (w : t) : option Z := pid w.
Definition get_closed (w : t) : bool := closed w.
Definition get_died (w : t) : bool := died w.
Definition get_appData (w : t) : Value := appData w.
Definition put_appData (v : Value) : M unit := modify (set_appData v).

(** *** Request methods, up to their [await] *)

Definition dump : M (JS.Error + Z) :=
  channel_request Channel.WORKER_DUMP NoBody AwaitDump.

Definition getResourceUsage : M (JS.Error + Z) :=
  channel_request Channel.WORKER_GET_RESOURCE_USAGE NoBody AwaitResourceUsage.

Definition updateSettings (s : WorkerUpdateableSettings) : M (JS.Error + Z) :=
  channel_request Channel.WORKER_UPDATE_SETTINGS
    (UpdateSettingsRequest (update_logLevel s) (update_logTags s))
    AwaitUpdateSettings.

(** [appData && typeof appData !== 'object'] *)
Definition bad_appData (v : Value) : bool :=
  JS.truthy v && negb (String.eqb (JS.typeof v) "object").

Definition to_fbs (listenInfo : ListenInfo) : FbsListenInfoT :=
  {| fbs_protocol :=
       match protocol listenInfo with
       | JS.Str p => if String.eqb p "udp" then UDP else TCP
       | _ => TCP
       end;
     fbs_ip := ip listenInfo;
     fbs_announcedIp := announcedIp listenInfo;
     fbs_port := port listenInfo;
     fbs_flags := socketFlagsToFbs (flags listenInfo);
     fbs_sendBufferSize := sendBufferSize listenInfo;
     fbs_recvBufferSize := recvBufferSize listenInfo |}.

(** [uuid] is what [utils.generateUUIDv4()] returns in this call. *)
Definition createWebRtcServer (o : WebRtcServerOptions) (uuid : string)
  : M (JS.Error + Z) :=
  if bad_appData (webRtcServer_appData o) then
    ret (inl (JS.TypeError "if given, appData must be an object"))
  else
    let fbsListenInfos := to_fbs <$> listenInfos o in
    let webRtcServerId := uuid in
    channel_request Channel.WORKER_CREATE_WEBRTCSERVER
      (CreateWebRtcServerRequest webRtcServerId fbsListenInfos)
      (AwaitCreateWebRtcServer webRtcServerId (webRtcServer_appData o)).

(** [utils.clone] makes a deep copy: the same value. *)
Definition createRouter (o : RouterOptions) (uuid : string)
  : M (JS.Error + Z) :=
  if bad_appData (router_appData o) then
    ret (inl (JS.TypeError "if given, appData must be an object"))
  else
    let clonedMediaCodecs := mediaCodecs o in
    match generateRouterRtpCapabilities clonedMediaCodecs with
    | inl thrown => ret (inl thrown)
    | inr rtpCapabilities =>
        let routerId := uuid in
        channel_request Channel.WORKER_CREATE_ROUTER
          (CreateRouterRequest routerId)
          (AwaitCreateRouter routerId rtpCapabilities (router_appData o))
    end.

(** *** Request methods, after their [await] *)

(** [parseWorkerDumpResponse] *)
Definition parseWorkerDumpResponse (binary : DumpResponse) : WorkerDump :=
  {| dump_pid := binary_pid binary;
     webRtcServerIds := binary_webRtcServerIds binary;
     routerIds := binary_routerIds binary;
     channelRequestHandlers := binary_channelRequestHandlers binary;
     channelNotificationHandlers := binary_channelNotificationHandlers binary;
     liburing :=
       match binary_liburing binary with
       | Some u =>
           Some {| sqeProcessCount := Number_of_bigint (sqeProcessCount_ u);
                   sqeMissCount := Number_of_bigint (sqeMissCount_ u);
                   userDataMissCount := Number_of_bigint (userDataMissCount_ u) |}
       | None => None
       end |}.

(** What [getResourceUsage] returns once the response is decoded into
    [ru]: the object literal of the source. *)
Definition resourceUsage (ru : ResourceUsageResponseT) : Value :=
  JS.Object
    [("ru_utime", JS.Num (Number_of_bigint (ruUtime ru)));
     ("ru_stime", JS.Num (Number_of_bigint (ruStime ru)));
     ("ru_maxrss", JS.Num (Number_of_bigint (ruMaxrss ru)));
     ("ru_ixrss", JS.Num (Number_of_bigint (ruIxrss ru)));
     ("ru_idrss", JS.Num (Number_of_bigint (ruIdrss ru)));
     ("ru_isrss", JS.Num (Number_of_bigint (ruIsrss ru)));
     ("ru_minflt", JS.Num (Number_of_bigint (ruMinflt ru)));
     ("ru_majflt", JS.Num (Number_of_bigint (ruMajflt ru)));
     ("ru_nswap", JS.Num (Number_of_bigint (ruNswap ru)));
     ("ru_inblock", JS.Num (Number_of_bigint (ruInblock ru)));
     ("ru_oublock", JS.Num (Number_of_bigint (ruOublock ru)));
     ("ru_msgsnd", JS.Num (Number_of_bigint (ruMsgsnd ru)));
     ("ru_msgrcv", JS.Num (Number_of_bigint (ruMsgrcv ru)));
     ("ru_nsignals", JS.Num (Number_of_bigint (ruNsignals ru)));
     ("ru_nvcsw", JS.Num (Number_of_bigint (ruNvcsw ru)));
     ("ru_nivcsw", JS.Num (Number_of_bigint (ruNivcsw ru)))].

(** The rest of [createWebRtcServer]: the new [WebRtcServer] object is
    added to the set and announced on the observer. *)
Definition createWebRtcServer_resumed : M ObjRef :=
  let* webRtcServer := gets next_object in
  modify (set_next_object (S webRtcServer)) ;;
  modify (fun w => set_webRtcServers (set_add webRtcServer (webRtcServers w)) w) ;;
  call (ObserverSafeEmit (NewWebRtcServer webRtcServer)) ;;
  ret webRtcServer.

(** The rest of [createRouter]. *)
Definition createRouter_resumed : M ObjRef :=
  let* router := gets next_object in
  modify (set_next_object (S router)) ;;
  modify (fun w => set_routers (set_add router (routers w)) w) ;;
  call (ObserverSafeEmit (NewRouter router)) ;;
  ret router.

(** The ['@close'] listeners put on a new [WebRtcServer] and a new
    [Router]. *)
Definition on_webRtcServer_close (webRtcServer : ObjRef) : M unit :=
  modify (fun w => set_webRtcServers (set_delete webRtcServer (webRtcServers w)) w).

Definition on_router_close (router : ObjRef) : M unit :=
  modify (fun w => set_routers (set_delete router (routers w)) w).

(** *** What can happen to a Worker *)

(** The answer of the worker process to a request. *)
Inductive Response : Type :=
| Accepted
| Refused (reason : JS.Error).

(** A call of a public member by the application, or an event delivered
    by Node: a response or a notification on the channel, ['exit'] or
    ['error'] on the [ChildProcess], ['@close'] on a resource. *)
Inductive Action : Type :=
| DoClose
| DoSetAppData (v : Value)
| DoDump
| DoGetResourceUsage
| DoUpdateSettings (s : WorkerUpdateableSettings)
| DoCreateWebRtcServer (o : WebRtcServerOptions) (uuid : string)
| DoCreateRouter (o : RouterOptions) (uuid : string)
| GotResponse (id : Z) (r : Response)
| GotNotification (subject : string) (event : Channel.Event)
| ChildExit (code : option Z) (signal : option string)
| ChildError (error : JS.Error)
| WebRtcServerClosed (webRtcServer : ObjRef)
| RouterClosed (router : ObjRef).

Definition run_child_listener_exit (code : option Z) (signal : option string)
  (l : ChildListener) : M unit :=
  match l with
  | OnExit => on_exit code signal
  | _ => ret tt
  end.

Definition run_child_listener_error (error : JS.Error) (l : ChildListener)
  : M unit :=
  match l with
  | OnError => on_error error
  | _ => ret tt
  end.

(** [child.emit('exit', code, signal)] and [child.emit('error', error)]:
    the listeners registered at that moment run in order. *)
Definition child_emit_exit (code : option Z) (signal : option string) : M unit :=
  let* ls := gets (fun w => exit_listeners (process w)) in
  for_each ls (run_child_listener_exit code signal).

Definition child_emit_error (error : JS.Error) : M unit :=
  let* ls := gets (fun w => error_listeners (process w)) in
  for_each ls (run_child_listener_error error).

(** A notification read from the channel. *)
Definition channel_notification (subject : string) (event : Channel.Event)
  : M unit := fun w =>
  let '(ls, ch) := Channel.notify subject (channel w) in
  for_each ls (fun _ => on_running event) (set_channel ch w).

(** A response read from the channel: the method awaiting it goes on, or
    throws when the request was refused. *)
Definition channel_response (id : Z) (r : Response) : M unit := fun w =>
  match Channel.take id (channel w) with
  | (Some k, ch) =>
      match r, k with
      | Accepted, AwaitCreateWebRtcServer _ _ =>
          (createWebRtcServer_resumed ;; ret tt) (set_channel ch w)
      | Accepted, AwaitCreateRouter _ _ _ =>
          (createRouter_resumed ;; ret tt) (set_channel ch w)
      | _, _ => (tt, set_channel ch w, [])
      end
  | (None, _) => (tt, w, [])
  end.

Definition perform (a : Action) : M unit :=
  match a with
  | DoClose => close
  | DoSetAppData v => put_appData v
  | DoDump => dump ;; ret tt
  | DoGetResourceUsage => getResourceUsage ;; ret tt
  | DoUpdateSettings s => updateSettings s ;; ret tt
  | DoCreateWebRtcServer o uuid => createWebRtcServer o uuid ;; ret tt
  | DoCreateRouter o uuid => createRouter o uuid ;; ret tt
  | GotResponse id r => channel_response id r
  | GotNotification subject event => channel_notification subject event
  | ChildExit code signal => child_emit_exit code signal
  | ChildError error => child_emit_error error
  | WebRtcServerClosed s => on_webRtcServer_close s
  | RouterClosed r => on_router_close r
  end.

(** A history: the actions run one after the other. *)
Definition run (actions : list Action) : M unit := for_each actions perform.

(** The states a Worker can be in: the one the constructor builds, and
    every state an action leads to from there. *)
Inductive reachable : t -> Prop :=
| reachable_new env settings child_pid :
    reachable (constructor env settings child_pid).1
| reachable_step w a :
    reachable w -> reachable (state_of (perform a w)).

(** *** The shape of reachable states *)

(** Before [close] or [workerDied] has run, the Worker holds its child
    with both handlers on it, and its channel is open. *)
Definition running (w : t) : Prop :=
  closed w = false /\ died w = false /\ child w = true /\
  Channel.closed (channel w) = false /\
  exit_listeners (process w) = [OnExit] /\
  error_listeners (process w) = [OnError].

(** Afterwards the child is dropped, the channel is closed with nothing
    pending, and the sets are empty; the handlers are either removed (by
    [close]) or were left in place by a handler that had already decided
    the outcome of the spawn. *)
Definition shut (w : t) : Prop :=
  closed w = true /\ child w = false /\
  Channel.closed (channel w) = true /\
  Channel.sents (channel w) = ∅ /\
  routers w = [] /\ webRtcServers w = [] /\
  (died w = true -> spawnDone w = true) /\
  ((exit_listeners (process w) = [] /\ error_listeners (process w) = [Inert]) \/
   (exit_listeners (process w) = [OnExit] /\
    error_listeners (process w) = [OnError] /\ spawnDone w = true)).

Definition invariant (w : t) : Prop :=
  NoDup (routers w) /\ NoDup (webRtcServers w) /\ (running w \/ shut w).

(** The calls that belong to a close or a death: the cascade over the
    resources, the ['died'] event and the observer's ['close']. *)
Definition closing_call (c : Call) : bool :=
  match c with
  | RouterWorkerClosed _ | WebRtcServerWorkerClosed _ => true
  | Emit (Died _) | SafeEmit (Died _) => true
  | ObserverSafeEmit OClose => true
  | _ => false
  end.

(** An event raised on the Worker itself. *)
Definition is_emit (c : Call) : bool :=
  match c with
  | Emit _ | SafeEmit _ => true
  | _ => false
  end.

(** How often a router, or a WebRtcServer, is told [workerClosed()]. *)
Definition router_closings (r : ObjRef) (cs : list Call) : nat :=
  length (List.filter
            (fun c => match c with
                      | RouterWorkerClosed r' => bool_decide (r' = r)
                      | _ => false
                      end) cs).

Definition webRtcServer_closings (s : ObjRef) (cs : list Call) : nat :=
  length (List.filter
            (fun c => match c with
                      | WebRtcServerWorkerClosed s' => bool_decide (s' = s)
                      | _ => false
                      end) cs).

(** The cascade, for a method or event that ran from state [w] with
    outcome [r]: every router and every WebRtcServer that was in the sets
    of [w] got one [workerClosed()], nothing else got any, and the sets
    are empty afterwards. *)
Definition cascaded (w : t) (r : unit * t * list Call) : Prop :=
  (forall x, router_closings x (calls_of r) =
             if decide (x ∈ routers w) then 1%nat else 0%nat) /\
  (forall x, webRtcServer_closings x (calls_of r) =
             if decide (x ∈ webRtcServers w) then 1%nat else 0%nat) /\
  routers (state_of r) = [] /\
  webRtcServers (state_of r) = [].
End Model.

Arguments t : clear implicits.
Arguments Call : clear implicits.
Arguments Action : clear implicits.
Arguments ListenInfo : clear implicits.
Arguments RouterOptions : clear implicits.
Arguments WebRtcServerOptions : clear implicits.
Arguments WorkerUpdateableSettings : clear implicits.

End Worker.

(** ** What the specification describes: arguments and record fields *)

Module Spec.

Section Arguments.
Context {number : Type} `{JSNumber number}.
Abbreviation Value := (JS.Value number).

(** A string setting gives [--key=value] when it is a non-empty string,
    and nothing otherwise. *)
Definition string_argument (key : string) (v : Value) : list string :=
  match v with
  | JS.Str s => if decide (s = "") then [] else ["--" +:+ key +:+ "=" +:+ s]
  | _ => []
  end.

(** A numeric setting gives [--key=value] when it is a number other than
    NaN, and nothing otherwise. *)
Definition number_argument (key : string) (v : Value) : list string :=
  match v with
  | JS.Num n =>
      if Number_isNaN n then [] else ["--" +:+ key +:+ "=" +:+ Number_toString n]
  | _ => []
  end.

(** [logTags] gives one [--logTag=tag] for each non-empty string of the
    array, in order, and nothing when it is not an array. *)
Definition logTag_arguments (v : Value) : list string :=
  match v with
  | JS.Array tags => tags ≫= string_argument "logTag"
  | _ => []
  end.

Definition settings_arguments (s : Spawn.WorkerSettings number) : list string :=
  string_argument "logLevel" (Spawn.logLevel s) ++
  logTag_arguments (Spawn.logTags s) ++
  number_argument "rtcMinPort" (Spawn.rtcMinPort s) ++
  number_argument "rtcMaxPort" (Spawn.rtcMaxPort s) ++
  string_argument "dtlsCertificateFile" (Spawn.dtlsCertificateFile s) ++
  string_argument "dtlsPrivateKeyFile" (Spawn.dtlsPrivateKeyFile s) ++
  string_argument "libwebrtcFieldTrials" (Spawn.libwebrtcFieldTrials s).

(** The number of recognised settings that are present with the type
    [WorkerSettings] declares for them: a string, a number, or an array
    for [logTags]. *)
Definition is_string (v : Value) : bool := String.eqb (JS.typeof v) "string".
Definition is_number (v : Value) : bool := String.eqb (JS.typeof v) "number".
Definition is_array (v : Value) : bool :=
  match v with
  | JS.Array _ => true
  | _ => false
  end.

Definition well_typed_settings (s : Spawn.WorkerSettings number) : nat :=
  length (List.filter id
    [is_string (Spawn.logLevel s);
     is_array (Spawn.logTags s);
     is_number (Spawn.rtcMinPort s);
     is_number (Spawn.rtcMaxPort s);
     is_string (Spawn.dtlsCertificateFile s);
     is_string (Spawn.dtlsPrivateKeyFile s);
     is_string (Spawn.libwebrtcFieldTrials s)]).

(** An argument that sets a port. *)
Definition is_port_argument (a : string) : bool :=
  starts_with "--rtcMinPort=" a || starts_with "--rtcMaxPort=" a.
End Arguments.

(** The sixteen fields of [WorkerResourceUsage], in the order of the type
    declaration. *)
Definition WorkerResourceUsage_fields : list string :=
  ["ru_utime"; "ru_stime"; "ru_maxrss"; "ru_ixrss"; "ru_idrss"; "ru_isrss";
   "ru_minflt"; "ru_majflt"; "ru_nswap"; "ru_inblock"; "ru_oublock";
   "ru_msgsnd"; "ru_msgrcv"; "ru_nsignals"; "ru_nvcsw"; "ru_nivcsw"].

End Spec.

(** ** Integer numbers *)

(** The numbers that are NaN or an integer. A template literal prints an
    integer of magnitude below [10^21] as its decimal numeral, which is
    what [Number_toString] gives here; [Number(x)] rounds a [bigint] to
    the nearest double, ties to even. *)
Module IntNumber.

Inductive t : Type :=
| NaN
| Int (z : Z).

Definition round_to_double (z : Z) : Z :=
  let a := Z.abs z in
  if a <? 2 ^ 53 then z
  else
    let e := Z.log2 a - 52 in
    let q := Z.shiftr a e in
    let r := Z.land a (Z.ones e) in
    let half := 2 ^ (e - 1) in
    let q' := if (half <? r) || ((r =? half) && Z.odd q) then q + 1 else q in
    Z.sgn z * Z.shiftl q' e.

#[global] Instance number : JSNumber t := {|
  Number_isNaN := fun n => match n with NaN => true | Int _ => false end;
  Number_toString := fun n => match n with NaN => "NaN" | Int z => pretty z end;
  Number_truthy := fun n => match n with NaN => false | Int z => negb (z =? 0) end;
  Number_of_bigint := fun z => Int (round_to_double z)
|}.

(** Stand-ins for the collaborators: capability generation that accepts
    every input and returns it, and socket flags passed through. *)
#[global] Instance collaborators : Collaborators t := {|
  generateRouterRtpCapabilities := fun mediaCodecs => inr mediaCodecs;
  socketFlagsToFbs := fun flags => flags
|}.

End IntNumber.

(** ** Sample inputs *)

Module Sample.
Import IntNumber.

Definition env : Spawn.Env :=
  {| Spawn.MEDIASOUP_USE_VALGRIND := None;
     Spawn.MEDIASOUP_VALGRIND_BIN := None;
     Spawn.MEDIASOUP_VALGRIND_OPTIONS := None;
     Spawn.workerBin := "/usr/lib/mediasoup/worker/out/Release/mediasoup-worker" |}.

Definition no_settings : Spawn.WorkerSettings IntNumber.t :=
  {| Spawn.logLevel := JS.Undefined;
     Spawn.logTags := JS.Undefined;
     Spawn.rtcMinPort := JS.Undefined;
     Spawn.rtcMaxPort := JS.Undefined;
     Spawn.dtlsCertificateFile := JS.Undefined;
     Spawn.dtlsPrivateKeyFile := JS.Undefined;
     Spawn.libwebrtcFieldTrials := JS.Undefined;
     Spawn.appData := JS.Undefined |}.

(** [{ rtcMinPort: 10000, rtcMaxPort: 10010 }] *)
Definition ports : Spawn.WorkerSettings IntNumber.t :=
  {| Spawn.logLevel := JS.Undefined;
     Spawn.logTags := JS.Undefined;
     Spawn.rtcMinPort := JS.Num (Int 10000);
     Spawn.rtcMaxPort := JS.Num (Int 10010);
     Spawn.dtlsCertificateFile := JS.Undefined;
     Spawn.dtlsPrivateKeyFile := JS.Undefined;
     Spawn.libwebrtcFieldTrials := JS.Undefined;
     Spawn.appData := JS.Undefined |}.

(** [{ logTags: ['ice', 'dtls'] }] *)
Definition two_tags : Spawn.WorkerSettings IntNumber.t :=
  {| Spawn.logLevel := JS.Undefined;
     Spawn.logTags := JS.Array [JS.Str "ice"; JS.Str "dtls"];
     Spawn.rtcMinPort := JS.Undefined;
     Spawn.rtcMaxPort := JS.Undefined;
     Spawn.dtlsCertificateFile := JS.Undefined;
     Spawn.dtlsPrivateKeyFile := JS.Undefined;
     Spawn.libwebrtcFieldTrials := JS.Undefined;
     Spawn.appData := JS.Undefined |}.

(** [{ dtlsCertificateFile: '' }] *)
Definition empty_certificate : Spawn.WorkerSettings IntNumber.t :=
  {| Spawn.logLevel := JS.Undefined;
     Spawn.logTags := JS.Undefined;
     Spawn.rtcMinPort := JS.Undefined;
     Spawn.rtcMaxPort := JS.Undefined;
     Spawn.dtlsCertificateFile := JS.Str "";
     Spawn.dtlsPrivateKeyFile := JS.Undefined;
     Spawn.libwebrtcFieldTrials := JS.Undefined;
     Spawn.appData := JS.Undefined |}.

(** A Worker just built, with pid 4242. *)
Definition fresh : Worker.t IntNumber.t := (Worker.constructor env no_settings (Some 4242)).1.

(** [createRouter()] and [createWebRtcServer({ listenInfos: [] })] with
    no [appData]. *)
Definition router_options : Worker.RouterOptions IntNumber.t :=
  {| Worker.mediaCodecs := JS.Undefined; Worker.router_appData := JS.Undefined |}.

Definition server_options : Worker.WebRtcServerOptions IntNumber.t :=
  {| Worker.listenInfos := []; Worker.webRtcServer_appData := JS.Undefined |}.

(** A Worker that is running and owns a router and a WebRtcServer: the
    'running' notification came, then both creations were requested and
    answered. *)
Definition history : list (Worker.Action IntNumber.t) :=
  [Worker.GotNotification "4242" Channel.WORKER_RUNNING;
   Worker.DoCreateRouter router_options "11111111-1111-4111-8111-111111111111";
   Worker.GotResponse 1 Worker.Accepted;
   Worker.DoCreateWebRtcServer server_options "22222222-2222-4222-8222-222222222222";
   Worker.GotResponse 2 Worker.Accepted].

Definition busy : Worker.t IntNumber.t := Worker.state_of (Worker.run history fresh).

(** The same Worker after [close()], and after its child process exited
    with code 1. *)
Definition shut_down : Worker.t IntNumber.t :=
  Worker.state_of (Worker.perform Worker.DoClose busy).

Definition dead : Worker.t IntNumber.t :=
  Worker.state_of (Worker.perform (Worker.ChildExit (Some 1) None) busy).

(** A Worker closed by the application before the 'running' notification
    came. *)
Definition closed_early : Worker.t IntNumber.t :=
  Worker.state_of (Worker.perform Worker.DoClose fresh).

(** [createRouter({ appData: 7 })] *)
Definition bad_router_options : Worker.RouterOptions IntNumber.t :=
  {| Worker.mediaCodecs := JS.Undefined; Worker.router_appData := JS.Num (Int 7) |}.

Definition bad_server_options : Worker.WebRtcServerOptions IntNumber.t :=
  {| Worker.listenInfos := []; Worker.webRtcServer_appData := JS.Str "x" |}.

Definition usage : Worker.ResourceUsageResponseT :=
  {| Worker.ruUtime := 120; Worker.ruStime := 35; Worker.ruMaxrss := 51200;
     Worker.ruIxrss := 0; Worker.ruIdrss := 0; Worker.ruIsrss := 0;
     Worker.ruMinflt := 3021; Worker.ruMajflt := 2; Worker.ruNswap := 0;
     Worker.ruInblock := 8; Worker.ruOublock := 16; Worker.ruMsgsnd := 0;
     Worker.ruMsgrcv := 0; Worker.ruNsignals := 0; Worker.ruNvcsw := 740;
     Worker.ruNivcsw := 12 |}.

End Sample.

(** ** Reading a log of calls *)

Module Log.

Section Log.
Context {number : Type} `{JSNumber number}.

(** How many calls of a log satisfy a test. *)
Definition count (p : Worker.Call number -> bool) (cs : list (Worker.Call number))
  : nat :=
  length (List.filter p cs).

(** ['@success'], ['@failure'] and ['died'] raised on the Worker,
    ['close'] raised on its observer, and a signal sent to the child. *)
Definition is_success (c : Worker.Call number) : bool :=
  match c with
  | Worker.Emit Worker.Success | Worker.SafeEmit Worker.Success => true
  | _ => false
  end.

Definition is_failure (c : Worker.Call number) : bool :=
  match c with
  | Worker.Emit (Worker.Failure _) | Worker.SafeEmit (Worker.Failure _) => true
  | _ => false
  end.

Definition is_died (c : Worker.Call number) : bool :=
  match c with
  | Worker.Emit (Worker.Died _) | Worker.SafeEmit (Worker.Died _) => true
  | _ => false
  end.

Definition is_observer_close (c : Worker.Call number) : bool :=
  match c with
  | Worker.ObserverSafeEmit Worker.OClose => true
  | _ => false
  end.

Definition is_kill (c : Worker.Call number) : bool :=
  match c with
  | Worker.ChildKill _ => true
  | _ => false
  end.

Definition is_send (c : Worker.Call number) : bool :=
  match c with
  | Worker.ChannelSend _ _ _ => true
  | _ => false
  end.

(** The observer is told of this new router, or WebRtcServer. *)
Definition announces_router (r : Worker.ObjRef) (c : Worker.Call number) : bool :=
  match c with
  | Worker.ObserverSafeEmit (Worker.NewRouter r') => bool_decide (r' = r)
  | _ => false
  end.

Definition announces_webRtcServer (s : Worker.ObjRef) (c : Worker.Call number)
  : bool :=
  match c with
  | Worker.ObserverSafeEmit (Worker.NewWebRtcServer s') => bool_decide (s' = s)
  | _ => false
  end.

(** The log [cs] of a history agrees with the state [w] it led to: an
    outcome of the spawn was raised exactly when [spawnDone] is set,
    ['died'] exactly when [died] is set, the observer's ['close'] exactly
    when [closed] is set, a signal was sent exactly when the ['exit']
    handler was taken off the child; and no ['@failure'] goes with a
    Worker that is open or died. *)
Definition accounted (w : Worker.t number) (cs : list (Worker.Call number))
  : Prop :=
  (count is_success cs + count is_failure cs =
     if Worker.spawnDone w then 1 else 0)%nat /\
  count is_died cs = (if Worker.died w then 1 else 0)%nat /\
  count is_observer_close cs = (if Worker.closed w then 1 else 0)%nat /\
  count is_kill cs =
    match Worker.exit_listeners (Worker.process w) with
    | [] => 1%nat
    | _ => 0%nat
    end /\
  (Worker.closed w = false -> count is_failure cs = 0%nat) /\
  (Worker.died w = true -> count is_failure cs = 0%nat).
End Log.

(** A text with a white space character in it. *)
Fixpoint bytes_have_space (s : list Ascii.ascii) : bool :=
  match s with
  | [] => false
  | _ :: rest => negb (Nat.eqb (space_width s) 0) || bytes_have_space rest
  end.

Definition has_space (s : string) : bool :=
  bytes_have_space (String.list_ascii_of_string s).

(** A text made of white space characters only, once [skip] bytes of a
    character already begun have passed. *)
Fixpoint all_spaces (skip : nat) (s : list Ascii.ascii) : bool :=
  match s with
  | [] => Nat.eqb skip 0
  | _ :: rest =>
      match skip with
      | S k => all_spaces k rest
      | O =>
          match space_width s with
          | O => false
          | S k => all_spaces k rest
          end
      end
  end.

(** The elements of a split put back around what separated them. *)
Fixpoint interleave (elements : list string) (separators : list (list Ascii.ascii))
  : list Ascii.ascii :=
  match elements with
  | [] => []
  | e :: elements' =>
      String.list_ascii_of_string e ++
      match separators with
      | [] => []
      | sep :: separators' => sep ++ interleave elements' separators'
      end
  end.




End Log.

(** ** The request methods *)

Module Requests.

Section Requests.
Context {number : Type} `{JSNumber number} `{Collaborators number}.

(** The five methods that send a request. *)
Definition method (m : @Worker.M number (JS.Error + Z)) : Prop :=
  m = Worker.dump \/
  m = Worker.getResourceUsage \/
  (exists s, m = Worker.updateSettings s) \/
  (exists o uuid, m = Worker.createWebRtcServer o uuid) \/
  (exists o uuid, m = Worker.createRouter o uuid).

(** A request method run from [w] with outcome [r] did all or nothing:
    it threw, and then the Worker is as it was and no call was made; or
    it awaits a response under an identifier, and then it sent exactly one
    message, under that identifier, on a channel that was open, and
    changed nothing of the Worker but its channel. *)
Definition all_or_nothing (w : Worker.t number)
  (r : (JS.Error + Z) * Worker.t number * list (Worker.Call number)) : Prop :=
  match r with
  | (inl _, w', cs) => w' = w /\ cs = []
  | (inr id, w', cs) =>
      (exists method body, cs = [Worker.ChannelSend id method body]) /\
      Channel.closed (Worker.channel w) = false /\
      is_Some (Channel.sents (Worker.channel w') !! id) /\
      w' = Worker.set_channel (Worker.channel w') w
  end.

(** The [appData] a history leaves, from the one it started with: the
    value of the last assignment to [appData], if there is one. *)
Definition last_appData (actions : list (Worker.Action number))
  (start : JS.Value number) : JS.Value number :=
  fold_left (fun current a =>
               match a with
               | Worker.DoSetAppData v => v
               | _ => current
               end) actions start.
End Requests.

End Requests.

(** * Properties *)

(** ** The model at work *)

Example split_spaces_valgrind_options :
  split_spaces " --leak-check=full  -v" = [""; "--leak-check=full"; "-v"].
Proof. reflexivity. Qed.

Example split_spaces_no_break_space :
  split_spaces ("--a" +:+ String.string_of_list_ascii (utf8 160) +:+ "--b") =
    ["--a"; "--b"] /\
  split_spaces ("--a" +:+ String.string_of_list_ascii (utf8 8232 ++ utf8 65279) +:+
                "--b ") = ["--a"; "--b"; ""] /\
  split_spaces "" = [""].
Proof. repeat split. Qed.

Example number_of_large_bigint :
  IntNumber.round_to_double (2 ^ 53 + 1) = 2 ^ 53 /\
  IntNumber.round_to_double (2 ^ 53 + 3) = 2 ^ 53 + 4 /\
  IntNumber.round_to_double (2 ^ 64 - 1) = 2 ^ 64 /\
  IntNumber.round_to_double 51200 = 51200.
Proof. repeat split. Qed.

Example spawn_with_settings :
  Spawn.spawnArgs Sample.env
    {| Spawn.logLevel := JS.Str "warn";
       Spawn.logTags := JS.Array [JS.Str "ice"; JS.Num (IntNumber.Int 3); JS.Str ""];
       Spawn.rtcMinPort := JS.Num IntNumber.NaN;
       Spawn.rtcMaxPort := JS.Num (IntNumber.Int 0);
       Spawn.dtlsCertificateFile := JS.Null;
       Spawn.dtlsPrivateKeyFile := JS.Str "/etc/key.pem";
       Spawn.libwebrtcFieldTrials := JS.Boolean true;
       Spawn.appData := JS.Undefined |} =
  ["--logLevel=warn"; "--logTag=ice"; "--rtcMaxPort=0";
   "--dtlsPrivateKeyFile=/etc/key.pem"].
Proof. reflexivity. Qed.

Example spawn_under_valgrind :
  Spawn.spawnArgs
    {| Spawn.MEDIASOUP_USE_VALGRIND := Some "true";
       Spawn.MEDIASOUP_VALGRIND_BIN := None;
       Spawn.MEDIASOUP_VALGRIND_OPTIONS := Some "--leak-check=full -v";
       Spawn.workerBin := "mediasoup-worker" |} Sample.ports =
  ["--leak-check=full"; "-v"; "mediasoup-worker";
   "--rtcMinPort=10000"; "--rtcMaxPort=10010"].
Proof. reflexivity. Qed.

Example busy_worker :
  Worker.routers Sample.busy = [0%nat] /\
  Worker.webRtcServers Sample.busy = [1%nat] /\
  Worker.spawnDone Sample.busy = true /\
  Worker.closed Sample.busy = false.
Proof. repeat split. Qed.

Example close_busy_worker :
  Worker.calls_of (Worker.close Sample.busy) =
  [Worker.ChildRemoveAllListeners "exit";
   Worker.ChildRemoveAllListeners "error";
   Worker.ChildOn "error" Worker.Inert;
   Worker.ChildKill "SIGTERM";
   Worker.ChannelClose;
   Worker.RouterWorkerClosed 0%nat;
   Worker.WebRtcServerWorkerClosed 1%nat;
   Worker.ObserverSafeEmit Worker.OClose].
Proof. reflexivity. Qed.

Example close_fails_pending_dump :
  Worker.calls_of (Worker.run [Worker.DoDump; Worker.DoClose] Sample.fresh) =
  [Worker.ChannelSend 1 Channel.WORKER_DUMP Worker.NoBody;
   Worker.ChildRemoveAllListeners "exit";
   Worker.ChildRemoveAllListeners "error";
   Worker.ChildOn "error" Worker.Inert;
   Worker.ChildKill "SIGTERM";
   Worker.ChannelClose;
   Worker.RequestFailed 1 (JS.InvalidStateError "Channel closed");
   Worker.ObserverSafeEmit Worker.OClose].
Proof. reflexivity. Qed.

Example exit_42_before_running :
  Worker.calls_of (Worker.child_emit_exit (Some 42) None Sample.fresh) =
  [Worker.ChannelClose;
   Worker.ObserverSafeEmit Worker.OClose;
   Worker.Emit (Worker.Failure (JS.TypeError "wrong settings"))].
Proof. reflexivity. Qed.

Example killed_before_running :
  Worker.calls_of (Worker.child_emit_exit None (Some "SIGKILL") Sample.fresh) =
  [Worker.ChannelClose;
   Worker.ObserverSafeEmit Worker.OClose;
   Worker.Emit (Worker.Failure
     (JS.PlainError "[pid:4242, code:null, signal:SIGKILL]"))].
Proof. reflexivity. Qed.

Example exit_after_running :
  Worker.calls_of (Worker.child_emit_exit (Some 1) None Sample.busy) =
  [Worker.ChannelClose;
   Worker.RouterWorkerClosed 0%nat;
   Worker.WebRtcServerWorkerClosed 1%nat;
   Worker.SafeEmit (Worker.Died (JS.PlainError "[pid:4242, code:1, signal:null]"));
   Worker.ObserverSafeEmit Worker.OClose] /\
  Worker.died Sample.dead = true.
Proof. split; reflexivity. Qed.

Example exit_after_close :
  Worker.calls_of
    (Worker.run [Worker.DoClose; Worker.ChildExit None (Some "SIGTERM");
                 Worker.ChildError (JS.PlainError "EPIPE")] Sample.busy) =
  [Worker.ChildRemoveAllListeners "exit";
   Worker.ChildRemoveAllListeners "error";
   Worker.ChildOn "error" Worker.Inert;
   Worker.ChildKill "SIGTERM";
   Worker.ChannelClose;
   Worker.RouterWorkerClosed 0%nat;
   Worker.WebRtcServerWorkerClosed 1%nat;
   Worker.ObserverSafeEmit Worker.OClose] /\
  Worker.died Sample.shut_down = false.
Proof. split; reflexivity. Qed.

Example usage_of_sample :
  JS.get (Worker.resourceUsage Sample.usage) "ru_maxrss" =
    Some (JS.Num (IntNumber.Int 51200)) /\
  JS.get (Worker.resourceUsage Sample.usage) "ru_cpu" = None.
Proof. split; reflexivity. Qed.

(** ** Running the methods *)

Section Running.
Context {number : Type} `{JSNumber number} `{Collaborators number}.
Import Worker.

Lemma for_each_calls {A : Type} (f : A -> Call number) (body : A -> M unit)
  (xs : list A) (w : t number) :
  (forall x w', body x w' = (tt, w', [f x])) ->
  for_each xs body w = (tt, w, f <$> xs).
Proof.
  intros Hbody. induction xs as [|x xs IH]; [reflexivity|].
  simpl. unfold bind. rewrite Hbody, IH. reflexivity.
Qed.

Lemma close_closed (w : t number) :
  closed w = true -> close w = (tt, w, []).
Proof. intros Hc. unfold close, bind, gets. rewrite Hc. reflexivity. Qed.

Lemma close_open (w : t number) :
  closed w = false ->
  close w =
  (tt,
   {| child := false; pid := pid w;
      channel := (Channel.close (channel w)).2;
      closed := true; died := died w; appData := appData w;
      webRtcServers := []; routers := []; spawnDone := spawnDone w;
      process :=
        if child w then {| exit_listeners := []; error_listeners := [Inert] |}
        else process w;
      next_object := next_object w |},
   (if child w then
      [ChildRemoveAllListeners "exit"; ChildRemoveAllListeners "error";
       ChildOn "error" Inert; ChildKill "SIGTERM"]
    else []) ++
   ChannelClose ::
   ((fun p => RequestFailed p.1 (JS.InvalidStateError "Channel closed")) <$>
      (Channel.close (channel w)).1) ++
   (RouterWorkerClosed <$> routers w) ++
   (WebRtcServerWorkerClosed <$> webRtcServers w) ++
   [ObserverSafeEmit OClose]).
Proof.
  intros Hc. unfold close, bind, gets. rewrite Hc.
  unfold child_removeAllListeners, child_on_error_inert, channel_close,
    bind, modify, call, ret.
  destruct w as [ch p chan cl di ad ss rs sd pr no]; simpl in *.
  destruct ch; simpl.
  - destruct (Channel.close chan) as [drained chan'] eqn:E; simpl.
    rewrite (for_each_calls RouterWorkerClosed) by reflexivity.
    rewrite (for_each_calls WebRtcServerWorkerClosed) by reflexivity.
    reflexivity.
  - destruct (Channel.close chan) as [drained chan'] eqn:E; simpl.
    rewrite (for_each_calls RouterWorkerClosed) by reflexivity.
    rewrite (for_each_calls WebRtcServerWorkerClosed) by reflexivity.
    reflexivity.
Qed.

Lemma workerDied_closed (error : JS.Error) (w : t number) :
  closed w = true -> workerDied error w = (tt, w, []).
Proof. intros Hc. unfold workerDied, bind, gets. rewrite Hc. reflexivity. Qed.

Lemma workerDied_open (error : JS.Error) (w : t number) :
  closed w = false ->
  workerDied error w =
  (tt,
   {| child := child w; pid := pid w;
      channel := (Channel.close (channel w)).2;
      closed := true; died := true; appData := appData w;
      webRtcServers := []; routers := []; spawnDone := spawnDone w;
      process := process w; next_object := next_object w |},
   ChannelClose ::
   ((fun p => RequestFailed p.1 (JS.InvalidStateError "Channel closed")) <$>
      (Channel.close (channel w)).1) ++
   (RouterWorkerClosed <$> routers w) ++
   (WebRtcServerWorkerClosed <$> webRtcServers w) ++
   [SafeEmit (Died error); ObserverSafeEmit OClose]).
Proof.
  intros Hc. unfold workerDied, bind, gets. rewrite Hc.
  unfold channel_close, bind, modify, call, ret.
  destruct w as [ch p chan cl di ad ss rs sd pr no]; simpl in *.
  destruct (Channel.close chan) as [drained chan'] eqn:E; simpl.
  rewrite (for_each_calls RouterWorkerClosed) by reflexivity.
  rewrite (for_each_calls WebRtcServerWorkerClosed) by reflexivity.
  reflexivity.
Qed.

(** A sequence of one action, and of two histories. *)
Lemma run_app (xs ys : list (Action number)) (w : t number) :
  run (xs ++ ys) w =
  (tt, state_of (run ys (state_of (run xs w))),
   calls_of (run xs w) ++ calls_of (run ys (state_of (run xs w)))).
Proof.
  revert w. induction xs as [|a xs IH]; intros w; simpl.
  - unfold run, state_of, calls_of. simpl.
    destruct (for_each ys perform w) as [[[] w'] cs]. reflexivity.
  - unfold run in *. simpl. unfold bind.
    destruct (perform a w) as [[[] w1] c1]. rewrite IH.
    unfold state_of, calls_of. simpl.
    destruct (for_each xs perform w1) as [[[] w2] c2]. simpl.
    rewrite app_assoc. reflexivity.
Qed.

Lemma state_of_triple {A : Type} (a : A) (w : t number) (cs : list (Call number)) :
  state_of (a, w, cs) = w.
Proof. reflexivity. Qed.

Lemma calls_of_triple {A : Type} (a : A) (w : t number) (cs : list (Call number)) :
  calls_of (a, w, cs) = cs.
Proof. reflexivity. Qed.

Lemma run_cons (a : Action number) (actions : list (Action number)) (w : t number) :
  run (a :: actions) w =
  (tt, state_of (run actions (state_of (perform a w))),
   calls_of (perform a w) ++ calls_of (run actions (state_of (perform a w)))).
Proof.
  unfold run. simpl. unfold bind, state_of, calls_of.
  destruct (perform a w) as [[[] w1] c1]. simpl.
  destruct (for_each actions perform w1) as [[[] w2] c2]. reflexivity.
Qed.

Lemma reachable_run (actions : list (Action number)) (w : t number) :
  reachable w -> reachable (state_of (run actions w)).
Proof.
  revert w. induction actions as [|a actions IH]; intros w Hw; [exact Hw|].
  unfold run in *. simpl. unfold bind.
  specialize (IH _ (reachable_step w a Hw)). unfold state_of in *.
  destruct (perform a w) as [[[] w1] c1]. simpl in *.
  destruct (for_each actions perform w1) as [[[] w2] c2]. exact IH.
Qed.
End Running.

(** ** The shape of reachable states is kept by every action *)

Section Invariant.
Context {number : Type} `{JSNumber number} `{Collaborators number}.
Import Worker.

Ltac open_invariant Hinv :=
  destruct Hinv as (Hrouters & Hservers &
    [(Hclosed & Hdied & Hchild & Hchannel & Hexit & Herror) |
     (Hclosed & Hchild & Hchannel & Hsents & Hrs & Hss & Hspawn & Hlisteners)]).

Lemma invariant_new env settings child_pid :
  invariant (constructor (number := number) env settings child_pid).1.
Proof.
  split; [constructor|]. split; [constructor|]. left. repeat split.
Qed.

Lemma shut_closed (w : t number) :
  invariant w -> closed w = true -> shut w.
Proof.
  intros Hinv Hc. open_invariant Hinv; [congruence|].
  repeat split; assumption.
Qed.

Lemma running_open (w : t number) :
  invariant w -> closed w = false -> running w.
Proof.
  intros Hinv Hc. open_invariant Hinv; [|congruence].
  repeat split; assumption.
Qed.

Lemma invariant_close (w : t number) :
  invariant w -> invariant (state_of (close w)).
Proof.
  intros Hinv. destruct (closed w) eqn:Hc.
  - rewrite close_closed by exact Hc. exact Hinv.
  - rewrite close_open by exact Hc.
    pose proof (running_open w Hinv Hc) as (_ & Hdied & Hchild & Hchannel & Hexit & Herror).
    unfold invariant, state_of, Channel.close. simpl. rewrite Hchannel, Hchild. simpl.
    split; [constructor|]. split; [constructor|]. right.
    unfold shut. simpl. rewrite Hdied. repeat split; try congruence.
    left. split; reflexivity.
Qed.

Lemma set_child_shut (w : t number) : shut w -> set_child false w = w.
Proof.
  intros (_ & Hchild & _). destruct w; simpl in *. subst. reflexivity.
Qed.

Lemma on_exit_unfold code signal (w : t number) :
  on_exit code signal w =
  if spawnDone w then
    workerDied (JS.PlainError (exit_message (pid w) code signal))
      (set_child false w)
  else
    (tt,
     state_of (close (set_spawnDone true (set_child false w))),
     calls_of (close (set_spawnDone true (set_child false w))) ++
     [Emit (Failure
        (if decide (code = Some 42) then JS.TypeError "wrong settings"
         else JS.PlainError (exit_message (pid w) code signal)))]).
Proof.
  unfold on_exit, bind, modify, gets, call, state_of, calls_of. simpl.
  destruct (spawnDone w); simpl.
  - destruct (workerDied _ _) as [[[] w'] cs]; reflexivity.
  - destruct (decide (code = Some 42)); simpl;
      destruct (close _) as [[[] w'] cs]; reflexivity.
Qed.

Lemma on_error_unfold error (w : t number) :
  on_error error w =
  if spawnDone w then workerDied error (set_child false w)
  else
    (tt,
     state_of (close (set_spawnDone true (set_child false w))),
     calls_of (close (set_spawnDone true (set_child false w))) ++
     [Emit (Failure error)]).
Proof.
  unfold on_error, bind, modify, gets, call, state_of, calls_of. simpl.
  destruct (spawnDone w); simpl.
  - destruct (workerDied _ _) as [[[] w'] cs]; reflexivity.
  - destruct (close _) as [[[] w'] cs]; reflexivity.
Qed.

(** A handler of the child's events, run on a Worker that is shut with
    the outcome of the spawn decided, changes nothing and calls nothing. *)
Lemma on_exit_shut code signal (w : t number) :
  shut w -> spawnDone w = true -> on_exit code signal w = (tt, w, []).
Proof.
  intros Hshut Hdone. rewrite on_exit_unfold, Hdone.
  rewrite (set_child_shut w Hshut). apply workerDied_closed, Hshut.
Qed.

Lemma on_error_shut error (w : t number) :
  shut w -> spawnDone w = true -> on_error error w = (tt, w, []).
Proof.
  intros Hshut Hdone. rewrite on_error_unfold, Hdone.
  rewrite (set_child_shut w Hshut). apply workerDied_closed, Hshut.
Qed.

Lemma invariant_handler_running (w : t number) :
  invariant w -> running w ->
  (forall error, invariant (state_of (workerDied error (set_child false w))) \/ spawnDone w = false) /\
  invariant (state_of (close (set_spawnDone true (set_child false w)))).
Proof.
  intros Hinv (Hclosed & Hdied & Hchild & Hchannel & Hexit & Herror). split.
  - intros error. destruct (spawnDone w) eqn:Hdone; [left|right; reflexivity].
    rewrite workerDied_open by exact Hclosed.
    unfold invariant, state_of, Channel.close. simpl. rewrite Hchannel. simpl.
    split; [constructor|]. split; [constructor|]. right.
    unfold shut. simpl. repeat split; try congruence.
    right. repeat split; assumption.
  - rewrite close_open by exact Hclosed.
    unfold invariant, state_of, Channel.close. simpl. rewrite Hchannel. simpl.
    split; [constructor|]. split; [constructor|]. right.
    unfold shut. simpl. rewrite Hdied. repeat split; try congruence.
    right. repeat split; assumption.
Qed.

Lemma child_emit_exit_running code signal (w : t number) :
  running w -> child_emit_exit code signal w = on_exit code signal w.
Proof.
  intros (_ & _ & _ & _ & Hexit & _).
  unfold child_emit_exit, bind, gets. rewrite Hexit. simpl. unfold bind, ret.
  destruct (on_exit code signal w) as [[[] w'] cs]. rewrite app_nil_r. reflexivity.
Qed.

Lemma child_emit_error_running error (w : t number) :
  running w -> child_emit_error error w = on_error error w.
Proof.
  intros (_ & _ & _ & _ & _ & Herror).
  unfold child_emit_error, bind, gets. rewrite Herror. simpl. unfold bind, ret.
  destruct (on_error error w) as [[[] w'] cs]. rewrite app_nil_r. reflexivity.
Qed.

Lemma child_emit_exit_shut code signal (w : t number) :
  shut w -> child_emit_exit code signal w = (tt, w, []).
Proof.
  intros Hshut. pose proof Hshut as (_ & _ & _ & _ & _ & _ & _ & Hl).
  unfold child_emit_exit, bind, gets.
  destruct Hl as [[Hexit _] | (Hexit & _ & Hdone)]; rewrite Hexit; simpl.
  - reflexivity.
  - unfold bind, ret. rewrite on_exit_shut by assumption. reflexivity.
Qed.

Lemma child_emit_error_shut error (w : t number) :
  shut w -> child_emit_error error w = (tt, w, []).
Proof.
  intros Hshut. pose proof Hshut as (_ & _ & _ & _ & _ & _ & _ & Hl).
  unfold child_emit_error, bind, gets.
  destruct Hl as [[_ Herror] | (_ & Herror & Hdone)]; rewrite Herror; simpl.
  - reflexivity.
  - unfold bind, ret. rewrite on_error_shut by assumption. reflexivity.
Qed.

Lemma invariant_child_emit_exit code signal (w : t number) :
  invariant w -> invariant (state_of (child_emit_exit code signal w)).
Proof.
  intros Hinv. destruct (closed w) eqn:Hc.
  - rewrite child_emit_exit_shut by (apply shut_closed; assumption). exact Hinv.
  - pose proof (running_open w Hinv Hc) as Hrun.
    rewrite child_emit_exit_running, on_exit_unfold by exact Hrun.
    destruct (invariant_handler_running w Hinv Hrun) as [Hdied Hclose].
    destruct (spawnDone w) eqn:Hdone; [|exact Hclose].
    destruct (Hdied (JS.PlainError (exit_message (pid w) code signal)));
      [assumption|congruence].
Qed.

Lemma invariant_child_emit_error error (w : t number) :
  invariant w -> invariant (state_of (child_emit_error error w)).
Proof.
  intros Hinv. destruct (closed w) eqn:Hc.
  - rewrite child_emit_error_shut by (apply shut_closed; assumption). exact Hinv.
  - pose proof (running_open w Hinv Hc) as Hrun.
    rewrite child_emit_error_running, on_error_unfold by exact Hrun.
    destruct (invariant_handler_running w Hinv Hrun) as [Hdied Hclose].
    destruct (spawnDone w) eqn:Hdone; [|exact Hclose].
    destruct (Hdied error); [assumption|congruence].
Qed.

(** Requests. *)
Lemma channel_request_closed method body k (w : t number) :
  Channel.closed (channel w) = true ->
  channel_request method body k w =
  (inl (JS.InvalidStateError "Channel closed"), w, []).
Proof.
  intros Hc. unfold channel_request, Channel.request. rewrite Hc. reflexivity.
Qed.

Lemma channel_request_open method body k (w : t number) :
  Channel.closed (channel w) = false ->
  channel_request method body k w =
  (inr (Channel.nextId (channel w) + 1),
   set_channel
     {| Channel.closed := false;
        Channel.nextId := Channel.nextId (channel w) + 1;
        Channel.sents := <[Channel.nextId (channel w) + 1 := k]> (Channel.sents (channel w));
        Channel.listeners := Channel.listeners (channel w) |} w,
   [ChannelSend (Channel.nextId (channel w) + 1) method body]).
Proof.
  intros Hc. unfold channel_request, Channel.request. rewrite Hc. reflexivity.
Qed.

Lemma invariant_channel_request method body k (w : t number) :
  invariant w -> invariant (state_of (channel_request method body k w)).
Proof.
  intros Hinv. destruct (Channel.closed (channel w)) eqn:Hc.
  - rewrite channel_request_closed by exact Hc. exact Hinv.
  - rewrite channel_request_open by exact Hc.
    open_invariant Hinv; [|congruence].
    split; [exact Hrouters|]. split; [exact Hservers|]. left.
    repeat split; assumption.
Qed.

Lemma invariant_then_ret {A : Type} (m : M A) (w : t number) :
  invariant (state_of (m w)) -> invariant (state_of ((bind m (fun _ => ret tt)) w)).
Proof.
  unfold bind, ret, state_of. destruct (m w) as [[a w'] cs]. simpl. tauto.
Qed.

Lemma NoDup_set_add (x : ObjRef) (s : list ObjRef) :
  NoDup s -> NoDup (set_add x s).
Proof.
  intros Hs. unfold set_add. destruct (decide (x ∈ s)); [exact Hs|].
  apply NoDup_app. split; [exact Hs|]. split.
  - intros y Hy Hin. apply list_elem_of_singleton in Hin. subst. contradiction.
  - apply NoDup_singleton.
Qed.

Lemma NoDup_set_delete (x : ObjRef) (s : list ObjRef) :
  NoDup s -> NoDup (set_delete x s).
Proof. intros Hs. unfold set_delete. apply NoDup_filter, Hs. Qed.

Lemma channel_response_shut id r (w : t number) :
  shut w -> channel_response id r w = (tt, w, []).
Proof.
  intros (_ & _ & _ & Hsents & _).
  unfold channel_response, Channel.take. rewrite Hsents, lookup_empty. reflexivity.
Qed.

Lemma invariant_channel_response id r (w : t number) :
  invariant w -> invariant (state_of (channel_response id r w)).
Proof.
  intros Hinv. destruct (closed w) eqn:Hc.
  - rewrite channel_response_shut by (apply shut_closed; assumption). exact Hinv.
  - pose proof (running_open w Hinv Hc) as (_ & Hdied & Hchild & Hchannel & Hexit & Herror).
    destruct Hinv as (Hrouters & Hservers & _).
    unfold channel_response, Channel.take.
    destruct (Channel.sents (channel w) !! id) as [k|]; [|split; [|split]; auto;
      left; repeat split; assumption].
    destruct r, k; unfold state_of; simpl;
      (split; [|split]; [try apply NoDup_set_add; assumption ..|]);
      left; repeat split; assumption.
Qed.

(** The 'running' listener at most decides the outcome of the spawn. *)
Lemma on_running_state event (w : t number) :
  state_of (on_running event w) = w \/
  state_of (on_running event w) = set_spawnDone true w.
Proof.
  unfold on_running, bind, gets, modify, call, ret, state_of.
  destruct event; simpl; [|left; reflexivity].
  destruct (spawnDone w); simpl; [left|right]; reflexivity.
Qed.

Lemma invariant_set_spawnDone (w : t number) :
  invariant w -> invariant (set_spawnDone true w).
Proof.
  intros Hinv. open_invariant Hinv; (split; [|split]; [assumption ..|]).
  - left. repeat split; assumption.
  - right. repeat split; try assumption.
    destruct Hlisteners as [Hl | (He & Hr & _)]; [left; exact Hl|right].
    repeat split; assumption.
Qed.

Lemma invariant_on_running_each {A : Type} event (ls : list A) (w : t number) :
  invariant w ->
  invariant (state_of (for_each ls (fun _ => on_running event) w)).
Proof.
  revert w. induction ls as [|l ls IH]; intros w Hinv; [exact Hinv|].
  simpl. unfold bind.
  destruct (on_running_state event w) as [Hs | Hs];
    destruct (on_running event w) as [[[] w1] c1]; unfold state_of in Hs;
    simpl in Hs; subst w1.
  - specialize (IH w Hinv). unfold state_of in *.
    destruct (for_each ls _ w) as [[[] w2] c2]. exact IH.
  - specialize (IH _ (invariant_set_spawnDone w Hinv)). unfold state_of in *.
    destruct (for_each ls _ (set_spawnDone true w)) as [[[] w2] c2]. exact IH.
Qed.

Lemma invariant_channel_notification subject event (w : t number) :
  invariant w -> invariant (state_of (channel_notification subject event w)).
Proof.
  intros Hinv. unfold channel_notification, Channel.notify.
  apply invariant_on_running_each.
  open_invariant Hinv; (split; [|split]; [assumption ..|]).
  - left. repeat split; assumption.
  - right. repeat split; assumption.
Qed.

Lemma invariant_perform (a : Action number) (w : t number) :
  invariant w -> invariant (state_of (perform a w)).
Proof.
  intros Hinv. destruct a; simpl.
  - apply invariant_close, Hinv.
  - open_invariant Hinv; (split; [|split]; [assumption ..|]).
    + left. repeat split; assumption.
    + right. repeat split; assumption.
  - apply invariant_then_ret, invariant_channel_request, Hinv.
  - apply invariant_then_ret, invariant_channel_request, Hinv.
  - apply invariant_then_ret, invariant_channel_request, Hinv.
  - apply invariant_then_ret. unfold createWebRtcServer.
    destruct (bad_appData _); [exact Hinv|].
    apply invariant_channel_request, Hinv.
  - apply invariant_then_ret. unfold createRouter.
    destruct (bad_appData _); [exact Hinv|].
    destruct (generateRouterRtpCapabilities _); [exact Hinv|].
    apply invariant_channel_request, Hinv.
  - apply invariant_channel_response, Hinv.
  - apply invariant_channel_notification, Hinv.
  - apply invariant_child_emit_exit, Hinv.
  - apply invariant_child_emit_error, Hinv.
  - open_invariant Hinv;
      (split; [|split]; [try apply NoDup_set_delete; assumption ..|]).
    + left. repeat split; assumption.
    + right. repeat split; try assumption. simpl. rewrite Hss. reflexivity.
  - open_invariant Hinv;
      (split; [|split]; [try apply NoDup_set_delete; assumption ..|]).
    + left. repeat split; assumption.
    + right. repeat split; try assumption. simpl. rewrite Hrs. reflexivity.
Qed.

Lemma reachable_invariant (w : t number) : reachable w -> invariant w.
Proof.
  induction 1 as [env settings child_pid | w a _ IH].
  - apply invariant_new.
  - apply invariant_perform, IH.
Qed.
End Invariant.

(** ** Spawn arguments *)

Section SpawnArguments.
Context {number : Type} `{JSNumber number}.

Lemma push_string_spec key (v : JS.Value number) (args : list string) :
  Spawn.push_string key v args = args ++ Spec.string_argument key v.
Proof.
  unfold Spawn.push_string, Spec.string_argument.
  destruct v; simpl; rewrite ?app_nil_r; try reflexivity.
  destruct (decide (s = "")) as [->|Hne]; simpl; [rewrite app_nil_r; reflexivity|].
  destruct (String.eqb_spec s ""); [contradiction|reflexivity].
Qed.

Lemma push_number_spec key (v : JS.Value number) (args : list string) :
  Spawn.push_number key v args = args ++ Spec.number_argument key v.
Proof.
  unfold Spawn.push_number, Spec.number_argument.
  destruct v; simpl; rewrite ?app_nil_r; try reflexivity.
  destruct (Number_isNaN n); simpl; rewrite ?app_nil_r; reflexivity.
Qed.

Lemma push_logTags_spec (tags : list (JS.Value number)) (args : list string) :
  fold_left (fun acc logTag => Spawn.push_string "logTag" logTag acc) tags args =
  args ++ (tags ≫= Spec.string_argument "logTag").
Proof.
  revert args. induction tags as [|tag tags IH]; intros args; simpl.
  - rewrite app_nil_r. reflexivity.
  - rewrite IH, push_string_spec, <- app_assoc. reflexivity.
Qed.

Lemma push_settings_spec (s : Spawn.WorkerSettings number) (args : list string) :
  Spawn.push_settings s args = args ++ Spec.settings_arguments s.
Proof.
  unfold Spawn.push_settings, Spec.settings_arguments.
  rewrite !push_string_spec, !push_number_spec, push_logTags_spec.
  rewrite ?push_string_spec. rewrite <- !app_assoc.
  do 3 f_equal. unfold Spec.logTag_arguments, JS.array_or_empty.
  destruct (Spawn.logTags s); reflexivity.
Qed.
End SpawnArguments.

(** ** Counting the [workerClosed()] calls *)

Section Cascade.
Context {number : Type} `{JSNumber number} `{Collaborators number}.
Import Worker.

Lemma router_closings_app (r : ObjRef) (xs ys : list (Call number)) :
  router_closings r (xs ++ ys) = (router_closings r xs + router_closings r ys)%nat.
Proof. unfold router_closings. rewrite List.filter_app, length_app. reflexivity. Qed.

Lemma webRtcServer_closings_app (s : ObjRef) (xs ys : list (Call number)) :
  webRtcServer_closings s (xs ++ ys) =
  (webRtcServer_closings s xs + webRtcServer_closings s ys)%nat.
Proof. unfold webRtcServer_closings. rewrite List.filter_app, length_app. reflexivity. Qed.

Lemma router_closings_none {A : Type} (r : ObjRef) (f : A -> Call number)
  (xs : list A) :
  (forall x r', f x <> RouterWorkerClosed r') ->
  router_closings r (f <$> xs) = 0%nat.
Proof.
  intros Hf. induction xs as [|x xs IH]; [reflexivity|].
  unfold router_closings in *. simpl.
  destruct (f x) eqn:E; try exact IH. exfalso. eapply Hf, E.
Qed.

Lemma webRtcServer_closings_none {A : Type} (s : ObjRef) (f : A -> Call number)
  (xs : list A) :
  (forall x s', f x <> WebRtcServerWorkerClosed s') ->
  webRtcServer_closings s (f <$> xs) = 0%nat.
Proof.
  intros Hf. induction xs as [|x xs IH]; [reflexivity|].
  unfold webRtcServer_closings in *. simpl.
  destruct (f x) eqn:E; try exact IH. exfalso. eapply Hf, E.
Qed.

Lemma router_closings_each (r : ObjRef) (rs : list ObjRef) :
  NoDup rs ->
  router_closings r (RouterWorkerClosed (number := number) <$> rs) =
  if decide (r ∈ rs) then 1%nat else 0%nat.
Proof.
  induction 1 as [|x rs Hx Hrs IH]; [reflexivity|].
  unfold router_closings in *. rewrite fmap_cons. cbn [List.filter].
  destruct (bool_decide_reflect (x = r)) as [->|Hne]; cbn [length].
  - rewrite IH. destruct (decide (r ∈ rs)); [contradiction|].
    destruct (decide (r ∈ r :: rs)) as [|Hn]; [reflexivity|].
    exfalso. apply Hn, list_elem_of_here.
  - rewrite IH. destruct (decide (r ∈ rs)) as [Hin|Hout];
      destruct (decide (r ∈ x :: rs)) as [Hin'|Hout']; try reflexivity.
    + exfalso. apply Hout', list_elem_of_further, Hin.
    + exfalso. apply elem_of_cons in Hin' as [->|]; [congruence|contradiction].
Qed.

Lemma webRtcServer_closings_each (s : ObjRef) (ss : list ObjRef) :
  NoDup ss ->
  webRtcServer_closings s (WebRtcServerWorkerClosed (number := number) <$> ss) =
  if decide (s ∈ ss) then 1%nat else 0%nat.
Proof.
  induction 1 as [|x ss Hx Hss IH]; [reflexivity|].
  unfold webRtcServer_closings in *. rewrite fmap_cons. cbn [List.filter].
  destruct (bool_decide_reflect (x = s)) as [->|Hne]; cbn [length].
  - rewrite IH. destruct (decide (s ∈ ss)); [contradiction|].
    destruct (decide (s ∈ s :: ss)) as [|Hn]; [reflexivity|].
    exfalso. apply Hn, list_elem_of_here.
  - rewrite IH. destruct (decide (s ∈ ss)) as [Hin|Hout];
      destruct (decide (s ∈ x :: ss)) as [Hin'|Hout']; try reflexivity.
    + exfalso. apply Hout', list_elem_of_further, Hin.
    + exfalso. apply elem_of_cons in Hin' as [->|]; [congruence|contradiction].
Qed.

Lemma cascaded_nothing (w : t number) :
  routers w = [] -> webRtcServers w = [] -> cascaded w (tt, w, []).
Proof.
  intros Hrs Hss. unfold cascaded, state_of, calls_of. simpl.
  rewrite Hrs, Hss. repeat split.
Qed.

Lemma cascaded_close (w : t number) :
  NoDup (routers w) -> NoDup (webRtcServers w) ->
  (closed w = true -> routers w = [] /\ webRtcServers w = []) ->
  cascaded w (close w).
Proof.
  intros Hrs Hss Hempty. destruct (closed w) eqn:Hc.
  - rewrite close_closed by exact Hc.
    destruct Hempty; [reflexivity|]. apply cascaded_nothing; assumption.
  - rewrite close_open by exact Hc. unfold cascaded, state_of, calls_of. simpl.
    split; [|split; [|split; reflexivity]]; intros x.
    + rewrite router_closings_app.
      change (ChannelClose :: ?l) with ([ChannelClose (number := number)] ++ l).
      rewrite !router_closings_app.
      rewrite (router_closings_none x (fun p => RequestFailed p.1 _)) by discriminate.
      rewrite (router_closings_none x WebRtcServerWorkerClosed) by discriminate.
      rewrite router_closings_each by exact Hrs.
      destruct (child w); simpl; destruct (decide _); reflexivity.
    + rewrite webRtcServer_closings_app.
      change (ChannelClose :: ?l) with ([ChannelClose (number := number)] ++ l).
      rewrite !webRtcServer_closings_app.
      rewrite (webRtcServer_closings_none x (fun p => RequestFailed p.1 _)) by discriminate.
      rewrite (webRtcServer_closings_none x RouterWorkerClosed) by discriminate.
      rewrite webRtcServer_closings_each by exact Hss.
      destruct (child w); simpl; destruct (decide _); reflexivity.
Qed.

Lemma cascaded_workerDied error (w : t number) :
  NoDup (routers w) -> NoDup (webRtcServers w) ->
  (closed w = true -> routers w = [] /\ webRtcServers w = []) ->
  cascaded w (workerDied error w).
Proof.
  intros Hrs Hss Hempty. destruct (closed w) eqn:Hc.
  - rewrite workerDied_closed by exact Hc.
    destruct Hempty; [reflexivity|]. apply cascaded_nothing; assumption.
  - rewrite workerDied_open by exact Hc. unfold cascaded, state_of, calls_of. simpl.
    split; [|split; [|split; reflexivity]]; intros x.
    + change (ChannelClose :: ?l) with ([ChannelClose (number := number)] ++ l).
      rewrite !router_closings_app.
      rewrite (router_closings_none x (fun p => RequestFailed p.1 _)) by discriminate.
      rewrite (router_closings_none x WebRtcServerWorkerClosed) by discriminate.
      rewrite router_closings_each by exact Hrs.
      simpl; destruct (decide _); reflexivity.
    + change (ChannelClose :: ?l) with ([ChannelClose (number := number)] ++ l).
      rewrite !webRtcServer_closings_app.
      rewrite (webRtcServer_closings_none x (fun p => RequestFailed p.1 _)) by discriminate.
      rewrite (webRtcServer_closings_none x RouterWorkerClosed) by discriminate.
      rewrite webRtcServer_closings_each by exact Hss.
      simpl; destruct (decide _); reflexivity.
Qed.

Lemma invariant_tidy (w : t number) :
  invariant w ->
  NoDup (routers w) /\ NoDup (webRtcServers w) /\
  (closed w = true -> routers w = [] /\ webRtcServers w = []).
Proof.
  intros Hinv. pose proof Hinv as (Hrs & Hss & _).
  split; [exact Hrs|]. split; [exact Hss|]. intros Hc.
  pose proof (shut_closed w Hinv Hc) as (_ & _ & _ & _ & Hr & Hs & _).
  split; assumption.
Qed.
End Cascade.

(** ** What the actions do to the flags *)

Section Flags.
Context {number : Type} `{JSNumber number} `{Collaborators number}.
Import Worker.

Lemma closed_after_close (w : t number) : closed (state_of (close w)) = true.
Proof.
  destruct (closed w) eqn:Hc.
  - rewrite close_closed by exact Hc. exact Hc.
  - rewrite close_open by exact Hc. reflexivity.
Qed.

Lemma died_after_close (w : t number) : died (state_of (close w)) = died w.
Proof.
  destruct (closed w) eqn:Hc.
  - rewrite close_closed by exact Hc. reflexivity.
  - rewrite close_open by exact Hc. reflexivity.
Qed.

Lemma close_raises_nothing (w : t number) :
  Forall (fun c => is_emit c = false) (calls_of (close w)).
Proof.
  destruct (closed w) eqn:Hc.
  - rewrite close_closed by exact Hc. constructor.
  - rewrite close_open by exact Hc. unfold calls_of. simpl.
    apply Forall_app. split; [destruct (child w); repeat constructor|].
    constructor; [reflexivity|].
    repeat (apply Forall_app; split); try (apply Forall_fmap, Forall_true; reflexivity).
    repeat constructor.
Qed.

Lemma closed_after_workerDied error (w : t number) :
  closed (state_of (workerDied error w)) = true.
Proof.
  destruct (closed w) eqn:Hc.
  - rewrite workerDied_closed by exact Hc. exact Hc.
  - rewrite workerDied_open by exact Hc. reflexivity.
Qed.

Lemma on_running_each {A : Type} event (ls : list A) (w : t number) :
  (state_of (for_each ls (fun _ => on_running event) w) = w \/
   state_of (for_each ls (fun _ => on_running event) w) = set_spawnDone true w) /\
  Forall (fun c => c = Emit Success)
         (calls_of (for_each ls (fun _ => on_running event) w)).
Proof.
  revert w. induction ls as [|l ls IH]; intros w.
  - split; [left; reflexivity|constructor].
  - simpl. unfold bind.
    assert (Hone : (state_of (on_running event w) = w /\ calls_of (on_running event w) = []) \/
                   (state_of (on_running event w) = set_spawnDone true w /\
                    calls_of (on_running event w) = [Emit Success])).
    { unfold on_running, bind, gets, modify, call, ret, state_of, calls_of.
      destruct event; simpl; [|left; split; reflexivity].
      destruct (spawnDone w); simpl; [left|right]; split; reflexivity. }
    destruct (on_running event w) as [[[] w1] c1]. unfold state_of, calls_of in *.
    simpl in Hone.
    destruct Hone as [[-> ->] | [-> ->]].
    + specialize (IH w). destruct (for_each ls _ w) as [[[] w2] c2]. exact IH.
    + specialize (IH (set_spawnDone true w)).
      destruct (for_each ls _ (set_spawnDone true w)) as [[[] w2] c2].
      simpl in *. destruct IH as [IHs IHc]. split.
      * right. destruct IHs as [-> | ->]; reflexivity.
      * constructor; [reflexivity|exact IHc].
Qed.

Lemma then_ret {A : Type} (m : M A) (w : t number) :
  bind m (fun _ => ret tt) w = (tt, state_of (m w), calls_of (m w)).
Proof.
  unfold bind, ret, state_of, calls_of. destruct (m w) as [[a w'] cs]. simpl.
  rewrite app_nil_r. reflexivity.
Qed.

(** Every request method fails at once on a Worker that is shut: it
    returns an error, leaves the Worker as it is and calls nothing. *)
Lemma requests_shut (w : t number) :
  shut w ->
  dump w = (inl (JS.InvalidStateError "Channel closed"), w, []) /\
  getResourceUsage w = (inl (JS.InvalidStateError "Channel closed"), w, []) /\
  (forall s, updateSettings s w =
             (inl (JS.InvalidStateError "Channel closed"), w, [])) /\
  (forall o uuid, exists e, createWebRtcServer o uuid w = (inl e, w, [])) /\
  (forall o uuid, exists e, createRouter o uuid w = (inl e, w, [])).
Proof.
  intros (_ & _ & Hchannel & _).
  split; [apply channel_request_closed, Hchannel|].
  split; [apply channel_request_closed, Hchannel|].
  split; [intros s; apply channel_request_closed, Hchannel|].
  split; intros o uuid.
  - unfold createWebRtcServer. destruct (bad_appData _); [eexists; reflexivity|].
    eexists. apply channel_request_closed, Hchannel.
  - unfold createRouter. destruct (bad_appData _); [eexists; reflexivity|].
    destruct (generateRouterRtpCapabilities _); [eexists; reflexivity|].
    eexists. apply channel_request_closed, Hchannel.
Qed.

(** An action on a Worker that is shut leaves both flags as they are and
    makes none of the calls of a close or a death; the events of the child
    process leave the whole Worker as it is. *)
Lemma perform_shut (a : Action number) (w : t number) :
  shut w ->
  closed (state_of (perform a w)) = true /\
  died (state_of (perform a w)) = died w /\
  Forall (fun c => closing_call c = false) (calls_of (perform a w)).
Proof.
  intros Hshut. pose proof Hshut as (Hclosed & _).
  pose proof (requests_shut w Hshut) as (Hdump & Husage & Hupdate & Hserver & Hrouter).
  destruct a; simpl.
  - rewrite close_closed by exact Hclosed. repeat split; [exact Hclosed|constructor].
  - repeat split; [exact Hclosed|constructor].
  - rewrite then_ret, Hdump. repeat split; [exact Hclosed|constructor].
  - rewrite then_ret, Husage. repeat split; [exact Hclosed|constructor].
  - rewrite then_ret, Hupdate. repeat split; [exact Hclosed|constructor].
  - destruct (Hserver o uuid) as [e He]. rewrite then_ret, He.
    repeat split; [exact Hclosed|constructor].
  - destruct (Hrouter o uuid) as [e He]. rewrite then_ret, He.
    repeat split; [exact Hclosed|constructor].
  - rewrite channel_response_shut by exact Hshut.
    repeat split; [exact Hclosed|constructor].
  - unfold channel_notification, Channel.notify.
    destruct (on_running_each event
                (filter (fun p => p.1 = subject) (Channel.listeners (channel w))).*2
                (set_channel
                   {| Channel.closed := Channel.closed (channel w);
                      Channel.nextId := Channel.nextId (channel w);
                      Channel.sents := Channel.sents (channel w);
                      Channel.listeners :=
                        filter (fun p => p.1 <> subject) (Channel.listeners (channel w)) |}
                   w)) as [Hstate Hcalls].
    split; [|split].
    + destruct Hstate as [-> | ->]; exact Hclosed.
    + destruct Hstate as [-> | ->]; reflexivity.
    + eapply Forall_impl; [exact Hcalls|]. intros c ->. reflexivity.
  - rewrite child_emit_exit_shut by exact Hshut.
    repeat split; [exact Hclosed|constructor].
  - rewrite child_emit_error_shut by exact Hshut.
    repeat split; [exact Hclosed|constructor].
  - repeat split; [exact Hclosed|constructor].
  - repeat split; [exact Hclosed|constructor].
Qed.

(** Only the events of the child process can set [died]. *)
Lemma died_frame (a : Action number) (w : t number) :
  (forall code signal, a <> ChildExit code signal) ->
  (forall error, a <> ChildError error) ->
  died (state_of (perform a w)) = died w.
Proof.
  intros Hexit Herror. destruct a; simpl.
  - apply died_after_close.
  - reflexivity.
  - rewrite then_ret. unfold dump, channel_request.
    destruct (Channel.request _ _) as [[e|id] ch]; reflexivity.
  - rewrite then_ret. unfold getResourceUsage, channel_request.
    destruct (Channel.request _ _) as [[e|id] ch]; reflexivity.
  - rewrite then_ret. unfold updateSettings, channel_request.
    destruct (Channel.request _ _) as [[e|id] ch]; reflexivity.
  - rewrite then_ret. unfold createWebRtcServer, channel_request.
    destruct (bad_appData _); [reflexivity|].
    destruct (Channel.request _ _) as [[e|id] ch]; reflexivity.
  - rewrite then_ret. unfold createRouter, channel_request.
    destruct (bad_appData _); [reflexivity|].
    destruct (generateRouterRtpCapabilities _); [reflexivity|].
    destruct (Channel.request _ _) as [[e|id] ch]; reflexivity.
  - unfold channel_response.
    destruct (Channel.take id (channel w)) as [[k|] ch]; [|reflexivity].
    destruct r, k; reflexivity.
  - unfold channel_notification.
    destruct (Channel.notify subject (channel w)) as [ls ch].
    destruct (on_running_each event ls (set_channel ch w)) as [[-> | ->] _]; reflexivity.
  - exfalso. eapply Hexit. reflexivity.
  - exfalso. eapply Herror. reflexivity.
  - reflexivity.
  - reflexivity.
Qed.

(** Whatever happens to a Worker that is closed and did not die, it
    stays so, and none of the calls of a close or a death is made. *)
Lemma run_shut (actions : list (Action number)) (w : t number) :
  invariant w -> closed w = true ->
  closed (state_of (run actions w)) = true /\
  died (state_of (run actions w)) = died w /\
  Forall (fun c => closing_call c = false) (calls_of (run actions w)).
Proof.
  revert w. induction actions as [|a actions IH]; intros w Hinv Hclosed.
  - repeat split; [exact Hclosed|constructor].
  - pose proof (perform_shut a w (shut_closed w Hinv Hclosed)) as (Hc & Hd & Hq).
    specialize (IH _ (invariant_perform a w Hinv) Hc).
    rewrite run_cons, state_of_triple, calls_of_triple.
    destruct IH as (IHc & IHd & IHq).
    split; [exact IHc|]. split; [rewrite IHd; exact Hd|].
    apply Forall_app. split; assumption.
Qed.
End Flags.

(** ** The claims *)

Section Claims.
Context {number : Type} `{JSNumber number} `{Collaborators number}.
Import Worker.

(** C3. [close()] is idempotent: whatever the state of the Worker, a
    second [close()] right after the first returns the state the first
    one left (flags, sets of routers and WebRtcServers, channel) and makes
    no call at all: no kill, no listener removal, no second ['close'] on
    the observer. Closing twice is the same as closing once, in state and
    in calls. *)
Theorem close_idempotent (w : t number) :
  close (state_of (close w)) = (tt, state_of (close w), []) /\
  state_of (run [DoClose; DoClose] w) = state_of (run [DoClose] w) /\
  calls_of (run [DoClose; DoClose] w) = calls_of (run [DoClose] w).
Proof.
  assert (Hagain : close (state_of (close w)) = (tt, state_of (close w), [])).
  { apply close_closed. destruct (closed w) eqn:Hc.
    - rewrite close_closed by exact Hc. exact Hc.
    - rewrite close_open by exact Hc. reflexivity. }
  split; [exact Hagain|].
  unfold run, state_of, calls_of in *. simpl. unfold bind, ret.
  destruct (close w) as [[[] w1] c1]. simpl in *. rewrite Hagain. simpl.
  rewrite !app_nil_r. split; reflexivity.
Qed.

(** C10. When the [appData] of the settings is omitted, [undefined] or
    otherwise falsy, the Worker is built with [appData] an empty object,
    not [undefined]; and the setter replaces [appData] by the value given
    in every state, closed or died included, touching nothing else and
    calling nothing. *)
Theorem appData_default_and_setter env (settings : Spawn.WorkerSettings number)
  child_pid :
  JS.truthy (Spawn.appData settings) = false ->
  get_appData (constructor env settings child_pid).1 = JS.Object [] /\
  get_appData (constructor env settings child_pid).1 <> JS.Undefined /\
  forall (w : t number) (v : JS.Value number),
    get_appData (state_of (put_appData v w)) = v /\
    state_of (put_appData v w) = set_appData v w /\
    get_closed (state_of (put_appData v w)) = get_closed w /\
    get_died (state_of (put_appData v w)) = get_died w /\
    calls_of (put_appData v w) = [].
Proof.
  intros Hfalsy. unfold get_appData, constructor, JS.or_else. simpl.
  rewrite Hfalsy. split; [reflexivity|]. split; [discriminate|].
  intros w v. repeat split.
Qed.

(** C7. [createWebRtcServer] and [createRouter], given an [appData] that
    is truthy and whose [typeof] is not ['object'], throw the [TypeError]
    at once: the Worker is left as it was (sets of routers and
    WebRtcServers included) and no call is made, so nothing is packed for
    or sent on the channel and nothing is raised on the observer. *)
Theorem creation_rejects_appData_that_is_no_object (w : t number)
  (appData : JS.Value number) :
  JS.truthy appData = true ->
  JS.typeof appData <> "object" ->
  (forall o uuid, webRtcServer_appData o = appData ->
     createWebRtcServer o uuid w =
     (inl (JS.TypeError "if given, appData must be an object"), w, [])) /\
  (forall o uuid, router_appData o = appData ->
     createRouter o uuid w =
     (inl (JS.TypeError "if given, appData must be an object"), w, [])).
Proof.
  intros Htruthy Htype.
  assert (Hbad : bad_appData appData = true).
  { unfold bad_appData. rewrite Htruthy. simpl.
    destruct (String.eqb_spec (JS.typeof appData) "object"); [contradiction|reflexivity]. }
  split; intros o uuid Ho.
  - unfold createWebRtcServer. rewrite Ho, Hbad. reflexivity.
  - unfold createRouter. rewrite Ho, Hbad. reflexivity.
Qed.

(** C8. On a running Worker [getResourceUsage()] sends its request and
    awaits the response; what it then returns for the decoded response
    [ru] is an object with exactly the sixteen fields of
    [WorkerResourceUsage], each once and in the documented order, and
    each field is the number [Number(x)] of the counter of [ru] it is
    named after. *)
Theorem getResourceUsage_sixteen_fields (w : t number)
  (ru : ResourceUsageResponseT) :
  reachable w ->
  closed w = false ->
  (exists id w1,
     getResourceUsage w =
       (inr id, w1, [ChannelSend id Channel.WORKER_GET_RESOURCE_USAGE NoBody]) /\
     Channel.sents (channel w1) !! id = Some AwaitResourceUsage) /\
  JS.keys (resourceUsage ru) = Spec.WorkerResourceUsage_fields /\
  length (JS.keys (resourceUsage ru)) = 16%nat /\
  NoDup (JS.keys (resourceUsage ru)) /\
  Forall (fun k => exists n, JS.get (resourceUsage ru) k = Some (JS.Num n))
         (JS.keys (resourceUsage ru)) /\
  JS.get (resourceUsage ru) "ru_utime" = Some (JS.Num (Number_of_bigint (ruUtime ru))) /\
  JS.get (resourceUsage ru) "ru_stime" = Some (JS.Num (Number_of_bigint (ruStime ru))) /\
  JS.get (resourceUsage ru) "ru_maxrss" = Some (JS.Num (Number_of_bigint (ruMaxrss ru))) /\
  JS.get (resourceUsage ru) "ru_ixrss" = Some (JS.Num (Number_of_bigint (ruIxrss ru))) /\
  JS.get (resourceUsage ru) "ru_idrss" = Some (JS.Num (Number_of_bigint (ruIdrss ru))) /\
  JS.get (resourceUsage ru) "ru_isrss" = Some (JS.Num (Number_of_bigint (ruIsrss ru))) /\
  JS.get (resourceUsage ru) "ru_minflt" = Some (JS.Num (Number_of_bigint (ruMinflt ru))) /\
  JS.get (resourceUsage ru) "ru_majflt" = Some (JS.Num (Number_of_bigint (ruMajflt ru))) /\
  JS.get (resourceUsage ru) "ru_nswap" = Some (JS.Num (Number_of_bigint (ruNswap ru))) /\
  JS.get (resourceUsage ru) "ru_inblock" = Some (JS.Num (Number_of_bigint (ruInblock ru))) /\
  JS.get (resourceUsage ru) "ru_oublock" = Some (JS.Num (Number_of_bigint (ruOublock ru))) /\
  JS.get (resourceUsage ru) "ru_msgsnd" = Some (JS.Num (Number_of_bigint (ruMsgsnd ru))) /\
  JS.get (resourceUsage ru) "ru_msgrcv" = Some (JS.Num (Number_of_bigint (ruMsgrcv ru))) /\
  JS.get (resourceUsage ru) "ru_nsignals" = Some (JS.Num (Number_of_bigint (ruNsignals ru))) /\
  JS.get (resourceUsage ru) "ru_nvcsw" = Some (JS.Num (Number_of_bigint (ruNvcsw ru))) /\
  JS.get (resourceUsage ru) "ru_nivcsw" = Some (JS.Num (Number_of_bigint (ruNivcsw ru))).
Proof.
  intros Hreach Hopen.
  pose proof (running_open w (reachable_invariant w Hreach) Hopen)
    as (_ & _ & _ & Hchannel & _).
  split.
  { eexists _, _. unfold getResourceUsage.
    rewrite channel_request_open by exact Hchannel.
    split; [reflexivity|]. simpl. apply lookup_insert_eq. }
  split; [reflexivity|]. split; [reflexivity|].
  split; [apply (bool_decide_unpack _); vm_compute; exact I|].
  split; [simpl; repeat (apply Forall_cons; split; [eexists; reflexivity|]); apply Forall_nil_2|].
  repeat split.
Qed.

(** C1, amended. Take a Worker that has not received the 'running'
    notification ([spawnDone] is false). While it is not closed, the
    ['exit'] event of its child process runs the ['exit'] handler: with
    exit code 42 it raises ['@failure'] with the [TypeError]
    'wrong settings'; with any other code, or a signal, it raises
    ['@failure'] with the [Error]
    ['[pid:<pid>, code:<code>, signal:<signal>]'], where an undefined pid
    reads 'undefined' and an absent code or signal reads 'null'. In both
    cases this is the only event raised on the Worker, and the Worker ends
    closed and not died. Once it is closed, the ['exit'] event raises
    nothing and changes nothing. *)
Theorem exit_before_running_is_a_failure_unless_closed (w : t number)
  (code : option Z) (signal : option string) :
  reachable w ->
  spawnDone w = false ->
  (closed w = false ->
   (code = Some 42 ->
    exists cs,
      calls_of (child_emit_exit code signal w) =
        cs ++ [Emit (Failure (JS.TypeError "wrong settings"))] /\
      Forall (fun c => is_emit c = false) cs) /\
   (code <> Some 42 ->
    exists cs,
      calls_of (child_emit_exit code signal w) =
        cs ++ [Emit (Failure (JS.PlainError
                 ("[pid:" +:+
                  match pid w with Some p => pretty p | None => "undefined" end +:+
                  ", code:" +:+
                  match code with Some c => pretty c | None => "null" end +:+
                  ", signal:" +:+
                  match signal with Some name => name | None => "null" end +:+
                  "]")))] /\
      Forall (fun c => is_emit c = false) cs) /\
   closed (state_of (child_emit_exit code signal w)) = true /\
   died (state_of (child_emit_exit code signal w)) = false /\
   child_emit_exit code signal w = on_exit code signal w) /\
  (closed w = true -> child_emit_exit code signal w = (tt, w, [])).
Proof.
  intros Hreach Hdone. pose proof (reachable_invariant w Hreach) as Hinv.
  split; [|intros Hc; apply child_emit_exit_shut, shut_closed; assumption].
  intros Hc. pose proof (running_open w Hinv Hc) as Hrun.
  assert (Hdied : died w = false) by apply Hrun.
  rewrite child_emit_exit_running by exact Hrun.
  split; [|split; [|split; [|split; [|reflexivity]]]];
    rewrite on_exit_unfold, Hdone; rewrite ?state_of_triple, ?calls_of_triple.
  - intros ->. eexists. split; [reflexivity|]. apply close_raises_nothing.
  - intros Hcode. destruct (decide (code = Some 42)); [contradiction|].
    eexists. split; [|apply close_raises_nothing].
    destruct (pid w), code, signal; reflexivity.
  - apply closed_after_close.
  - rewrite died_after_close. exact Hdied.
Qed.

(** C2. In every reachable state [died] implies [closed]. Step by step:
    [workerDied] always leaves [closed] set; an action never resets
    [closed]; and an action that sets [died] is an event of the child
    process (whose handlers are the only callers of [workerDied]) and
    leaves [closed] set as well. *)
Theorem died_implies_closed (w : t number) :
  reachable w ->
  (died w = true -> closed w = true) /\
  (forall error (w0 : t number), closed (state_of (workerDied error w0)) = true) /\
  (forall a,
     (closed w = true -> closed (state_of (perform a w)) = true) /\
     (died (state_of (perform a w)) = true ->
      closed (state_of (perform a w)) = true) /\
     (died w = false -> died (state_of (perform a w)) = true ->
      (exists code signal, a = ChildExit code signal) \/
      (exists error, a = ChildError error))).
Proof.
  intros Hreach. pose proof (reachable_invariant w Hreach) as Hinv.
  assert (Hdc : forall w' : t number, invariant w' -> died w' = true -> closed w' = true).
  { intros w' (_ & _ & [(_ & Hd & _) | (Hc & _)]) Hdied; [congruence|exact Hc]. }
  split; [apply Hdc, Hinv|]. split; [intros; apply closed_after_workerDied|].
  intros a. split; [|split].
  - intros Hc. apply (perform_shut a w (shut_closed w Hinv Hc)).
  - apply Hdc, invariant_perform, Hinv.
  - intros Halive Hdied.
    destruct a; try (rewrite died_frame in Hdied by discriminate; congruence).
    + left. eauto.
    + right. eauto.
Qed.

(** C4. The cascade. From every reachable state, [close()],
    [workerDied()] and the events of the child process that lead to one of
    them call [workerClosed()] exactly once on each router and on each
    WebRtcServer that is in the sets at that moment, on no other, and
    leave both sets empty. *)
Theorem cascade_reaches_every_resource_once (w : t number) :
  reachable w ->
  cascaded w (close w) /\
  (forall error, cascaded w (workerDied error w)) /\
  (forall code signal, cascaded w (child_emit_exit code signal w)) /\
  (forall error, cascaded w (child_emit_error error w)).
Proof.
  intros Hreach. pose proof (reachable_invariant w Hreach) as Hinv.
  pose proof (invariant_tidy w Hinv) as (Hrs & Hss & Hempty).
  assert (Hfailure : forall e,
            cascaded w (tt, state_of (close (set_spawnDone true (set_child false w))),
                        calls_of (close (set_spawnDone true (set_child false w))) ++
                        [Emit (Failure e)])).
  { intros e.
    destruct (cascaded_close (set_spawnDone true (set_child false w)) Hrs Hss Hempty)
      as (Hr & Hs & Hre & Hse).
    unfold cascaded. rewrite state_of_triple, calls_of_triple.
    split; [|split; [|split; assumption]]; intros x.
    - rewrite router_closings_app, Hr. apply Nat.add_0_r.
    - rewrite webRtcServer_closings_app, Hs. apply Nat.add_0_r. }
  assert (Hdeath : forall e, cascaded w (workerDied e (set_child false w))).
  { intros e. apply (cascaded_workerDied e (set_child false w) Hrs Hss Hempty). }
  assert (Hnothing : closed w = true -> cascaded w (tt, w, [])).
  { intros Hc. destruct (Hempty Hc). apply cascaded_nothing; assumption. }
  split; [apply cascaded_close; assumption|].
  split; [intros; apply cascaded_workerDied; assumption|].
  split.
  - intros code signal. destruct (closed w) eqn:Hc.
    + rewrite child_emit_exit_shut by (apply shut_closed; assumption).
      apply Hnothing. reflexivity.
    + rewrite child_emit_exit_running, on_exit_unfold by (apply running_open; assumption).
      destruct (spawnDone w); [apply Hdeath|apply Hfailure].
  - intros error. destruct (closed w) eqn:Hc.
    + rewrite child_emit_error_shut by (apply shut_closed; assumption).
      apply Hnothing. reflexivity.
    + rewrite child_emit_error_running, on_error_unfold by (apply running_open; assumption).
      destruct (spawnDone w); [apply Hdeath|apply Hfailure].
Qed.

(** C5. After [close()] has run, and whatever happened to the Worker
    since, each of [dump], [getResourceUsage], [updateSettings],
    [createWebRtcServer] and [createRouter] fails at once: it returns an
    error, leaves the Worker as it is and makes no call, so nothing is
    sent to the worker process. *)
Theorem requests_after_close_fail (w : t number)
  (later : list (Action number)) :
  reachable w ->
  let w' := state_of (run later (state_of (close w))) in
  dump w' = (inl (JS.InvalidStateError "Channel closed"), w', []) /\
  getResourceUsage w' = (inl (JS.InvalidStateError "Channel closed"), w', []) /\
  (forall s, updateSettings s w' =
             (inl (JS.InvalidStateError "Channel closed"), w', [])) /\
  (forall o uuid, exists e, createWebRtcServer o uuid w' = (inl e, w', [])) /\
  (forall o uuid, exists e, createRouter o uuid w' = (inl e, w', [])).
Proof.
  intros Hreach w'. apply requests_shut.
  pose proof (reachable_invariant _ (reachable_step w DoClose Hreach)) as Hinv.
  simpl in Hinv.
  apply shut_closed.
  - apply reachable_invariant, reachable_run.
    apply (reachable_step w DoClose Hreach).
  - apply (run_shut later _ Hinv (closed_after_close w)).
Qed.

(** C9. Once a Worker is closed without having died, an ['exit'] or
    ['error'] event of the child process changes nothing in it and makes
    no call; and whatever happens to it afterwards, [died] stays false,
    [closed] stays true, no ['died'] event is raised, and neither the
    cascade over the resources nor the observer's ['close'] runs again. *)
Theorem closed_worker_ignores_child_events (w : t number) :
  reachable w ->
  closed w = true ->
  died w = false ->
  (forall code signal, child_emit_exit code signal w = (tt, w, [])) /\
  (forall error, child_emit_error error w = (tt, w, [])) /\
  (forall error, workerDied error w = (tt, w, [])) /\
  (forall later,
     died (state_of (run later w)) = false /\
     closed (state_of (run later w)) = true /\
     Forall (fun c => closing_call c = false) (calls_of (run later w))).
Proof.
  intros Hreach Hclosed Hdied. pose proof (reachable_invariant w Hreach) as Hinv.
  pose proof (shut_closed w Hinv Hclosed) as Hshut.
  split; [intros; apply child_emit_exit_shut, Hshut|].
  split; [intros; apply child_emit_error_shut, Hshut|].
  split; [intros; apply workerDied_closed, Hclosed|].
  intros later. destruct (run_shut later w Hinv Hclosed) as (Hc & Hd & Hq).
  split; [congruence|]. split; assumption.
Qed.
End Claims.

(** ** From settings to arguments *)

Section PortArguments.
Context {number : Type} `{JSNumber number}.

Lemma no_port_in_string_argument (key : string) (v : JS.Value number) :
  Spec.is_port_argument ("--" +:+ key +:+ "=") = false ->
  (forall s, Spec.is_port_argument ("--" +:+ key +:+ "=" +:+ s) =
             Spec.is_port_argument ("--" +:+ key +:+ "=")) ->
  List.filter Spec.is_port_argument (Spec.string_argument key v) = [].
Proof.
  intros Hkey Hany. unfold Spec.string_argument.
  destruct v; try reflexivity.
  destruct (decide (s = "")); [reflexivity|]. simpl. rewrite Hany, Hkey. reflexivity.
Qed.

Lemma no_port_in_logTags (v : JS.Value number) :
  List.filter Spec.is_port_argument (Spec.logTag_arguments v) = [].
Proof.
  unfold Spec.logTag_arguments. destruct v; try reflexivity.
  induction items as [|tag tags IH]; [reflexivity|].
  rewrite bind_cons, List.filter_app, IH, app_nil_r.
  apply no_port_in_string_argument; [reflexivity|intros s; reflexivity].
Qed.
End PortArguments.

(** C6, as first stated, fails: a recognised setting of the declared type
    need not give exactly one argument. [logTags: ['ice', 'dtls']] is one
    well-typed setting and gives two arguments, and
    [dtlsCertificateFile: ''] is one well-typed setting and gives none. *)
Lemma one_argument_per_setting_fails :
  Spawn.push_settings Sample.two_tags [] = ["--logTag=ice"; "--logTag=dtls"] /\
  Spec.well_typed_settings Sample.two_tags = 1%nat /\
  Spawn.push_settings Sample.empty_certificate [] = [] /\
  Spec.well_typed_settings Sample.empty_certificate = 1%nat /\
  ~ (forall s : Spawn.WorkerSettings IntNumber.t,
       length (Spawn.push_settings s []) = Spec.well_typed_settings s).
Proof.
  repeat split. intros Hall. specialize (Hall Sample.two_tags). discriminate Hall.
Qed.

(** C6, amended. The arguments are those of valgrind, if any, followed by
    what the settings give, in this order: [logLevel],
    [dtlsCertificateFile], [dtlsPrivateKeyFile] and [libwebrtcFieldTrials]
    give one [--key=value] when they are a non-empty string; [rtcMinPort]
    and [rtcMaxPort] give one when they are a number other than NaN;
    [logTags] gives one [--logTag=tag] for each non-empty string of the
    array; a setting that is absent, of another type, empty or NaN gives
    nothing. With [rtcMinPort: 10000] and [rtcMaxPort: 10010] the
    arguments that set a port are exactly [--rtcMinPort=10000] and
    [--rtcMaxPort=10010], whatever the other settings are, and they are
    the whole list when nothing else is set. *)
Theorem settings_become_arguments :
  (forall (number : Type) (N : JSNumber number) env
          (s : Spawn.WorkerSettings number),
     Spawn.spawnArgs env s = Spawn.valgrindArgs env ++ Spec.settings_arguments s) /\
  (forall logLevel logTags certificate key trials appData,
     List.filter Spec.is_port_argument
       (Spawn.push_settings
          {| Spawn.logLevel := logLevel;
             Spawn.logTags := logTags;
             Spawn.rtcMinPort := JS.Num (IntNumber.Int 10000);
             Spawn.rtcMaxPort := JS.Num (IntNumber.Int 10010);
             Spawn.dtlsCertificateFile := certificate;
             Spawn.dtlsPrivateKeyFile := key;
             Spawn.libwebrtcFieldTrials := trials;
             Spawn.appData := appData |} []) =
     ["--rtcMinPort=10000"; "--rtcMaxPort=10010"]) /\
  Spawn.spawnArgs Sample.env Sample.ports =
    ["--rtcMinPort=10000"; "--rtcMaxPort=10010"].
Proof.
  split; [intros; apply push_settings_spec|]. split; [|reflexivity].
  intros. rewrite push_settings_spec. unfold Spec.settings_arguments.
  cbn [app Spawn.logLevel Spawn.logTags Spawn.rtcMinPort Spawn.rtcMaxPort
       Spawn.dtlsCertificateFile Spawn.dtlsPrivateKeyFile Spawn.libwebrtcFieldTrials].
  rewrite !List.filter_app, no_port_in_logTags.
  rewrite !no_port_in_string_argument by (try reflexivity; intros; reflexivity).
  reflexivity.
Qed.

(** ** The theorems at sample inputs *)

(** The sample Worker with a router and a WebRtcServer is reachable. *)
Lemma busy_reachable : Worker.reachable Sample.busy.
Proof.
  exact (reachable_run Sample.history _
           (Worker.reachable_new Sample.env Sample.no_settings (Some 4242))).
Defined.

(** C1, as first stated, fails: [close()] takes the ['exit'] listener off
    the child process, so a Worker closed before the 'running'
    notification raises no ['@failure'] when its child exits with code 42
    (or with any other code). *)
Lemma exit_after_early_close_raises_nothing :
  Worker.reachable Sample.closed_early /\
  Worker.spawnDone Sample.closed_early = false /\
  Worker.calls_of
    (Worker.perform (Worker.ChildExit (Some 42) None) Sample.closed_early) = [] /\
  Worker.calls_of
    (Worker.perform (Worker.ChildExit (Some 1) None) Sample.closed_early) = [] /\
  ~ (forall w : Worker.t IntNumber.t,
       Worker.reachable w -> Worker.spawnDone w = false ->
       exists cs,
         Worker.calls_of (Worker.child_emit_exit (Some 42) None w) =
           cs ++ [Worker.Emit (Worker.Failure (JS.TypeError "wrong settings"))]).
Proof.
  assert (Hr : Worker.reachable Sample.closed_early)
    by exact (Worker.reachable_step _ Worker.DoClose
                (Worker.reachable_new Sample.env Sample.no_settings (Some 4242))).
  split; [exact Hr|]. split; [reflexivity|]. split; [reflexivity|].
  split; [reflexivity|].
  intros Hall. destruct (Hall Sample.closed_early Hr eq_refl) as [cs Hcs].
  change (Worker.calls_of
            (Worker.child_emit_exit (Some 42) None Sample.closed_early))
    with (@nil (Worker.Call IntNumber.t)) in Hcs.
  destruct cs; discriminate Hcs.
Qed.

(** C1 at a sample input. *)
Lemma exit_before_running_is_a_failure_unless_closed_witness :
  Worker.reachable Sample.fresh /\
  Worker.spawnDone Sample.fresh = false /\
  Worker.closed Sample.fresh = false /\
  Worker.closed
    (Worker.state_of (Worker.child_emit_exit (Some 42) None Sample.fresh)) = true /\
  Worker.died
    (Worker.state_of (Worker.child_emit_exit (Some 42) None Sample.fresh)) = false /\
  (exists cs,
     Worker.calls_of (Worker.child_emit_exit None (Some "SIGSEGV") Sample.fresh) =
       cs ++ [Worker.Emit (Worker.Failure
                (JS.PlainError "[pid:4242, code:null, signal:SIGSEGV]"))] /\
     Forall (fun c => Worker.is_emit c = false) cs).
Proof.
  assert (Hr : Worker.reachable Sample.fresh)
    by exact (Worker.reachable_new Sample.env Sample.no_settings (Some 4242)).
  split; [exact Hr|]. split; [reflexivity|]. split; [reflexivity|].
  destruct (exit_before_running_is_a_failure_unless_closed
              Sample.fresh (Some 42) None Hr eq_refl) as [Hopen _].
  destruct (Hopen eq_refl) as (_ & _ & Hclosed & Hdied & _).
  split; [exact Hclosed|]. split; [exact Hdied|].
  destruct (exit_before_running_is_a_failure_unless_closed
              Sample.fresh None (Some "SIGSEGV") Hr eq_refl) as [Hsignal _].
  destruct (Hsignal eq_refl) as (_ & Hother & _).
  apply Hother. discriminate.
Defined.

(** C2 at a sample input. *)
Lemma died_implies_closed_witness :
  Worker.reachable Sample.dead /\
  Worker.died Sample.dead = true /\
  Worker.closed Sample.dead = true.
Proof.
  assert (Hr : Worker.reachable Sample.dead)
    by exact (Worker.reachable_step _ (Worker.ChildExit (Some 1) None) busy_reachable).
  split; [exact Hr|]. split; [reflexivity|].
  exact (proj1 (died_implies_closed Sample.dead Hr) eq_refl).
Defined.

(** C4 at a sample input. *)
Lemma cascade_reaches_every_resource_once_witness :
  Worker.reachable Sample.busy /\
  Worker.routers Sample.busy = [0%nat] /\
  Worker.webRtcServers Sample.busy = [1%nat] /\
  Worker.cascaded Sample.busy (Worker.close Sample.busy).
Proof.
  split; [exact busy_reachable|]. split; [reflexivity|]. split; [reflexivity|].
  exact (proj1 (cascade_reaches_every_resource_once Sample.busy busy_reachable)).
Defined.

(** C5 at a sample input. *)
Lemma requests_after_close_fail_witness :
  Worker.reachable Sample.busy /\
  Worker.dump
    (Worker.state_of
       (Worker.run [Worker.GotResponse 2 Worker.Accepted]
          (Worker.state_of (Worker.close Sample.busy)))) =
  (inl (JS.InvalidStateError "Channel closed"),
   Worker.state_of
     (Worker.run [Worker.GotResponse 2 Worker.Accepted]
        (Worker.state_of (Worker.close Sample.busy))), []).
Proof.
  split; [exact busy_reachable|].
  exact (proj1 (requests_after_close_fail Sample.busy
                  [Worker.GotResponse 2 Worker.Accepted] busy_reachable)).
Defined.

(** C7 at a sample input. *)
Lemma creation_rejects_appData_that_is_no_object_witness :
  JS.truthy (JS.Num (IntNumber.Int 7)) = true /\
  JS.typeof (JS.Num (IntNumber.Int 7)) <> "object" /\
  Worker.createRouter Sample.bad_router_options "33333333-3333-4333-8333-333333333333"
    Sample.busy =
  (inl (JS.TypeError "if given, appData must be an object"), Sample.busy, []).
Proof.
  assert (Hno : JS.typeof (JS.Num (IntNumber.Int 7)) <> "object") by discriminate.
  split; [reflexivity|]. split; [exact Hno|].
  exact (proj2 (creation_rejects_appData_that_is_no_object Sample.busy
                  (JS.Num (IntNumber.Int 7)) eq_refl Hno)
           Sample.bad_router_options _ eq_refl).
Defined.

(** C8 at a sample input. *)
Lemma getResourceUsage_sixteen_fields_witness :
  Worker.reachable Sample.busy /\
  Worker.closed Sample.busy = false /\
  JS.keys (Worker.resourceUsage Sample.usage) = Spec.WorkerResourceUsage_fields.
Proof.
  split; [exact busy_reachable|]. split; [reflexivity|].
  exact (proj1 (proj2 (getResourceUsage_sixteen_fields Sample.busy Sample.usage
                         busy_reachable eq_refl))).
Defined.

(** C9 at a sample input. *)
Lemma closed_worker_ignores_child_events_witness :
  Worker.reachable Sample.shut_down /\
  Worker.closed Sample.shut_down = true /\
  Worker.died Sample.shut_down = false /\
  Worker.child_emit_exit None (Some "SIGTERM") Sample.shut_down =
    (tt, Sample.shut_down, []).
Proof.
  assert (Hr : Worker.reachable Sample.shut_down)
    by exact (Worker.reachable_step _ Worker.DoClose busy_reachable).
  split; [exact Hr|]. split; [reflexivity|]. split; [reflexivity|].
  exact (proj1 (closed_worker_ignores_child_events Sample.shut_down Hr eq_refl eq_refl)
           None (Some "SIGTERM")).
Defined.

(** C10 at a sample input. *)
Lemma appData_default_and_setter_witness :
  JS.truthy (Spawn.appData Sample.no_settings) = false /\
  Worker.get_appData Sample.fresh = JS.Object [].
Proof.
  split; [reflexivity|].
  exact (proj1 (appData_default_and_setter Sample.env Sample.no_settings (Some 4242)
                  eq_refl)).
Defined.

(** * Further properties *)

(** ** Logs of whole histories *)

Section Histories.
Context {number : Type} `{JSNumber number} `{Collaborators number}.
Import Worker.

Lemma count_app (p : Call number -> bool) (xs ys : list (Call number)) :
  Log.count p (xs ++ ys) = (Log.count p xs + Log.count p ys)%nat.
Proof. unfold Log.count. rewrite List.filter_app, length_app. reflexivity. Qed.

Lemma count_fmap_none {A : Type} (p : Call number -> bool) (f : A -> Call number)
  (xs : list A) :
  (forall x, p (f x) = false) -> Log.count p (f <$> xs) = 0%nat.
Proof.
  intros Hf. induction xs as [|x xs IH]; [reflexivity|].
  unfold Log.count in *. rewrite fmap_cons. cbn [List.filter]. rewrite Hf. exact IH.
Qed.

(** What [close] and [workerDied] log when they run. *)
Lemma count_close_calls (p : Call number -> bool) (w : t number) :
  closed w = false ->
  (forall id e, p (RequestFailed id e) = false) ->
  (forall r, p (RouterWorkerClosed r) = false) ->
  (forall r, p (WebRtcServerWorkerClosed r) = false) ->
  Log.count p (calls_of (close w)) =
  (Log.count p
     (if child w then
        [ChildRemoveAllListeners "exit"; ChildRemoveAllListeners "error";
         ChildOn "error" Inert; ChildKill "SIGTERM"]
      else []) +
   Log.count p [ChannelClose; ObserverSafeEmit OClose])%nat.
Proof.
  intros Hc Hfailed Hrouter Hserver. rewrite close_open by exact Hc.
  rewrite calls_of_triple.
  change (ChannelClose :: ?l) with ([ChannelClose (number := number)] ++ l).
  rewrite !count_app.
  rewrite (count_fmap_none p (fun q => RequestFailed q.1 _)) by (intros; apply Hfailed).
  rewrite (count_fmap_none p RouterWorkerClosed) by exact Hrouter.
  rewrite (count_fmap_none p WebRtcServerWorkerClosed) by exact Hserver.
  unfold Log.count. simpl.
  destruct (p ChannelClose), (p (ObserverSafeEmit OClose)); simpl; lia.
Qed.

Lemma count_workerDied_calls (p : Call number -> bool) error (w : t number) :
  closed w = false ->
  (forall id e, p (RequestFailed id e) = false) ->
  (forall r, p (RouterWorkerClosed r) = false) ->
  (forall r, p (WebRtcServerWorkerClosed r) = false) ->
  Log.count p (calls_of (workerDied error w)) =
  Log.count p [ChannelClose; SafeEmit (Died error); ObserverSafeEmit OClose].
Proof.
  intros Hc Hfailed Hrouter Hserver. rewrite workerDied_open by exact Hc.
  rewrite calls_of_triple.
  change (ChannelClose :: ?l) with ([ChannelClose (number := number)] ++ l).
  rewrite !count_app.
  rewrite (count_fmap_none p (fun q => RequestFailed q.1 _)) by (intros; apply Hfailed).
  rewrite (count_fmap_none p RouterWorkerClosed) by exact Hrouter.
  rewrite (count_fmap_none p WebRtcServerWorkerClosed) by exact Hserver.
  unfold Log.count. simpl.
  destruct (p ChannelClose), (p (SafeEmit (Died error))),
    (p (ObserverSafeEmit OClose)); simpl; lia.
Qed.

(** The listener of the 'running' notification, run for each of the
    listeners found: nothing happens, or the spawn was undecided and is now
    a success. *)
Lemma on_running_decided {A : Type} event (ls : list A) (w : t number) :
  spawnDone w = true ->
  for_each ls (fun _ => on_running event) w = (tt, w, []).
Proof.
  intros Hdone. induction ls as [|l ls IH]; [reflexivity|].
  simpl. unfold bind. unfold on_running at 1. unfold bind, gets. rewrite Hdone.
  destruct event; simpl; rewrite IH; reflexivity.
Qed.

Lemma on_running_exact {A : Type} event (ls : list A) (w : t number) :
  for_each ls (fun _ => on_running event) w = (tt, w, []) \/
  (spawnDone w = false /\ event = Channel.WORKER_RUNNING /\ ls <> [] /\
   for_each ls (fun _ => on_running event) w =
     (tt, set_spawnDone true w, [Emit Success])).
Proof.
  destruct ls as [|l ls]; [left; reflexivity|].
  destruct (spawnDone w) eqn:Hdone.
  { left. apply on_running_decided, Hdone. }
  destruct event.
  - right. repeat split; [discriminate|].
    simpl. unfold bind. unfold on_running at 1. unfold bind, gets, modify, call.
    rewrite Hdone. simpl. rewrite on_running_decided by reflexivity. reflexivity.
  - left. revert w Hdone. induction (l :: ls) as [|x xs IH]; intros w Hdone;
      [reflexivity|].
    simpl. unfold bind. unfold on_running at 1. unfold bind, gets, ret.
    simpl. rewrite IH by exact Hdone. reflexivity.
Qed.

Lemma close_counts (w : t number) :
  closed w = false ->
  Log.count Log.is_success (calls_of (close w)) = 0%nat /\
  Log.count Log.is_failure (calls_of (close w)) = 0%nat /\
  Log.count Log.is_died (calls_of (close w)) = 0%nat /\
  Log.count Log.is_observer_close (calls_of (close w)) = 1%nat /\
  Log.count Log.is_kill (calls_of (close w)) = (if child w then 1 else 0)%nat.
Proof.
  intros Hc. repeat split;
    rewrite count_close_calls by (assumption || reflexivity);
    destruct (child w); reflexivity.
Qed.

Lemma workerDied_counts error (w : t number) :
  closed w = false ->
  Log.count Log.is_success (calls_of (workerDied error w)) = 0%nat /\
  Log.count Log.is_failure (calls_of (workerDied error w)) = 0%nat /\
  Log.count Log.is_died (calls_of (workerDied error w)) = 1%nat /\
  Log.count Log.is_observer_close (calls_of (workerDied error w)) = 1%nat /\
  Log.count Log.is_kill (calls_of (workerDied error w)) = 0%nat.
Proof.
  intros Hc. repeat split;
    rewrite count_workerDied_calls by (assumption || reflexivity); reflexivity.
Qed.

(** A step that leaves the flags and the handlers alone and logs none of
    the five kinds of call keeps the account. *)
Lemma accounted_frame (w w' : t number) (cs cs' : list (Call number)) :
  Log.accounted w cs ->
  spawnDone w' = spawnDone w -> died w' = died w -> closed w' = closed w ->
  exit_listeners (process w') = exit_listeners (process w) ->
  Log.count Log.is_success cs' = 0%nat ->
  Log.count Log.is_failure cs' = 0%nat ->
  Log.count Log.is_died cs' = 0%nat ->
  Log.count Log.is_observer_close cs' = 0%nat ->
  Log.count Log.is_kill cs' = 0%nat ->
  Log.accounted w' (cs ++ cs').
Proof.
  intros (A1 & A2 & A3 & A4 & A5 & A6) Hs Hd Hc Hl C1 C2 C3 C4 C5.
  unfold Log.accounted. rewrite !count_app, Hs, Hd, Hc, Hl, C1, C2, C3, C4, C5.
  rewrite !Nat.add_0_r. repeat split; assumption.
Qed.

Lemma accounted_request method body k (w : t number) (cs : list (Call number)) :
  Log.accounted w cs ->
  Log.accounted (state_of (channel_request method body k w))
                (cs ++ calls_of (channel_request method body k w)).
Proof.
  intros Hacc. destruct (Channel.closed (channel w)) eqn:Hc.
  - rewrite channel_request_closed by exact Hc.
    apply (accounted_frame w); try exact Hacc; reflexivity.
  - rewrite channel_request_open by exact Hc.
    apply (accounted_frame w); try exact Hacc; reflexivity.
Qed.

Lemma accounted_exit_handler (w : t number) (cs : list (Call number)) e1 e2 :
  running w -> Log.accounted w cs ->
  Log.accounted
    (state_of (if spawnDone w then workerDied e1 (set_child false w)
               else (tt, state_of (close (set_spawnDone true (set_child false w))),
                     calls_of (close (set_spawnDone true (set_child false w))) ++
                     [Emit (Failure e2)])))
    (cs ++
     calls_of (if spawnDone w then workerDied e1 (set_child false w)
               else (tt, state_of (close (set_spawnDone true (set_child false w))),
                     calls_of (close (set_spawnDone true (set_child false w))) ++
                     [Emit (Failure e2)]))).
Proof.
  intros (Hclosed & Hdied & Hchild & Hchannel & Hexit & Herror)
         (A1 & A2 & A3 & A4 & A5 & A6).
  specialize (A5 Hclosed). rewrite Hclosed in A3. rewrite Hdied in A2.
  rewrite Hexit in A4.
  destruct (spawnDone w) eqn:Hdone.
  - destruct (workerDied_counts e1 (set_child false w) Hclosed)
      as (C1 & C2 & C3 & C4 & C5).
    unfold Log.accounted. rewrite !count_app, C1, C2, C3, C4, C5.
    rewrite workerDied_open by exact Hclosed. rewrite state_of_triple. simpl.
    rewrite Hdone, Hexit. repeat split; lia.
  - rewrite state_of_triple, calls_of_triple.
    destruct (close_counts (set_spawnDone true (set_child false w)) Hclosed)
      as (C1 & C2 & C3 & C4 & C5).
    unfold Log.accounted. rewrite !count_app, C1, C2, C3, C4, C5.
    rewrite close_open by exact Hclosed. rewrite state_of_triple. simpl.
    rewrite Hdied, Hexit. unfold Log.count in *. simpl.
    repeat split; try lia; try discriminate.
Qed.

Lemma accounted_perform (a : Action number) (w : t number)
  (cs : list (Call number)) :
  invariant w -> Log.accounted w cs ->
  Log.accounted (state_of (perform a w)) (cs ++ calls_of (perform a w)).
Proof.
  intros Hinv Hacc. destruct a; simpl.
  - destruct (closed w) eqn:Hc.
    + rewrite close_closed by exact Hc.
      apply (accounted_frame w); try exact Hacc; reflexivity.
    + pose proof (running_open w Hinv Hc) as (_ & Hdied & Hchild & _ & Hexit & _).
      destruct Hacc as (A1 & A2 & A3 & A4 & A5 & A6).
      destruct (close_counts w Hc) as (C1 & C2 & C3 & C4 & C5).
      unfold Log.accounted. rewrite !count_app, C1, C2, C3, C4, C5.
      rewrite close_open by exact Hc. rewrite state_of_triple. simpl.
      rewrite Hc in A3. rewrite Hexit in A4. rewrite Hdied in A2.
      rewrite Hchild, Hdied. specialize (A5 Hc).
      repeat split; try lia; try discriminate. simpl. lia.
  - apply (accounted_frame w); try exact Hacc; reflexivity.
  - rewrite then_ret, state_of_triple, calls_of_triple. apply accounted_request, Hacc.
  - rewrite then_ret, state_of_triple, calls_of_triple. apply accounted_request, Hacc.
  - rewrite then_ret, state_of_triple, calls_of_triple. apply accounted_request, Hacc.
  - rewrite then_ret, state_of_triple, calls_of_triple. unfold createWebRtcServer.
    destruct (bad_appData _).
    + apply (accounted_frame w); try exact Hacc; reflexivity.
    + apply accounted_request, Hacc.
  - rewrite then_ret, state_of_triple, calls_of_triple. unfold createRouter.
    destruct (bad_appData _);
      [apply (accounted_frame w); try exact Hacc; reflexivity|].
    destruct (generateRouterRtpCapabilities _);
      [apply (accounted_frame w); try exact Hacc; reflexivity|].
    apply accounted_request, Hacc.
  - unfold channel_response, Channel.take.
    destruct (Channel.sents (channel w) !! id) as [k|];
      [|apply (accounted_frame w); try exact Hacc; reflexivity].
    destruct r, k; apply (accounted_frame w); try exact Hacc; reflexivity.
  - unfold channel_notification.
    destruct (Channel.notify subject (channel w)) as [ls ch].
    destruct (on_running_exact event ls (set_channel ch w))
      as [-> | (Hdone & _ & _ & ->)].
    + apply (accounted_frame w); try exact Hacc; reflexivity.
    + simpl in Hdone. destruct Hacc as (A1 & A2 & A3 & A4 & A5 & A6).
      unfold Log.accounted. rewrite state_of_triple, calls_of_triple, !count_app.
      simpl. rewrite Hdone in A1. unfold Log.count at 2 4 5 6 7 8 9. simpl.
      rewrite !Nat.add_0_r. repeat split; try assumption. lia.
  - destruct (closed w) eqn:Hc.
    + rewrite child_emit_exit_shut by (apply shut_closed; assumption).
      apply (accounted_frame w); try exact Hacc; reflexivity.
    + pose proof (running_open w Hinv Hc) as Hrun.
      rewrite child_emit_exit_running, on_exit_unfold by exact Hrun.
      destruct (decide (code = Some 42));
        apply accounted_exit_handler; assumption.
  - destruct (closed w) eqn:Hc.
    + rewrite child_emit_error_shut by (apply shut_closed; assumption).
      apply (accounted_frame w); try exact Hacc; reflexivity.
    + pose proof (running_open w Hinv Hc) as Hrun.
      rewrite child_emit_error_running, on_error_unfold by exact Hrun.
      apply accounted_exit_handler; assumption.
  - apply (accounted_frame w); try exact Hacc; reflexivity.
  - apply (accounted_frame w); try exact Hacc; reflexivity.
Qed.

Lemma accounted_run (actions : list (Action number)) (w : t number)
  (cs : list (Call number)) :
  invariant w -> Log.accounted w cs ->
  Log.accounted (state_of (run actions w)) (cs ++ calls_of (run actions w)).
Proof.
  revert w cs. induction actions as [|a actions IH]; intros w cs Hinv Hacc.
  - unfold run. simpl. rewrite app_nil_r. exact Hacc.
  - rewrite run_cons, state_of_triple, calls_of_triple, app_assoc.
    apply IH; [apply invariant_perform, Hinv|apply accounted_perform; assumption].
Qed.

Lemma accounted_history env (settings : Spawn.WorkerSettings number) child_pid
  (actions : list (Action number)) :
  Log.accounted (state_of (run actions (constructor env settings child_pid).1))
                (calls_of (run actions (constructor env settings child_pid).1)).
Proof.
  apply (accounted_run actions _ []); [apply invariant_new|].
  repeat split; discriminate.
Qed.
End Histories.

(** ** What a Worker that is shut can still do *)

Section Shut.
Context {number : Type} `{JSNumber number} `{Collaborators number}.
Import Worker.

(** On a Worker that is shut an action logs nothing, unless it is the
    'running' notification arriving late, which still raises
    ['@success']. *)
Lemma perform_shut_calls (a : Action number) (w : t number) :
  shut w ->
  calls_of (perform a w) = [] \/ calls_of (perform a w) = [Emit Success].
Proof.
  intros Hshut. pose proof Hshut as (Hclosed & _).
  pose proof (requests_shut w Hshut) as (Hdump & Husage & Hupdate & Hserver & Hrouter).
  destruct a; simpl.
  - rewrite close_closed by exact Hclosed. left; reflexivity.
  - left; reflexivity.
  - rewrite then_ret, Hdump. left; reflexivity.
  - rewrite then_ret, Husage. left; reflexivity.
  - rewrite then_ret, Hupdate. left; reflexivity.
  - destruct (Hserver o uuid) as [e He]. rewrite then_ret, He. left; reflexivity.
  - destruct (Hrouter o uuid) as [e He]. rewrite then_ret, He. left; reflexivity.
  - rewrite channel_response_shut by exact Hshut. left; reflexivity.
  - unfold channel_notification.
    destruct (Channel.notify subject (channel w)) as [ls ch].
    destruct (on_running_exact event ls (set_channel ch w))
      as [-> | (_ & _ & _ & ->)]; [left|right]; reflexivity.
  - rewrite child_emit_exit_shut by exact Hshut. left; reflexivity.
  - rewrite child_emit_error_shut by exact Hshut. left; reflexivity.
  - left; reflexivity.
  - left; reflexivity.
Qed.

Lemma run_shut_calls (actions : list (Action number)) (w : t number) :
  invariant w -> closed w = true ->
  Forall (fun c => c = Emit Success) (calls_of (run actions w)).
Proof.
  revert w. induction actions as [|a actions IH]; intros w Hinv Hclosed.
  - constructor.
  - pose proof (shut_closed w Hinv Hclosed) as Hshut.
    rewrite run_cons, calls_of_triple. apply Forall_app. split.
    + destruct (perform_shut_calls a w Hshut) as [-> | ->]; repeat constructor.
    + apply IH; [apply invariant_perform, Hinv|apply (perform_shut a w Hshut)].
Qed.
End Shut.

(** ** The events of a whole life *)

Section Life.
Context {number : Type} `{JSNumber number} `{Collaborators number}.
Import Worker.

Lemma count_only_success (p : Call number -> bool) (cs : list (Call number)) :
  p (Emit Success) = false ->
  Forall (fun c => c = Emit Success) cs -> Log.count p cs = 0%nat.
Proof.
  intros Hp Hcs. induction Hcs as [|c cs -> _ IH]; [reflexivity|].
  unfold Log.count in *. simpl. rewrite Hp. exact IH.
Qed.

(** X1. The outcome of a spawn is raised once. Over any history of a
    Worker, ['@success'] and ['@failure'] are raised at most once between
    them, and one of them has been raised exactly when [spawnDone] is set;
    after a ['@failure'] the Worker is closed and has not died. *)
Theorem spawn_outcome_raised_once env (settings : Spawn.WorkerSettings number)
  child_pid (actions : list (Action number)) :
  let r := run actions (constructor env settings child_pid).1 in
  (Log.count Log.is_success (calls_of r) +
   Log.count Log.is_failure (calls_of r) <= 1)%nat /\
  ((Log.count Log.is_success (calls_of r) +
    Log.count Log.is_failure (calls_of r) = 1)%nat <->
   spawnDone (state_of r) = true) /\
  (Log.count Log.is_failure (calls_of r) = 1%nat ->
   closed (state_of r) = true /\ died (state_of r) = false).
Proof.
  intros r. destruct (accounted_history env settings child_pid actions)
    as (A1 & A2 & A3 & A4 & A5 & A6). fold r in A1, A2, A3, A4, A5, A6.
  split; [destruct (spawnDone (state_of r)); lia|]. split.
  - destruct (spawnDone (state_of r)); split; intros; try reflexivity;
      try lia; discriminate.
  - intros Hfail. split.
    + destruct (closed (state_of r)); [reflexivity|]. rewrite A5 in Hfail by reflexivity.
      discriminate.
    + destruct (died (state_of r)); [|reflexivity]. rewrite A6 in Hfail by reflexivity.
      discriminate.
Qed.

(** X2. ['died'] is raised at most once over any history, exactly when
    the [died] flag is set, and only on a Worker whose spawn had
    succeeded: then ['@success'] was raised, ['@failure'] never, and the
    Worker is closed. *)
Theorem died_raised_once_after_success env
  (settings : Spawn.WorkerSettings number) child_pid
  (actions : list (Action number)) :
  let r := run actions (constructor env settings child_pid).1 in
  Log.count Log.is_died (calls_of r) = (if died (state_of r) then 1 else 0)%nat /\
  (Log.count Log.is_died (calls_of r) = 1%nat ->
   Log.count Log.is_success (calls_of r) = 1%nat /\
   Log.count Log.is_failure (calls_of r) = 0%nat /\
   closed (state_of r) = true).
Proof.
  intros r. destruct (accounted_history env settings child_pid actions)
    as (A1 & A2 & A3 & A4 & A5 & A6). fold r in A1, A2, A3, A4, A5, A6.
  split; [exact A2|]. intros Hdied.
  assert (Hd : died (state_of r) = true).
  { destruct (died (state_of r)); [reflexivity|]. rewrite A2 in Hdied. discriminate. }
  assert (Hinv : invariant (state_of r)).
  { apply reachable_invariant, reachable_run, reachable_new. }
  destruct Hinv as (_ & _ & [(_ & Hno & _) | Hshut]); [congruence|].
  destruct Hshut as (Hclosed & _ & _ & _ & _ & _ & Hspawn & _).
  rewrite (Hspawn Hd) in A1. specialize (A6 Hd).
  split; [lia|]. split; assumption.
Qed.

(** X3. The observer's ['close'] is raised exactly once by the time the
    Worker is closed, however it came to be closed and whatever happened
    since, and never while it is open. *)
Theorem observer_close_raised_once env (settings : Spawn.WorkerSettings number)
  child_pid (actions : list (Action number)) :
  let r := run actions (constructor env settings child_pid).1 in
  Log.count Log.is_observer_close (calls_of r) =
  (if closed (state_of r) then 1 else 0)%nat.
Proof.
  intros r. apply (accounted_history env settings child_pid actions).
Qed.

(** X4. The child process is sent a signal at most once over any
    history, and only by a [close()] that closes the Worker; and from any
    reachable state, once an ['exit'] or an ['error'] of the child has been
    delivered, no signal is sent any more. *)
Theorem child_signalled_at_most_once env (settings : Spawn.WorkerSettings number)
  child_pid (actions : list (Action number)) :
  let r := run actions (constructor env settings child_pid).1 in
  (Log.count Log.is_kill (calls_of r) <= 1)%nat /\
  (Log.count Log.is_kill (calls_of r) = 1%nat -> closed (state_of r) = true) /\
  (forall code signal later,
     Log.count Log.is_kill
       (calls_of (run (ChildExit code signal :: later) (state_of r))) = 0%nat) /\
  (forall error later,
     Log.count Log.is_kill
       (calls_of (run (ChildError error :: later) (state_of r))) = 0%nat).
Proof.
  intros r. destruct (accounted_history env settings child_pid actions)
    as (A1 & A2 & A3 & A4 & A5 & A6). fold r in A1, A2, A3, A4, A5, A6.
  assert (Hinv : invariant (state_of r)).
  { apply reachable_invariant, reachable_run, reachable_new. }
  set (w := state_of r) in *.
  assert (Hevent : forall a,
            (forall (wr : t number), running wr ->
               Log.count Log.is_kill (calls_of (perform a wr)) = 0%nat /\
               closed (state_of (perform a wr)) = true) ->
            (forall (ws : t number), shut ws -> calls_of (perform a ws) = []) ->
            forall later,
              Log.count Log.is_kill (calls_of (run (a :: later) w)) = 0%nat).
  { intros a Hrunning Hshut later. rewrite run_cons, calls_of_triple, count_app.
    assert (Hlater : closed (state_of (perform a w)) = true ->
              Log.count Log.is_kill
                (calls_of (run later (state_of (perform a w)))) = 0%nat).
    { intros Hc'. apply count_only_success; [reflexivity|].
      apply run_shut_calls; [apply invariant_perform, Hinv|exact Hc']. }
    destruct (closed w) eqn:Hc.
    - pose proof (shut_closed w Hinv Hc) as Hs.
      rewrite Hlater by apply (perform_shut a w Hs).
      rewrite (Hshut w Hs). reflexivity.
    - destruct (Hrunning w (running_open w Hinv Hc)) as [-> Hc'].
      rewrite Hlater by exact Hc'. reflexivity. }
  split; [rewrite A4; destruct (exit_listeners (process w)); lia|]. split.
  - intros Hkill. destruct Hinv as (_ & _ & [(_ & _ & _ & _ & Hexit & _) | Hshut]);
      [|apply Hshut]. rewrite A4, Hexit in Hkill. discriminate.
  - split.
    + intros code signal. apply Hevent.
      * intros wr Hrun. simpl. rewrite child_emit_exit_running, on_exit_unfold by exact Hrun.
        pose proof Hrun as (Hc & _). destruct (spawnDone wr).
        -- split; [apply (workerDied_counts _ (set_child false wr) Hc)|].
           apply closed_after_workerDied.
        -- rewrite state_of_triple, calls_of_triple, count_app.
           destruct (close_counts (set_spawnDone true (set_child false wr)) Hc)
             as (_ & _ & _ & _ & ->).
           split; [reflexivity|apply closed_after_close].
      * intros ws Hs. simpl. rewrite child_emit_exit_shut by exact Hs. reflexivity.
    + intros error. apply Hevent.
      * intros wr Hrun. simpl. rewrite child_emit_error_running, on_error_unfold by exact Hrun.
        pose proof Hrun as (Hc & _). destruct (spawnDone wr).
        -- split; [apply (workerDied_counts _ (set_child false wr) Hc)|].
           apply closed_after_workerDied.
        -- rewrite state_of_triple, calls_of_triple, count_app.
           destruct (close_counts (set_spawnDone true (set_child false wr)) Hc)
             as (_ & _ & _ & _ & ->).
           split; [reflexivity|apply closed_after_close].
      * intros ws Hs. simpl. rewrite child_emit_error_shut by exact Hs. reflexivity.
Qed.
End Life.

(** ** The other paths of the two handlers *)

Section Handlers.
Context {number : Type} `{JSNumber number} `{Collaborators number}.
Import Worker.

Lemma undecided_not_died (w : t number) :
  invariant w -> spawnDone w = false -> died w = false.
Proof.
  intros (_ & _ & [(_ & Hd & _) | Hshut]) Hdone; [exact Hd|].
  destruct Hshut as (_ & _ & _ & _ & _ & _ & Hspawn & _).
  destruct (died w); [|reflexivity]. rewrite Hspawn in Hdone by reflexivity.
  discriminate.
Qed.

(** X5. When the ['error'] handler runs before the 'running'
    notification ([spawnDone] is false), it raises ['@failure'] with the
    very error it was given, as the only event on the Worker; it sends no
    signal to the child, and the Worker ends closed and not died. On a
    Worker that is not closed the ['error'] event of the child runs exactly
    this handler. *)
Theorem error_before_running_is_a_failure (w : t number) (error : JS.Error) :
  reachable w ->
  spawnDone w = false ->
  (exists cs,
     calls_of (on_error error w) = cs ++ [Emit (Failure error)] /\
     Forall (fun c => is_emit c = false) cs /\
     Log.count Log.is_kill cs = 0%nat) /\
  closed (state_of (on_error error w)) = true /\
  died (state_of (on_error error w)) = false /\
  spawnDone (state_of (on_error error w)) = true /\
  (closed w = false -> child_emit_error error w = on_error error w).
Proof.
  intros Hreach Hdone. pose proof (reachable_invariant w Hreach) as Hinv.
  pose proof (undecided_not_died w Hinv Hdone) as Hdied.
  rewrite on_error_unfold, Hdone. rewrite state_of_triple, calls_of_triple.
  split; [|split; [|split; [|split]]].
  - eexists. split; [reflexivity|]. split; [apply close_raises_nothing|].
    destruct (closed w) eqn:Hc.
    + rewrite close_closed by exact Hc. reflexivity.
    + apply (close_counts (set_spawnDone true (set_child false w)) Hc).
  - apply closed_after_close.
  - rewrite died_after_close. exact Hdied.
  - destruct (closed w) eqn:Hc.
    + rewrite close_closed by exact Hc. reflexivity.
    + rewrite close_open by exact Hc. reflexivity.
  - intros Hc. rewrite child_emit_error_running by (apply running_open; assumption).
    rewrite on_error_unfold, Hdone. reflexivity.
Qed.

(** X6. On a Worker that is open and whose spawn has succeeded, an
    ['exit'] or an ['error'] of the child is a death: the channel is
    closed, then the cascade runs, then ['died'] is raised, with an [Error]
    whose message holds the pid, the code and the signal for an exit and
    with the error itself for an error, and last the observer's ['close'].
    No ['@failure'] is raised and no signal is sent, and the Worker ends
    closed and died. *)
Theorem exit_or_error_after_running_is_a_death (w : t number) :
  reachable w ->
  closed w = false ->
  spawnDone w = true ->
  (forall code signal,
     calls_of (child_emit_exit code signal w) =
       ChannelClose ::
       ((fun p => RequestFailed p.1 (JS.InvalidStateError "Channel closed")) <$>
          map_to_list (Channel.sents (channel w))) ++
       (RouterWorkerClosed <$> routers w) ++
       (WebRtcServerWorkerClosed <$> webRtcServers w) ++
       [SafeEmit (Died (JS.PlainError
          ("[pid:" +:+ pid_string (pid w) +:+ ", code:" +:+ code_string code +:+
           ", signal:" +:+ signal_string signal +:+ "]")));
        ObserverSafeEmit OClose] /\
     closed (state_of (child_emit_exit code signal w)) = true /\
     died (state_of (child_emit_exit code signal w)) = true) /\
  (forall error,
     calls_of (child_emit_error error w) =
       ChannelClose ::
       ((fun p => RequestFailed p.1 (JS.InvalidStateError "Channel closed")) <$>
          map_to_list (Channel.sents (channel w))) ++
       (RouterWorkerClosed <$> routers w) ++
       (WebRtcServerWorkerClosed <$> webRtcServers w) ++
       [SafeEmit (Died error); ObserverSafeEmit OClose] /\
     closed (state_of (child_emit_error error w)) = true /\
     died (state_of (child_emit_error error w)) = true).
Proof.
  intros Hreach Hc Hdone. pose proof (reachable_invariant w Hreach) as Hinv.
  pose proof (running_open w Hinv Hc) as Hrun.
  pose proof Hrun as (_ & _ & _ & Hchannel & _).
  split.
  - intros code signal.
    rewrite child_emit_exit_running, on_exit_unfold, Hdone by exact Hrun.
    rewrite workerDied_open by exact Hc. rewrite state_of_triple, calls_of_triple.
    unfold Channel.close. simpl. rewrite Hchannel. repeat split.
  - intros error.
    rewrite child_emit_error_running, on_error_unfold, Hdone by exact Hrun.
    rewrite workerDied_open by exact Hc. rewrite state_of_triple, calls_of_triple.
    unfold Channel.close. simpl. rewrite Hchannel. repeat split.
Qed.
End Handlers.

(** ** What no action touches *)

Section Frames.
Context {number : Type} `{JSNumber number} `{Collaborators number}.
Import Worker.

(** No action changes the pid; and once no listener is left on the
    channel, none comes back and ['@success'] is not raised. *)
Lemma perform_keeps (a : Action number) (w : t number) :
  invariant w ->
  pid (state_of (perform a w)) = pid w /\
  (Channel.listeners (channel w) = [] ->
   Channel.listeners (channel (state_of (perform a w))) = [] /\
   Log.count Log.is_success (calls_of (perform a w)) = 0%nat).
Proof.
  intros Hinv.
  assert (Hrequest : forall method body k,
            pid (state_of (channel_request method body k w)) = pid w /\
            (Channel.listeners (channel w) = [] ->
             Channel.listeners (channel (state_of (channel_request method body k w))) = [] /\
             Log.count Log.is_success (calls_of (channel_request method body k w)) = 0%nat)).
  { intros method body k. destruct (Channel.closed (channel w)) eqn:Hc.
    - rewrite channel_request_closed by exact Hc. repeat split; assumption.
    - rewrite channel_request_open by exact Hc. repeat split; assumption. }
  assert (Hhandler : forall e1 e2, closed w = false ->
            let r := if spawnDone w then workerDied e1 (set_child false w)
                     else (tt, state_of (close (set_spawnDone true (set_child false w))),
                           calls_of (close (set_spawnDone true (set_child false w))) ++
                           [Emit (Failure e2)]) in
            pid (state_of r) = pid w /\
            (Channel.listeners (channel w) = [] ->
             Channel.listeners (channel (state_of r)) = [] /\
             Log.count Log.is_success (calls_of r) = 0%nat)).
  { intros e1 e2 Hc. pose proof (running_open w Hinv Hc) as (_ & _ & _ & Hchannel & _).
    destruct (spawnDone w).
    - cbv zeta. split; [rewrite workerDied_open by exact Hc; reflexivity|].
      intros Hl. split; [|apply (workerDied_counts _ (set_child false w) Hc)].
      rewrite workerDied_open by exact Hc. rewrite state_of_triple.
      unfold Channel.close. simpl. rewrite Hchannel. exact Hl.
    - cbv zeta. rewrite state_of_triple, calls_of_triple.
      split; [rewrite close_open by exact Hc; reflexivity|].
      intros Hl. split.
      + rewrite close_open by exact Hc. rewrite state_of_triple.
        unfold Channel.close. simpl. rewrite Hchannel. exact Hl.
      + rewrite count_app.
        destruct (close_counts (set_spawnDone true (set_child false w)) Hc) as (-> & _).
        reflexivity. }
  destruct a; simpl.
  - destruct (closed w) eqn:Hc.
    + rewrite close_closed by exact Hc. repeat split; assumption.
    + pose proof (running_open w Hinv Hc) as (_ & _ & _ & Hchannel & _).
      split; [rewrite close_open by exact Hc; reflexivity|].
      intros Hl. split; [|apply (close_counts w Hc)].
      rewrite close_open by exact Hc. rewrite state_of_triple.
      unfold Channel.close. simpl. rewrite Hchannel. exact Hl.
  - repeat split; assumption.
  - rewrite then_ret, state_of_triple, calls_of_triple. apply Hrequest.
  - rewrite then_ret, state_of_triple, calls_of_triple. apply Hrequest.
  - rewrite then_ret, state_of_triple, calls_of_triple. apply Hrequest.
  - rewrite then_ret, state_of_triple, calls_of_triple. unfold createWebRtcServer.
    destruct (bad_appData _); [repeat split; assumption|]. apply Hrequest.
  - rewrite then_ret, state_of_triple, calls_of_triple. unfold createRouter.
    destruct (bad_appData _); [repeat split; assumption|].
    destruct (generateRouterRtpCapabilities _); [repeat split; assumption|].
    apply Hrequest.
  - unfold channel_response, Channel.take.
    destruct (Channel.sents (channel w) !! id) as [k|]; [|repeat split; assumption].
    destruct r, k; repeat split; assumption.
  - unfold channel_notification, Channel.notify.
    match goal with
    | |- context [for_each ?ls _ ?w1] =>
        destruct (on_running_exact event ls w1) as [-> | (_ & _ & Hls & ->)]
    end.
    + split; [reflexivity|]. intros Hl. simpl. rewrite Hl. split; reflexivity.
    + split; [reflexivity|]. intros Hl. rewrite Hl in Hls. contradiction.
  - destruct (closed w) eqn:Hc.
    + rewrite child_emit_exit_shut by (apply shut_closed; assumption).
      repeat split; assumption.
    + rewrite child_emit_exit_running, on_exit_unfold by (apply running_open; assumption).
      apply Hhandler; reflexivity.
  - destruct (closed w) eqn:Hc.
    + rewrite child_emit_error_shut by (apply shut_closed; assumption).
      repeat split; assumption.
    + rewrite child_emit_error_running, on_error_unfold by (apply running_open; assumption).
      apply (Hhandler error error); reflexivity.
  - repeat split; assumption.
  - repeat split; assumption.
Qed.

Lemma run_keeps (actions : list (Action number)) (w : t number) :
  invariant w ->
  pid (state_of (run actions w)) = pid w /\
  (Channel.listeners (channel w) = [] ->
   Log.count Log.is_success (calls_of (run actions w)) = 0%nat).
Proof.
  revert w. induction actions as [|a actions IH]; intros w Hinv.
  - split; [reflexivity|]. intros _. reflexivity.
  - rewrite run_cons, state_of_triple, calls_of_triple.
    destruct (perform_keeps a w Hinv) as [Hpid Hlisten].
    destruct (IH _ (invariant_perform a w Hinv)) as [IHpid IHlisten].
    split; [congruence|]. intros Hl. destruct (Hlisten Hl) as [Hl' Hs].
    rewrite count_app, Hs, (IHlisten Hl'). reflexivity.
Qed.

(** X7. The pid is fixed at construction: after any history the getter
    returns the pid that [spawn] gave, be the Worker closed or died. *)
Theorem pid_never_changes env (settings : Spawn.WorkerSettings number)
  child_pid (actions : list (Action number)) :
  get_pid (state_of (run actions (constructor env settings child_pid).1)) =
  child_pid.
Proof.
  unfold get_pid.
  rewrite (proj1 (run_keeps actions _ (invariant_new env settings child_pid))).
  reflexivity.
Qed.

Lemma notify_same (subject : string) (l : ChannelListener) :
  filter (fun p : string * ChannelListener => p.1 = subject) [(subject, l)] =
    [(subject, l)] /\
  filter (fun p : string * ChannelListener => p.1 <> subject) [(subject, l)] = [].
Proof.
  split.
  - rewrite filter_cons_True by reflexivity. reflexivity.
  - rewrite filter_cons_False by (intros Hne; apply Hne; reflexivity). reflexivity.
Qed.

Lemma notify_other (subject other : string) (l : ChannelListener) :
  other <> subject ->
  filter (fun p : string * ChannelListener => p.1 = other) [(subject, l)] = [] /\
  filter (fun p : string * ChannelListener => p.1 <> other) [(subject, l)] =
    [(subject, l)].
Proof.
  intros Hne. split.
  - rewrite filter_cons_False by (intros Heq; apply Hne; symmetry; exact Heq).
    reflexivity.
  - rewrite filter_cons_True by (intros Heq; apply Hne; symmetry; exact Heq).
    reflexivity.
Qed.

(** X8. The readiness handshake. On a new Worker the notification
    [WORKER_RUNNING] on the subject of its pid raises ['@success'] and
    nothing else, and leaves the Worker open and not died. The listener is
    a one-time listener: when the first notification on that subject
    carries another event, it is used up without an outcome, and no
    notification ever raises ['@success'] afterwards. A notification on
    another subject is not looked at. *)
Theorem running_notification_decides_once env
  (settings : Spawn.WorkerSettings number) child_pid :
  let w := (constructor env settings child_pid).1 in
  (calls_of (channel_notification (pid_string child_pid) Channel.WORKER_RUNNING w) =
     [Emit Success] /\
   spawnDone (state_of (channel_notification (pid_string child_pid)
                          Channel.WORKER_RUNNING w)) = true /\
   closed (state_of (channel_notification (pid_string child_pid)
                       Channel.WORKER_RUNNING w)) = false /\
   died (state_of (channel_notification (pid_string child_pid)
                     Channel.WORKER_RUNNING w)) = false) /\
  (forall code later,
     Log.count Log.is_success
       (calls_of (run (GotNotification (pid_string child_pid)
                         (Channel.OTHER_EVENT code) :: later) w)) = 0%nat) /\
  (forall subject event,
     subject <> pid_string child_pid ->
     calls_of (channel_notification subject event w) = [] /\
     state_of (channel_notification subject event w) = w).
Proof.
  intros w.
  destruct (notify_same (pid_string child_pid) OnRunning) as [Hsame Hgone].
  split; [|split].
  - unfold channel_notification, Channel.notify, w. simpl.
    rewrite Hsame, Hgone. repeat split.
  - intros code later. rewrite run_cons, calls_of_triple, count_app.
    assert (Hfirst : perform (GotNotification (pid_string child_pid)
                                (Channel.OTHER_EVENT code)) w =
                     (tt, set_channel Channel.create w, [])).
    { unfold w. simpl. unfold channel_notification, Channel.notify. simpl.
      rewrite Hsame, Hgone. reflexivity. }
    rewrite Hfirst, state_of_triple, calls_of_triple.
    assert (Hinv : invariant (set_channel Channel.create w)).
    { pose proof (invariant_perform (GotNotification (pid_string child_pid)
                    (Channel.OTHER_EVENT code)) w (invariant_new env settings child_pid))
        as Hi. fold w in Hi. rewrite Hfirst in Hi. exact Hi. }
    rewrite (proj2 (run_keeps later _ Hinv)) by reflexivity. reflexivity.
  - intros subject event Hne.
    destruct (notify_other (pid_string child_pid) subject OnRunning Hne) as [Hnone Hkept].
    unfold channel_notification, Channel.notify, w. simpl.
    rewrite Hnone, Hkept. split; reflexivity.
Qed.
End Frames.

(** ** Resources come and go *)

Section Resources.
Context {number : Type} `{JSNumber number} `{Collaborators number}.
Import Worker.

Lemma elem_of_set_add (x y : ObjRef) (s : list ObjRef) :
  x ∈ set_add y s <-> x = y \/ x ∈ s.
Proof.
  unfold set_add. destruct (decide (y ∈ s)) as [Hin|Hout].
  - split; [right; assumption|]. intros [->|Hx]; assumption.
  - rewrite elem_of_app, list_elem_of_singleton. tauto.
Qed.

Lemma elem_of_set_delete (x y : ObjRef) (s : list ObjRef) :
  x ∈ set_delete y s <-> x <> y /\ x ∈ s.
Proof. unfold set_delete. exact (list_elem_of_filter (fun z => z <> y) s x). Qed.

(** X9. A resource that closed by itself is not closed again by its
    owner. After the ['@close'] of a router, [close()] calls
    [workerClosed()] on that router not at all, and once on every other
    router and on every WebRtcServer still in the sets; and likewise with
    the roles exchanged. *)
Theorem self_closed_resource_is_not_cascaded (w : t number) (x : ObjRef) :
  reachable w ->
  (let w1 := state_of (perform (RouterClosed x) w) in
   router_closings x (calls_of (close w1)) = 0%nat /\
   (forall r, r <> x ->
      router_closings r (calls_of (close w1)) =
      if decide (r ∈ routers w) then 1%nat else 0%nat) /\
   (forall s, webRtcServer_closings s (calls_of (close w1)) =
              if decide (s ∈ webRtcServers w) then 1%nat else 0%nat)) /\
  (let w1 := state_of (perform (WebRtcServerClosed x) w) in
   webRtcServer_closings x (calls_of (close w1)) = 0%nat /\
   (forall s, s <> x ->
      webRtcServer_closings s (calls_of (close w1)) =
      if decide (s ∈ webRtcServers w) then 1%nat else 0%nat) /\
   (forall r, router_closings r (calls_of (close w1)) =
              if decide (r ∈ routers w) then 1%nat else 0%nat)).
Proof.
  intros Hreach. split; intros w1.
  - assert (Hr1 : reachable w1) by apply (reachable_step w (RouterClosed x) Hreach).
    pose proof (invariant_tidy w1 (reachable_invariant w1 Hr1)) as (Hrs & Hss & Hempty).
    destruct (cascaded_close w1 Hrs Hss Hempty) as (Hr & Hs & _).
    split; [|split].
    + rewrite Hr. destruct (decide (x ∈ routers w1)) as [Hin|]; [|reflexivity].
      apply elem_of_set_delete in Hin as [Hne _]. contradiction.
    + intros r Hne. rewrite Hr.
      destruct (decide (r ∈ routers w1)) as [Hin|Hout];
        destruct (decide (r ∈ routers w)) as [Hin'|Hout']; try reflexivity.
      * apply elem_of_set_delete in Hin as [_ Hin]. contradiction.
      * exfalso. apply Hout, elem_of_set_delete. split; assumption.
    + intros s. rewrite Hs. reflexivity.
  - assert (Hr1 : reachable w1) by apply (reachable_step w (WebRtcServerClosed x) Hreach).
    pose proof (invariant_tidy w1 (reachable_invariant w1 Hr1)) as (Hrs & Hss & Hempty).
    destruct (cascaded_close w1 Hrs Hss Hempty) as (Hr & Hs & _).
    split; [|split].
    + rewrite Hs. destruct (decide (x ∈ webRtcServers w1)) as [Hin|]; [|reflexivity].
      apply elem_of_set_delete in Hin as [Hne _]. contradiction.
    + intros s Hne. rewrite Hs.
      destruct (decide (s ∈ webRtcServers w1)) as [Hin|Hout];
        destruct (decide (s ∈ webRtcServers w)) as [Hin'|Hout']; try reflexivity.
      * apply elem_of_set_delete in Hin as [_ Hin]. contradiction.
      * exfalso. apply Hout, elem_of_set_delete. split; assumption.
    + intros r. rewrite Hr. reflexivity.
Qed.

(** A response on the channel, by what is pending under its
    identifier. *)
Lemma response_unknown id r (w : t number) :
  Channel.sents (channel w) !! id = None ->
  channel_response id r w = (tt, w, []).
Proof.
  intros Hnone. unfold channel_response, Channel.take. rewrite Hnone. reflexivity.
Qed.

Lemma response_refused id e k (w : t number) :
  Channel.sents (channel w) !! id = Some k ->
  channel_response id (Refused e) w =
  (tt, set_channel (Channel.take id (channel w)).2 w, []).
Proof.
  intros Hk. unfold channel_response, Channel.take. rewrite Hk. reflexivity.
Qed.

Lemma response_accepts_router id uuid caps ad (w : t number) :
  Channel.sents (channel w) !! id = Some (AwaitCreateRouter uuid caps ad) ->
  channel_response id Accepted w =
  (tt,
   set_routers (set_add (next_object w) (routers w))
     (set_next_object (S (next_object w))
        (set_channel (Channel.take id (channel w)).2 w)),
   [ObserverSafeEmit (NewRouter (next_object w))]).
Proof.
  intros Hk. unfold channel_response, Channel.take. rewrite Hk. reflexivity.
Qed.

Lemma response_accepts_webRtcServer id uuid ad (w : t number) :
  Channel.sents (channel w) !! id = Some (AwaitCreateWebRtcServer uuid ad) ->
  channel_response id Accepted w =
  (tt,
   set_webRtcServers (set_add (next_object w) (webRtcServers w))
     (set_next_object (S (next_object w))
        (set_channel (Channel.take id (channel w)).2 w)),
   [ObserverSafeEmit (NewWebRtcServer (next_object w))]).
Proof.
  intros Hk. unfold channel_response, Channel.take. rewrite Hk. reflexivity.
Qed.

Lemma take_twice {K L : Type} id (ch : Channel.t K L) :
  Channel.sents (Channel.take id ch).2 !! id = None.
Proof.
  unfold Channel.take. destruct (Channel.sents ch !! id) eqn:E; simpl.
  - apply lookup_delete_eq.
  - exact E.
Qed.

Lemma run_nil (w : t number) : run [] w = (tt, w, []).
Proof. reflexivity. Qed.

(** X10. A router is registered exactly when its creation is accepted
    while the Worker is open. On an open Worker, with an [appData] that
    passes and router capabilities that generate, [createRouter] sends one
    request carrying the generated id. If the response accepts it, the new
    router joins the set, the other routers and the WebRtcServers stay,
    and the observer is told ['newrouter'] of it once; a second response
    with the same identifier does nothing. If the response refuses it, or
    if the Worker is closed before the response, nothing is registered and
    the observer is told nothing. *)
Theorem router_registered_when_accepted (w : t number) (o : RouterOptions number)
  (uuid : string) (rtpCapabilities : JS.Value number) :
  reachable w ->
  closed w = false ->
  bad_appData (router_appData o) = false ->
  generateRouterRtpCapabilities (mediaCodecs o) = inr rtpCapabilities ->
  let id := Channel.nextId (channel w) + 1 in
  let new := next_object w in
  calls_of (perform (DoCreateRouter o uuid) w) =
    [ChannelSend id Channel.WORKER_CREATE_ROUTER (CreateRouterRequest uuid)] /\
  (let r := run [DoCreateRouter o uuid; GotResponse id Accepted] w in
   (forall x, x ∈ routers (state_of r) <-> x = new \/ x ∈ routers w) /\
   webRtcServers (state_of r) = webRtcServers w /\
   Log.count (Log.announces_router new) (calls_of r) = 1%nat /\
   run [DoCreateRouter o uuid; GotResponse id Accepted; GotResponse id Accepted] w = r) /\
  (forall e,
     let r := run [DoCreateRouter o uuid; GotResponse id (Refused e)] w in
     routers (state_of r) = routers w /\
     webRtcServers (state_of r) = webRtcServers w /\
     Log.count (Log.announces_router new) (calls_of r) = 0%nat) /\
  (let r := run [DoCreateRouter o uuid; DoClose; GotResponse id Accepted] w in
   routers (state_of r) = [] /\
   Log.count (Log.announces_router new) (calls_of r) = 0%nat).
Proof.
  intros Hreach Hc Hgood Hcaps id new.
  pose proof (reachable_invariant w Hreach) as Hinv.
  pose proof (running_open w Hinv Hc) as (_ & _ & _ & Hchannel & _).
  set (w1 := set_channel
               {| Channel.closed := false; Channel.nextId := id;
                  Channel.sents :=
                    <[id := AwaitCreateRouter uuid rtpCapabilities (router_appData o)]>
                      (Channel.sents (channel w));
                  Channel.listeners := Channel.listeners (channel w) |} w).
  assert (Hcreate : perform (DoCreateRouter o uuid) w =
            (tt, w1,
             [ChannelSend id Channel.WORKER_CREATE_ROUTER (CreateRouterRequest uuid)])).
  { simpl. rewrite then_ret. unfold createRouter. rewrite Hgood, Hcaps.
    rewrite channel_request_open by exact Hchannel. reflexivity. }
  assert (Hpending : Channel.sents (channel w1) !! id =
                     Some (AwaitCreateRouter uuid rtpCapabilities (router_appData o))).
  { apply lookup_insert_eq. }
  split; [rewrite Hcreate; reflexivity|].
  split; [|split].
  - cbv zeta. rewrite !run_cons, run_nil, Hcreate, !state_of_triple, !calls_of_triple.
    simpl perform. rewrite (response_accepts_router _ _ _ _ _ Hpending).
    rewrite !state_of_triple, !calls_of_triple.
    rewrite response_unknown by apply take_twice.
    rewrite !state_of_triple, !calls_of_triple, !app_nil_r.
    split; [intros x; apply elem_of_set_add|]. split; [reflexivity|].
    split; [|reflexivity].
    unfold Log.count. simpl. rewrite bool_decide_eq_true_2 by reflexivity. reflexivity.
  - intros e. cbv zeta.
    rewrite !run_cons, run_nil, Hcreate, !state_of_triple, !calls_of_triple.
    simpl perform. rewrite (response_refused _ e _ _ Hpending).
    rewrite !state_of_triple, !calls_of_triple. repeat split.
  - cbv zeta. rewrite !run_cons, run_nil, Hcreate, !state_of_triple, !calls_of_triple.
    simpl perform.
    assert (Hs : shut (state_of (close w1))).
    { apply shut_closed; [|apply closed_after_close].
      pose proof (invariant_perform DoClose _
                    (invariant_perform (DoCreateRouter o uuid) w Hinv)) as Hi.
      rewrite Hcreate in Hi. exact Hi. }
    rewrite (channel_response_shut id Accepted _ Hs).
    rewrite !state_of_triple, !calls_of_triple, !app_nil_r.
    pose proof Hs as (_ & _ & _ & _ & Hrs & _). split; [exact Hrs|].
    change (?c :: calls_of (close w1)) with ([c] ++ calls_of (close w1)).
    rewrite count_app, (count_close_calls (Log.announces_router new) w1)
      by (exact Hc || reflexivity).
    destruct (child w1); reflexivity.
Qed.

(** X11. The same for a WebRtcServer: it is registered exactly when its
    creation is accepted while the Worker is open. The request carries the
    generated id and one listen info for each one given, in order. *)
Theorem webRtcServer_registered_when_accepted (w : t number)
  (o : WebRtcServerOptions number) (uuid : string) :
  reachable w ->
  closed w = false ->
  bad_appData (webRtcServer_appData o) = false ->
  let id := Channel.nextId (channel w) + 1 in
  let new := next_object w in
  (calls_of (perform (DoCreateWebRtcServer o uuid) w) =
     [ChannelSend id Channel.WORKER_CREATE_WEBRTCSERVER
        (CreateWebRtcServerRequest uuid (to_fbs <$> listenInfos o))] /\
   length (to_fbs <$> listenInfos o) = length (listenInfos o)) /\
  (let r := run [DoCreateWebRtcServer o uuid; GotResponse id Accepted] w in
   (forall x, x ∈ webRtcServers (state_of r) <-> x = new \/ x ∈ webRtcServers w) /\
   routers (state_of r) = routers w /\
   Log.count (Log.announces_webRtcServer new) (calls_of r) = 1%nat /\
   run [DoCreateWebRtcServer o uuid; GotResponse id Accepted;
        GotResponse id Accepted] w = r) /\
  (forall e,
     let r := run [DoCreateWebRtcServer o uuid; GotResponse id (Refused e)] w in
     routers (state_of r) = routers w /\
     webRtcServers (state_of r) = webRtcServers w /\
     Log.count (Log.announces_webRtcServer new) (calls_of r) = 0%nat) /\
  (let r := run [DoCreateWebRtcServer o uuid; DoClose; GotResponse id Accepted] w in
   webRtcServers (state_of r) = [] /\
   Log.count (Log.announces_webRtcServer new) (calls_of r) = 0%nat).
Proof.
  intros Hreach Hc Hgood id new.
  pose proof (reachable_invariant w Hreach) as Hinv.
  pose proof (running_open w Hinv Hc) as (_ & _ & _ & Hchannel & _).
  set (w1 := set_channel
               {| Channel.closed := false; Channel.nextId := id;
                  Channel.sents :=
                    <[id := AwaitCreateWebRtcServer uuid (webRtcServer_appData o)]>
                      (Channel.sents (channel w));
                  Channel.listeners := Channel.listeners (channel w) |} w).
  assert (Hcreate : perform (DoCreateWebRtcServer o uuid) w =
            (tt, w1,
             [ChannelSend id Channel.WORKER_CREATE_WEBRTCSERVER
                (CreateWebRtcServerRequest uuid (to_fbs <$> listenInfos o))])).
  { simpl. rewrite then_ret. unfold createWebRtcServer. rewrite Hgood.
    rewrite channel_request_open by exact Hchannel. reflexivity. }
  assert (Hpending : Channel.sents (channel w1) !! id =
                     Some (AwaitCreateWebRtcServer uuid (webRtcServer_appData o))).
  { apply lookup_insert_eq. }
  split; [split; [rewrite Hcreate; reflexivity|apply length_fmap]|].
  split; [|split].
  - cbv zeta. rewrite !run_cons, run_nil, Hcreate, !state_of_triple, !calls_of_triple.
    simpl perform. rewrite (response_accepts_webRtcServer _ _ _ _ Hpending).
    rewrite !state_of_triple, !calls_of_triple.
    rewrite response_unknown by apply take_twice.
    rewrite !state_of_triple, !calls_of_triple, !app_nil_r.
    split; [intros x; apply elem_of_set_add|]. split; [reflexivity|].
    split; [|reflexivity].
    unfold Log.count. simpl. rewrite bool_decide_eq_true_2 by reflexivity. reflexivity.
  - intros e. cbv zeta.
    rewrite !run_cons, run_nil, Hcreate, !state_of_triple, !calls_of_triple.
    simpl perform. rewrite (response_refused _ e _ _ Hpending).
    rewrite !state_of_triple, !calls_of_triple. repeat split.
  - cbv zeta. rewrite !run_cons, run_nil, Hcreate, !state_of_triple, !calls_of_triple.
    simpl perform.
    assert (Hs : shut (state_of (close w1))).
    { apply shut_closed; [|apply closed_after_close].
      pose proof (invariant_perform DoClose _
                    (invariant_perform (DoCreateWebRtcServer o uuid) w Hinv)) as Hi.
      rewrite Hcreate in Hi. exact Hi. }
    rewrite (channel_response_shut id Accepted _ Hs).
    rewrite !state_of_triple, !calls_of_triple, !app_nil_r.
    pose proof Hs as (_ & _ & _ & _ & _ & Hss & _). split; [exact Hss|].
    change (?c :: calls_of (close w1)) with ([c] ++ calls_of (close w1)).
    rewrite count_app, (count_close_calls (Log.announces_webRtcServer new) w1)
      by (exact Hc || reflexivity).
    destruct (child w1); reflexivity.
Qed.
End Resources.

(** ** Requests, and what every reachable state has *)

Section RequestsAndStates.
Context {number : Type} `{JSNumber number} `{Collaborators number}.
Import Worker.

Lemma channel_request_all_or_nothing method body k (w : t number) :
  Requests.all_or_nothing w (channel_request method body k w).
Proof.
  destruct (Channel.closed (channel w)) eqn:Hc.
  - rewrite channel_request_closed by exact Hc. split; reflexivity.
  - rewrite channel_request_open by exact Hc. simpl.
    split; [eexists _, _; reflexivity|]. split; [exact Hc|].
    split; [|reflexivity]. rewrite lookup_insert_eq. eexists; reflexivity.
Qed.

(** X12. A request method does all or nothing, in every state: either it
    throws, and then the Worker is exactly as before and no call was made;
    or it sent exactly one message, on an open channel, and awaits the
    response under the identifier of that message, having changed nothing
    of the Worker but its channel. For [createRouter] a failure of the
    capability generation is thrown as it is, before anything is sent. *)
Theorem request_methods_do_all_or_nothing (w : t number)
  (m : M (JS.Error + Z)) :
  Requests.method m ->
  Requests.all_or_nothing w (m w) /\
  (forall o uuid thrown,
     bad_appData (router_appData o) = false ->
     generateRouterRtpCapabilities (mediaCodecs o) = inl thrown ->
     createRouter o uuid w = (inl thrown, w, [])).
Proof.
  intros Hm. split.
  - destruct Hm as [-> | [-> | [[s ->] | [(o & uuid & ->) | (o & uuid & ->)]]]].
    + apply channel_request_all_or_nothing.
    + apply channel_request_all_or_nothing.
    + apply channel_request_all_or_nothing.
    + unfold createWebRtcServer. destruct (bad_appData _); [split; reflexivity|].
      apply channel_request_all_or_nothing.
    + unfold createRouter. destruct (bad_appData _); [split; reflexivity|].
      destruct (generateRouterRtpCapabilities _); [split; reflexivity|].
      apply channel_request_all_or_nothing.
  - intros o uuid thrown Hgood Hthrown. unfold createRouter.
    rewrite Hgood, Hthrown. reflexivity.
Qed.

(** X13. After a death, as after [close()], every request method fails
    at once: it returns an error, leaves the Worker as it is and makes no
    call. *)
Theorem requests_after_death_fail (w : t number) :
  reachable w ->
  died w = true ->
  dump w = (inl (JS.InvalidStateError "Channel closed"), w, []) /\
  getResourceUsage w = (inl (JS.InvalidStateError "Channel closed"), w, []) /\
  (forall s, updateSettings s w =
             (inl (JS.InvalidStateError "Channel closed"), w, [])) /\
  (forall o uuid, exists e, createWebRtcServer o uuid w = (inl e, w, [])) /\
  (forall o uuid, exists e, createRouter o uuid w = (inl e, w, [])).
Proof.
  intros Hreach Hdied. pose proof (reachable_invariant w Hreach) as Hinv.
  apply requests_shut.
  pose proof Hinv as (_ & _ & [(_ & Hno & _) | Hshut]); [congruence|exact Hshut].
Qed.

(** X14. What a Worker holds. In every reachable state the Worker holds
    its child process exactly while it is not closed. While it is open its
    channel is open and it has not died; once it is closed its channel is
    closed with no request pending and both sets are empty, so a router or
    a WebRtcServer in a set has an owner that is open. No set ever holds a
    resource twice. *)
Theorem worker_holds_child_and_resources_while_open (w : t number) :
  reachable w ->
  child w = negb (closed w) /\
  (closed w = false ->
   died w = false /\ Channel.closed (channel w) = false) /\
  (closed w = true ->
   Channel.closed (channel w) = true /\ Channel.sents (channel w) = ∅ /\
   routers w = [] /\ webRtcServers w = []) /\
  (forall x, x ∈ routers w \/ x ∈ webRtcServers w -> closed w = false) /\
  NoDup (routers w) /\ NoDup (webRtcServers w).
Proof.
  intros Hreach. pose proof (reachable_invariant w Hreach) as Hinv.
  pose proof Hinv as (Hrs & Hss & Hcase).
  split; [|split; [|split; [|split; [|split; assumption]]]].
  - destruct Hcase as [(-> & _ & -> & _) | (-> & -> & _)]; reflexivity.
  - intros Hc. pose proof (running_open w Hinv Hc) as (_ & Hd & _ & Hch & _).
    split; assumption.
  - intros Hc.
    pose proof (shut_closed w Hinv Hc) as (_ & _ & Hch & Hsents & Hr & Hs & _).
    repeat split; assumption.
  - intros x Hx. destruct (closed w) eqn:Hc; [|reflexivity].
    pose proof (shut_closed w Hinv Hc) as (_ & _ & _ & _ & Hr & Hs & _).
    rewrite Hr, Hs in Hx. destruct Hx as [Hx | Hx]; inversion Hx.
Qed.

(** X15. The child process always has a listener for ['error'], so that
    an ['error'] it emits is never left without a handler: the handler of
    the Worker as long as [close()] has not removed it, and the empty
    handler that [close()] puts in its place afterwards. Its ['exit']
    listener is the handler of the Worker, or none. *)
Theorem child_error_is_always_handled (w : t number) :
  reachable w ->
  (error_listeners (process w) = [OnError] \/
   error_listeners (process w) = [Inert]) /\
  (exit_listeners (process w) = [OnExit] \/ exit_listeners (process w) = []) /\
  (closed w = false -> error_listeners (process w) = [OnError]).
Proof.
  intros Hreach. pose proof (reachable_invariant w Hreach) as Hinv.
  split; [|split].
  - destruct Hinv as (_ & _ & [(_ & _ & _ & _ & _ & He) | Hshut]); [left; exact He|].
    destruct Hshut as (_ & _ & _ & _ & _ & _ & _ & [[_ He] | (_ & He & _)]);
      [right|left]; exact He.
  - destruct Hinv as (_ & _ & [(_ & _ & _ & _ & He & _) | Hshut]); [left; exact He|].
    destruct Hshut as (_ & _ & _ & _ & _ & _ & _ & [[He _] | (He & _)]);
      [right|left]; exact He.
  - intros Hc. apply (running_open w Hinv Hc).
Qed.
End RequestsAndStates.

(** ** The command line *)

Section CommandLine.
Context {number : Type} `{JSNumber number}.

(** What [space_width] looks at. *)
Lemma space_width_le (s : list Ascii.ascii) : (space_width s <= length s)%nat.
Proof.
  destruct s as [|a [|b [|c s]]]; simpl;
    repeat match goal with |- context [if ?x then _ else _] => destruct x end;
    simpl; lia.
Qed.

Lemma space_width_app (l r : list Ascii.ascii) (n : nat) :
  space_width l = S n -> space_width (l ++ r) = S n.
Proof.
  destruct l as [|a [|b [|c l]]]; simpl;
    repeat match goal with |- context [if ?x then _ else _] => destruct x end;
    try discriminate; try (intros; assumption).
  all: destruct r as [|x [|y r]]; simpl;
    repeat match goal with |- context [if ?x then _ else _] => destruct x end;
    try discriminate; try (intros; assumption).
Qed.

Lemma space_width_prefix (l r : list Ascii.ascii) (n : nat) :
  space_width (l ++ r) = S n -> (S n <= length l)%nat -> space_width l = S n.
Proof.
  destruct l as [|a [|b [|c l]]]; simpl;
    repeat match goal with |- context [if ?x then _ else _] => destruct x end;
    intros Hw Hl; try assumption; try lia.
  all: destruct r as [|x [|y r]]; simpl in Hw;
    repeat match type of Hw with context [if ?x then _ else _] => destruct x end;
    try discriminate; try (injection Hw as <-; simpl in Hl; lia).
Qed.

Lemma bytes_have_space_app (l r : list Ascii.ascii) :
  Log.bytes_have_space l = true -> Log.bytes_have_space (l ++ r) = true.
Proof.
  induction l as [|a l IH]; [discriminate|].
  intros Hl. change ((a :: l) ++ r) with (a :: l ++ r).
  cbn [Log.bytes_have_space] in *.
  apply orb_true_iff in Hl as [Hl | Hl]; apply orb_true_iff; [left|right; auto].
  destruct (space_width (a :: l)) as [|n] eqn:Hw; [discriminate|].
  change (a :: l ++ r) with ((a :: l) ++ r).
  rewrite (space_width_app _ r n Hw). reflexivity.
Qed.

Lemma space_width_app_0 (l r : list Ascii.ascii) :
  space_width (l ++ r) = 0%nat -> space_width l = 0%nat.
Proof.
  intros H0. destruct (space_width l) as [|n] eqn:E; [reflexivity|].
  rewrite (space_width_app l r n E) in H0. discriminate.
Qed.

(** No white space character begins in the bytes read of an element. *)
Lemma no_space_step (tok : list Ascii.ascii) (c : Ascii.ascii) (rest : list Ascii.ascii) :
  (forall p q, rev tok = p ++ q -> q <> [] -> space_width (q ++ c :: rest) = 0%nat) ->
  space_width (c :: rest) = 0%nat ->
  forall p q, rev (c :: tok) = p ++ q -> q <> [] -> space_width (q ++ rest) = 0%nat.
Proof.
  intros Htok Hc p q Hpq Hq. simpl in Hpq.
  destruct (exists_last Hq) as [q' [d ->]].
  rewrite app_assoc in Hpq. apply app_inj_tail in Hpq as [Hrev <-].
  rewrite <- app_assoc. simpl.
  destruct q' as [|e q']; [exact Hc|].
  apply (Htok p); [exact Hrev|discriminate].
Qed.

Lemma no_space_end (l s : list Ascii.ascii) :
  (forall p q, l = p ++ q -> q <> [] -> space_width (q ++ s) = 0%nat) ->
  Log.has_space (String.string_of_list_ascii l) = false.
Proof.
  unfold Log.has_space. rewrite String.list_ascii_of_string_of_list_ascii.
  induction l as [|a l IH]; intros Hl; [reflexivity|].
  cbn [Log.bytes_have_space].
  rewrite (space_width_app_0 (a :: l) s) by (apply (Hl []); [reflexivity|discriminate]).
  simpl. apply IH. intros p q -> Hq. apply (Hl (a :: p)); [reflexivity|exact Hq].
Qed.

Lemma split_spaces_go_tokens (s : list Ascii.ascii) :
  (forall tok,
     (forall p q, rev tok = p ++ q -> q <> [] -> space_width (q ++ s) = 0%nat) ->
     Forall (fun t => Log.has_space t = false) (split_spaces_go 0 false tok s)) /\
  (forall k, Forall (fun t => Log.has_space t = false) (split_spaces_go k true [] s)).
Proof.
  induction s as [|c rest [IHa IHb]].
  - split.
    + intros tok Htok. simpl. constructor; [|constructor].
      apply (no_space_end _ []), Htok.
    + intros k. simpl. constructor; [reflexivity|constructor].
  - split.
    + intros tok Htok. cbn [split_spaces_go].
      destruct (space_width (c :: rest)) as [|k] eqn:Hw.
      * apply IHa, no_space_step; assumption.
      * constructor; [apply (no_space_end _ (c :: rest)), Htok|apply IHb].
    + intros [|k]; cbn [split_spaces_go]; [|apply IHb].
      destruct (space_width (c :: rest)) as [|k] eqn:Hw; [|apply IHb].
      apply IHa. intros p q Hpq Hq. simpl in Hpq.
      destruct p as [|d p].
      * simpl in Hpq. subst q. exact Hw.
      * injection Hpq as _ Hpq. destruct p; destruct q; try discriminate.
        contradiction.
Qed.

(** A text without white space is one element. *)
Lemma split_spaces_go_whole (s tok : list Ascii.ascii) :
  Log.bytes_have_space s = false ->
  split_spaces_go 0 false tok s = [String.string_of_list_ascii (rev tok ++ s)].
Proof.
  revert tok. induction s as [|c rest IH]; intros tok Hno.
  - simpl. rewrite app_nil_r. reflexivity.
  - cbn [Log.bytes_have_space] in Hno. apply orb_false_iff in Hno as [Hc Hrest].
    cbn [split_spaces_go].
    destruct (space_width (c :: rest)) as [|k]; [|discriminate].
    rewrite IH by exact Hrest. simpl. rewrite <- app_assoc. reflexivity.
Qed.

(** The elements and the runs of white space between them make up the
    text. *)
Lemma all_spaces_length (k : nat) (run : list Ascii.ascii) :
  Log.all_spaces k run = true -> (k <= length run)%nat.
Proof.
  revert k. induction run as [|c run IH]; intros k Hk.
  - simpl in Hk. apply Nat.eqb_eq in Hk. simpl. lia.
  - destruct k as [|k]; [simpl; lia|]. simpl in Hk. apply IH in Hk. simpl. lia.
Qed.

Lemma all_spaces_begin (c : Ascii.ascii) (run r : list Ascii.ascii) (k : nat) :
  space_width (c :: run ++ r) = S k -> Log.all_spaces k run = true ->
  Log.all_spaces 0 (c :: run) = true.
Proof.
  intros Hw Hrun. cbn [Log.all_spaces].
  rewrite (space_width_prefix (c :: run) r k Hw); [exact Hrun|].
  apply all_spaces_length in Hrun. simpl. lia.
Qed.

Lemma split_spaces_go_interleave (s : list Ascii.ascii) :
  (forall tok, exists seps,
     length (split_spaces_go 0 false tok s) = S (length seps) /\
     Forall (fun sep => sep <> [] /\ Log.all_spaces 0 sep = true) seps /\
     rev tok ++ s = Log.interleave (split_spaces_go 0 false tok s) seps) /\
  (forall k, (k <= length s)%nat -> exists run seps,
     Log.all_spaces k run = true /\
     length (split_spaces_go k true [] s) = S (length seps) /\
     Forall (fun sep => sep <> [] /\ Log.all_spaces 0 sep = true) seps /\
     s = run ++ Log.interleave (split_spaces_go k true [] s) seps).
Proof.
  induction s as [|c rest [IHa IHb]].
  - split.
    + intros tok. exists []. split; [reflexivity|]. split; [constructor|].
      simpl. rewrite String.list_ascii_of_string_of_list_ascii. reflexivity.
    + intros k Hk. simpl in Hk. assert (k = 0%nat) as -> by lia.
      exists [], []. repeat split; constructor.
  - split.
    + intros tok. cbn [split_spaces_go].
      destruct (space_width (c :: rest)) as [|k] eqn:Hw.
      * destruct (IHa (c :: tok)) as [seps (Hlen & Hseps & Heq)].
        exists seps. split; [exact Hlen|]. split; [exact Hseps|].
        rewrite <- Heq. simpl. rewrite <- app_assoc. reflexivity.
      * pose proof (space_width_le (c :: rest)) as Hle. rewrite Hw in Hle. simpl in Hle.
        destruct (IHb k) as [run [seps (Hrun & Hlen & Hseps & Heq)]]; [lia|].
        exists ((c :: run) :: seps). split; [simpl; rewrite Hlen; reflexivity|].
        split.
        { constructor; [|exact Hseps]. split; [discriminate|].
          rewrite Heq in Hw. exact (all_spaces_begin _ _ _ _ Hw Hrun). }
        cbn [Log.interleave]. rewrite String.list_ascii_of_string_of_list_ascii.
        simpl. rewrite <- Heq. reflexivity.
    + intros k Hk. simpl in Hk. cbn [split_spaces_go]. destruct k as [|k].
      * destruct (space_width (c :: rest)) as [|k] eqn:Hw.
        -- destruct (IHa [c]) as [seps (Hlen & Hseps & Heq)].
           exists [], seps. split; [reflexivity|]. split; [exact Hlen|].
           split; [exact Hseps|]. exact Heq.
        -- pose proof (space_width_le (c :: rest)) as Hle. rewrite Hw in Hle. simpl in Hle.
           destruct (IHb k) as [run [seps (Hrun & Hlen & Hseps & Heq)]]; [lia|].
           exists (c :: run), seps.
           split; [rewrite Heq in Hw; exact (all_spaces_begin _ _ _ _ Hw Hrun)|].
           split; [exact Hlen|]. split; [exact Hseps|].
           simpl. rewrite <- Heq. reflexivity.
      * destruct (IHb k) as [run [seps (Hrun & Hlen & Hseps & Heq)]]; [lia|].
        exists (c :: run), seps. split; [exact Hrun|].
        split; [exact Hlen|]. split; [exact Hseps|].
        simpl. rewrite <- Heq. reflexivity.
Qed.

(** A run of white space is one separator: only the first and the last
    element can be empty. *)
Lemma split_spaces_go_not_nil (k : nat) (b : bool) (tok s : list Ascii.ascii) :
  split_spaces_go k b tok s <> [].
Proof.
  revert k b tok. induction s as [|c rest IH]; intros k b tok; [discriminate|].
  cbn [split_spaces_go]. destruct k; [|apply IH].
  destruct (space_width (c :: rest)); [apply IH|].
  destruct b; [apply IH|discriminate].
Qed.

Lemma string_of_rev_not_empty (tok : list Ascii.ascii) :
  tok <> [] -> String.string_of_list_ascii (rev tok) <> "".
Proof.
  intros Htok Hempty. apply (f_equal String.list_ascii_of_string) in Hempty.
  rewrite String.list_ascii_of_string_of_list_ascii in Hempty. simpl in Hempty.
  apply (f_equal (@rev _)) in Hempty. rewrite rev_involutive in Hempty.
  contradiction.
Qed.

Lemma split_spaces_go_inner (s : list Ascii.ascii) :
  (forall tok,
     Forall (fun t => t <> "") (removelast (tail (split_spaces_go 0 false tok s)))) /\
  (forall tok, tok <> [] ->
     Forall (fun t => t <> "") (removelast (split_spaces_go 0 false tok s))) /\
  (forall k, Forall (fun t => t <> "") (removelast (split_spaces_go k true [] s))).
Proof.
  induction s as [|c rest (IHt & IHa & IHb)].
  - repeat split; intros; simpl; constructor.
  - split; [|split].
    + intros tok. cbn [split_spaces_go].
      destruct (space_width (c :: rest)); [apply IHt|]. simpl. apply IHb.
    + intros tok Htok. cbn [split_spaces_go].
      destruct (space_width (c :: rest)) as [|k]; [apply IHa; discriminate|].
      pose proof (split_spaces_go_not_nil k true [] rest) as Hne.
      cbn [removelast].
      destruct (split_spaces_go k true [] rest) as [|t ts] eqn:E; [contradiction|].
      constructor; [apply string_of_rev_not_empty, Htok|].
      specialize (IHb k). rewrite E in IHb. exact IHb.
    + intros [|k]; cbn [split_spaces_go]; [|apply IHb].
      destruct (space_width (c :: rest)); [apply IHa; discriminate|apply IHb].
Qed.

(** White space is what [\s] matches. *)
Lemma ascii_of_its_N (a : Ascii.ascii) (n : N) :
  Ascii.N_of_ascii a = n -> a = Ascii.ascii_of_N n.
Proof. intros <-. symmetry. apply Ascii.ascii_N_embedding. Qed.

Lemma white_space_width (cp : N) :
  cp ∈ white_space -> space_width (utf8 cp) = length (utf8 cp).
Proof.
  unfold white_space. intros Hcp.
  repeat (apply elem_of_cons in Hcp as [-> | Hcp]; [vm_compute; reflexivity|]).
  inversion Hcp.
Qed.

Ltac white_space_found cp rest :=
  exists cp, rest; split; [apply (bool_decide_unpack _); vm_compute; exact I|];
  split; reflexivity.

Lemma space_width_white_space (s : list Ascii.ascii) (n : nat) :
  space_width s = S n ->
  exists cp rest, cp ∈ white_space /\ s = utf8 cp ++ rest /\ length (utf8 cp) = S n.
Proof.
  destruct s as [|a s1]; [discriminate|]. cbn [space_width].
  destruct (space_byte (Ascii.N_of_ascii a)) eqn:E1.
  { intros [= <-]. unfold space_byte in E1.
    repeat (rewrite ?orb_true_iff, ?andb_true_iff, ?N.leb_le, ?N.eqb_eq in E1).
    assert (Ha : (Ascii.N_of_ascii a = 9 \/ Ascii.N_of_ascii a = 10 \/
                  Ascii.N_of_ascii a = 11 \/ Ascii.N_of_ascii a = 12 \/
                  Ascii.N_of_ascii a = 13 \/ Ascii.N_of_ascii a = 32)%N) by lia.
    destruct Ha as [Ha|[Ha|[Ha|[Ha|[Ha|Ha]]]]];
      apply ascii_of_its_N in Ha; subst a.
    - white_space_found 9%N s1.
    - white_space_found 10%N s1.
    - white_space_found 11%N s1.
    - white_space_found 12%N s1.
    - white_space_found 13%N s1.
    - white_space_found 32%N s1. }
  destruct s1 as [|b s2]; [discriminate|].
  destruct (space_bytes2 (Ascii.N_of_ascii a) (Ascii.N_of_ascii b)) eqn:E2.
  { intros [= <-]. unfold space_bytes2 in E2.
    repeat (rewrite ?orb_true_iff, ?andb_true_iff, ?N.leb_le, ?N.eqb_eq in E2).
    assert (Ha : (Ascii.N_of_ascii a = 194 /\ Ascii.N_of_ascii b = 160)%N) by lia.
    destruct Ha as [Ha Hb]. apply ascii_of_its_N in Ha, Hb. subst a b.
    white_space_found 160%N s2. }
  destruct s2 as [|c s3]; [discriminate|].
  destruct (space_bytes3 (Ascii.N_of_ascii a) (Ascii.N_of_ascii b) (Ascii.N_of_ascii c))
    eqn:E3; [|discriminate].
  intros [= <-]. unfold space_bytes3 in E3.
  repeat (rewrite ?orb_true_iff, ?andb_true_iff, ?N.leb_le, ?N.eqb_eq in E3).
  assert (Ha : exists x y z : N,
             Ascii.N_of_ascii a = x /\ Ascii.N_of_ascii b = y /\ Ascii.N_of_ascii c = z /\
             ((x = 225 /\ y = 154 /\ z = 128) \/
              (x = 226 /\ y = 128 /\
               (z = 128 \/ z = 129 \/ z = 130 \/ z = 131 \/ z = 132 \/ z = 133 \/
                z = 134 \/ z = 135 \/ z = 136 \/ z = 137 \/ z = 138 \/
                z = 168 \/ z = 169 \/ z = 175)) \/
              (x = 226 /\ y = 129 /\ z = 159) \/
              (x = 227 /\ y = 128 /\ z = 128) \/
              (x = 239 /\ y = 187 /\ z = 191))%N).
  { eexists _, _, _. split; [reflexivity|]. split; [reflexivity|].
    split; [reflexivity|]. lia. }
  destruct Ha as (x & y & z & Ha & Hb & Hc & Hxyz).
  apply ascii_of_its_N in Ha, Hb, Hc. subst a b c.
  destruct Hxyz as [(-> & -> & ->)|[(-> & -> & Hz)|[(-> & -> & ->)|[(-> & -> & ->)|(-> & -> & ->)]]]].
  - white_space_found 5760%N s3.
  - destruct Hz as [->|[->|[->|[->|[->|[->|[->|[->|[->|[->|[->|[->|[->| ->]]]]]]]]]]]]].
    + white_space_found 8192%N s3.
    + white_space_found 8193%N s3.
    + white_space_found 8194%N s3.
    + white_space_found 8195%N s3.
    + white_space_found 8196%N s3.
    + white_space_found 8197%N s3.
    + white_space_found 8198%N s3.
    + white_space_found 8199%N s3.
    + white_space_found 8200%N s3.
    + white_space_found 8201%N s3.
    + white_space_found 8202%N s3.
    + white_space_found 8232%N s3.
    + white_space_found 8233%N s3.
    + white_space_found 8239%N s3.
  - white_space_found 8287%N s3.
  - white_space_found 12288%N s3.
  - white_space_found 65279%N s3.
Qed.

(** X16. [MEDIASOUP_VALGRIND_OPTIONS] is cut as [split(/\s+/)] cuts it.
    No argument made from it holds a white space character, and only the
    first and the last argument can be empty. The arguments, with a run
    of one or more white space characters between each two of them, make
    up the value again. A value without white space is one argument, and
    a value that begins with white space gives an empty first argument.
    A white space character is the UTF-8 encoding of one of the code
    points [white_space], and nothing else is. *)
Theorem valgrind_options_are_cut_at_white_space (options : string) :
  Forall (fun t => Log.has_space t = false) (split_spaces options) /\
  Forall (fun t => t <> "") (removelast (tail (split_spaces options))) /\
  (exists separators,
     length (split_spaces options) = S (length separators) /\
     Forall (fun sep => sep <> [] /\ Log.all_spaces 0 sep = true) separators /\
     String.list_ascii_of_string options =
       Log.interleave (split_spaces options) separators) /\
  (Log.has_space options = false -> split_spaces options = [options]) /\
  (space_width (String.list_ascii_of_string options) <> 0%nat ->
   head (split_spaces options) = Some "") /\
  (forall (s : list Ascii.ascii) (n : nat),
     space_width s = S n <->
     exists cp rest,
       cp ∈ white_space /\ s = utf8 cp ++ rest /\ length (utf8 cp) = S n).
Proof.
  unfold split_spaces. split; [|split; [|split; [|split; [|split]]]].
  - apply split_spaces_go_tokens. intros p q Hpq Hq.
    destruct p; destruct q; try discriminate. contradiction.
  - apply split_spaces_go_inner.
  - destruct (split_spaces_go_interleave (String.list_ascii_of_string options))
      as [Ha _]. exact (Ha []).
  - intros Hno. rewrite split_spaces_go_whole by exact Hno. simpl.
    rewrite String.string_of_list_ascii_of_string. reflexivity.
  - intros Hw. destruct (String.list_ascii_of_string options) as [|c rest];
      [contradiction|].
    cbn [split_spaces_go]. destruct (space_width (c :: rest)); [contradiction|].
    reflexivity.
  - intros s n. split; [apply space_width_white_space|].
    intros (cp & rest & Hcp & -> & Hlen). apply space_width_app.
    rewrite white_space_width; assumption.
Qed.

(** X17. The worker binary is what runs, and it gets the settings.
    The command line, program first, ends with the worker binary followed
    by exactly the arguments of the settings. Nothing comes before the
    binary unless [MEDIASOUP_USE_VALGRIND] is exactly ['true']; then the
    program is [MEDIASOUP_VALGRIND_BIN], or ['valgrind'] when that is
    unset or empty, followed by [MEDIASOUP_VALGRIND_OPTIONS] cut at white
    space, or by nothing when that is unset or empty. *)
Theorem worker_binary_runs_with_the_settings (env : Spawn.Env)
  (s : Spawn.WorkerSettings number) :
  exists before,
    Spawn.spawnBin env :: Spawn.spawnArgs env s =
      before ++ [Spawn.workerBin env] ++ Spec.settings_arguments s /\
    (Spawn.MEDIASOUP_USE_VALGRIND env <> Some "true" -> before = []) /\
    (Spawn.MEDIASOUP_USE_VALGRIND env = Some "true" ->
     exists program options,
       before = program :: options /\ program <> "" /\
       (Spawn.MEDIASOUP_VALGRIND_BIN env = None \/
        Spawn.MEDIASOUP_VALGRIND_BIN env = Some "" -> program = "valgrind") /\
       (forall bin, Spawn.MEDIASOUP_VALGRIND_BIN env = Some bin -> bin <> "" ->
                    program = bin) /\
       (Spawn.MEDIASOUP_VALGRIND_OPTIONS env = None \/
        Spawn.MEDIASOUP_VALGRIND_OPTIONS env = Some "" -> options = []) /\
       (forall text, Spawn.MEDIASOUP_VALGRIND_OPTIONS env = Some text ->
                     text <> "" -> options = split_spaces text) /\
       Forall (fun t => Log.has_space t = false) options).
Proof.
  unfold Spawn.spawnArgs. rewrite push_settings_spec.
  destruct (decide (Spawn.MEDIASOUP_USE_VALGRIND env = Some "true")) as [Hon|Hoff].
  - assert (Hbin : Spawn.spawnBin env =
                   default "valgrind" (Spawn.env_truthy (Spawn.MEDIASOUP_VALGRIND_BIN env))).
    { unfold Spawn.spawnBin. rewrite Hon. reflexivity. }
    assert (Hargs : Spawn.valgrindArgs env =
                    match Spawn.env_truthy (Spawn.MEDIASOUP_VALGRIND_OPTIONS env) with
                    | Some opts => [] ++ split_spaces opts
                    | None => []
                    end ++ [Spawn.workerBin env]).
    { unfold Spawn.valgrindArgs. rewrite Hon. reflexivity. }
    rewrite Hbin, Hargs.
    eexists (_ :: _). split; [rewrite <- app_assoc; reflexivity|].
    split; [intros Hne; contradiction|]. intros _.
    eexists _, _. split; [reflexivity|].
    split; [|split; [|split; [|split; [|split]]]].
    + unfold Spawn.env_truthy. destruct (Spawn.MEDIASOUP_VALGRIND_BIN env) as [bin|];
        [|discriminate].
      destruct (String.eqb_spec bin ""); [discriminate|assumption].
    + intros [-> | ->]; reflexivity.
    + intros bin -> Hne. unfold Spawn.env_truthy.
      destruct (String.eqb_spec bin ""); [contradiction|reflexivity].
    + intros [-> | ->]; reflexivity.
    + intros text -> Hne. unfold Spawn.env_truthy.
      destruct (String.eqb_spec text ""); [contradiction|reflexivity].
    + destruct (Spawn.env_truthy (Spawn.MEDIASOUP_VALGRIND_OPTIONS env));
        [|constructor].
      apply split_spaces_go_tokens. intros p q Hpq Hq.
      destruct p; destruct q; try discriminate. contradiction.
  - assert (Hbin : Spawn.spawnBin env = Spawn.workerBin env /\ Spawn.valgrindArgs env = []).
    { unfold Spawn.spawnBin, Spawn.valgrindArgs.
      destruct (Spawn.MEDIASOUP_USE_VALGRIND env) as [v|]; [|split; reflexivity].
      destruct (decide (v = "true")) as [->|Hv]; [contradiction|].
      destruct v as [|c0 v]; [split; reflexivity|].
      repeat (match goal with
              | |- context [match ?x with _ => _ end] => destruct x; try (split; reflexivity)
              end).
      all: exfalso; apply Hv; reflexivity. }
    destruct Hbin as [-> ->]. exists []. split; [reflexivity|].
    split; [reflexivity|]. intros Hon. contradiction.
Qed.




End CommandLine.

(** ** The application data *)

Section AppData.
Context {number : Type} `{JSNumber number} `{Collaborators number}.
Import Worker.

Lemma perform_appData (a : Action number) (w : t number) :
  invariant w ->
  appData (state_of (perform a w)) =
  match a with
  | DoSetAppData v => v
  | _ => appData w
  end.
Proof.
  intros Hinv.
  assert (Hrequest : forall method body k,
            appData (state_of (channel_request method body k w)) = appData w).
  { intros method body k. unfold channel_request.
    destruct (Channel.request k (channel w)) as [[e|id] ch]; reflexivity. }
  assert (Hclose : forall w0 : t number, appData (state_of (close w0)) = appData w0).
  { intros w0. destruct (closed w0) eqn:Hc.
    - rewrite close_closed by exact Hc. reflexivity.
    - rewrite close_open by exact Hc. reflexivity. }
  assert (Hdied : forall e (w0 : t number),
            appData (state_of (workerDied e w0)) = appData w0).
  { intros e w0. destruct (closed w0) eqn:Hc.
    - rewrite workerDied_closed by exact Hc. reflexivity.
    - rewrite workerDied_open by exact Hc. reflexivity. }
  destruct a; simpl.
  - apply Hclose.
  - reflexivity.
  - rewrite then_ret. apply Hrequest.
  - rewrite then_ret. apply Hrequest.
  - rewrite then_ret. apply Hrequest.
  - rewrite then_ret, state_of_triple. unfold createWebRtcServer.
    destruct (bad_appData _); [reflexivity|]. apply Hrequest.
  - rewrite then_ret, state_of_triple. unfold createRouter.
    destruct (bad_appData _); [reflexivity|].
    destruct (generateRouterRtpCapabilities _); [reflexivity|]. apply Hrequest.
  - unfold channel_response.
    destruct (Channel.take id (channel w)) as [[k|] ch]; [|reflexivity].
    destruct r, k; reflexivity.
  - unfold channel_notification.
    destruct (Channel.notify subject (channel w)) as [ls ch].
    destruct (on_running_exact event ls (set_channel ch w))
      as [-> | (_ & _ & _ & ->)]; reflexivity.
  - destruct (closed w) eqn:Hc.
    + rewrite child_emit_exit_shut by (apply shut_closed; assumption). reflexivity.
    + rewrite child_emit_exit_running, on_exit_unfold by (apply running_open; assumption).
      destruct (spawnDone w); [rewrite Hdied|rewrite state_of_triple, Hclose];
        reflexivity.
  - destruct (closed w) eqn:Hc.
    + rewrite child_emit_error_shut by (apply shut_closed; assumption). reflexivity.
    + rewrite child_emit_error_running, on_error_unfold by (apply running_open; assumption).
      destruct (spawnDone w); [rewrite Hdied|rewrite state_of_triple, Hclose];
        reflexivity.
  - reflexivity.
  - reflexivity.
Qed.

(** X19. The Worker never touches the application data. After any
    history the getter returns what the application last assigned to
    [appData], or, if it never assigned, what the constructor stored:
    closing, dying, requests, responses and notifications leave it
    alone. *)
Theorem appData_is_what_was_last_assigned env
  (settings : Spawn.WorkerSettings number) child_pid
  (actions : list (Action number)) :
  get_appData (state_of (run actions (constructor env settings child_pid).1)) =
  Requests.last_appData actions
    (JS.or_else (Spawn.appData settings) (JS.Object [])).
Proof.
  unfold get_appData.
  change (JS.or_else (Spawn.appData settings) (JS.Object []))
    with (appData (constructor env settings child_pid).1).
  generalize (invariant_new env settings child_pid).
  generalize (constructor env settings child_pid).1.
  induction actions as [|a actions IH]; intros w Hinv; [reflexivity|].
  rewrite run_cons, state_of_triple. rewrite IH by apply invariant_perform, Hinv.
  rewrite perform_appData by exact Hinv. unfold Requests.last_appData. simpl.
  destruct a; reflexivity.
Qed.
End AppData.

(** ** The further theorems at sample inputs *)

(** X5 at a sample input. *)
Lemma error_before_running_is_a_failure_witness :
  Worker.reachable Sample.fresh /\
  Worker.spawnDone Sample.fresh = false /\
  Worker.closed
    (Worker.state_of (Worker.on_error (JS.Thrown "Error" "spawn ENOENT") Sample.fresh)) =
    true /\
  Worker.died
    (Worker.state_of (Worker.on_error (JS.Thrown "Error" "spawn ENOENT") Sample.fresh)) =
    false.
Proof.
  assert (Hr : Worker.reachable Sample.fresh)
    by exact (Worker.reachable_new Sample.env Sample.no_settings (Some 4242)).
  split; [exact Hr|]. split; [reflexivity|].
  destruct (error_before_running_is_a_failure Sample.fresh
              (JS.Thrown "Error" "spawn ENOENT") Hr eq_refl)
    as (_ & Hclosed & Hdied & _).
  split; assumption.
Defined.

(** X6 at a sample input. *)
Lemma exit_or_error_after_running_is_a_death_witness :
  Worker.reachable Sample.busy /\
  Worker.closed Sample.busy = false /\
  Worker.spawnDone Sample.busy = true /\
  Worker.died (Worker.state_of (Worker.child_emit_exit (Some 1) None Sample.busy)) = true.
Proof.
  split; [exact busy_reachable|]. split; [reflexivity|]. split; [reflexivity|].
  destruct (proj1 (exit_or_error_after_running_is_a_death Sample.busy busy_reachable
                     eq_refl eq_refl) (Some 1) None) as (_ & _ & Hdied).
  exact Hdied.
Defined.

(** X9 at a sample input. *)
Lemma self_closed_resource_is_not_cascaded_witness :
  Worker.reachable Sample.busy /\
  Worker.router_closings 0%nat
    (Worker.calls_of
       (Worker.close
          (Worker.state_of (Worker.perform (Worker.RouterClosed 0%nat) Sample.busy)))) =
  0%nat.
Proof.
  split; [exact busy_reachable|].
  exact (proj1 (proj1 (self_closed_resource_is_not_cascaded Sample.busy 0%nat
                         busy_reachable))).
Defined.

(** X10 at a sample input. *)
Lemma router_registered_when_accepted_witness :
  Worker.reachable Sample.busy /\
  Worker.closed Sample.busy = false /\
  Worker.bad_appData (Worker.router_appData Sample.router_options) = false /\
  generateRouterRtpCapabilities (Worker.mediaCodecs Sample.router_options) =
    inr JS.Undefined /\
  Worker.calls_of
    (Worker.perform
       (Worker.DoCreateRouter Sample.router_options
          "44444444-4444-4444-8444-444444444444") Sample.busy) =
  [Worker.ChannelSend (Channel.nextId (Worker.channel Sample.busy) + 1)
     Channel.WORKER_CREATE_ROUTER
     (Worker.CreateRouterRequest "44444444-4444-4444-8444-444444444444")].
Proof.
  split; [exact busy_reachable|]. split; [reflexivity|]. split; [reflexivity|].
  split; [reflexivity|].
  exact (proj1 (router_registered_when_accepted Sample.busy Sample.router_options
                  "44444444-4444-4444-8444-444444444444" JS.Undefined
                  busy_reachable eq_refl eq_refl eq_refl)).
Defined.

(** X11 at a sample input. *)
Lemma webRtcServer_registered_when_accepted_witness :
  Worker.reachable Sample.busy /\
  Worker.closed Sample.busy = false /\
  Worker.bad_appData (Worker.webRtcServer_appData Sample.server_options) = false /\
  Worker.calls_of
    (Worker.perform
       (Worker.DoCreateWebRtcServer Sample.server_options
          "55555555-5555-4555-8555-555555555555") Sample.busy) =
  [Worker.ChannelSend (Channel.nextId (Worker.channel Sample.busy) + 1)
     Channel.WORKER_CREATE_WEBRTCSERVER
     (Worker.CreateWebRtcServerRequest "55555555-5555-4555-8555-555555555555"
        (Worker.to_fbs <$> Worker.listenInfos Sample.server_options))].
Proof.
  split; [exact busy_reachable|]. split; [reflexivity|]. split; [reflexivity|].
  exact (proj1 (proj1 (webRtcServer_registered_when_accepted Sample.busy
                         Sample.server_options "55555555-5555-4555-8555-555555555555"
                         busy_reachable eq_refl eq_refl))).
Defined.

(** X12 at a sample input. *)
Lemma request_methods_do_all_or_nothing_witness :
  Requests.method (number := IntNumber.t) Worker.dump /\
  Requests.all_or_nothing Sample.busy (Worker.dump Sample.busy).
Proof.
  assert (Hm : Requests.method (number := IntNumber.t) Worker.dump)
    by (left; reflexivity).
  split; [exact Hm|].
  exact (proj1 (request_methods_do_all_or_nothing Sample.busy Worker.dump Hm)).
Defined.

(** X13 at a sample input. *)
Lemma requests_after_death_fail_witness :
  Worker.reachable Sample.dead /\
  Worker.died Sample.dead = true /\
  Worker.getResourceUsage Sample.dead =
    (inl (JS.InvalidStateError "Channel closed"), Sample.dead, []).
Proof.
  assert (Hr : Worker.reachable Sample.dead)
    by exact (Worker.reachable_step _ (Worker.ChildExit (Some 1) None) busy_reachable).
  split; [exact Hr|]. split; [reflexivity|].
  exact (proj1 (proj2 (requests_after_death_fail Sample.dead Hr eq_refl))).
Defined.

(** X14 at a sample input. *)
Lemma worker_holds_child_and_resources_while_open_witness :
  Worker.reachable Sample.busy /\
  Worker.child Sample.busy = negb (Worker.closed Sample.busy).
Proof.
  split; [exact busy_reachable|].
  exact (proj1 (worker_holds_child_and_resources_while_open Sample.busy busy_reachable)).
Defined.

(** X15 at a sample input. *)
Lemma child_error_is_always_handled_witness :
  Worker.reachable Sample.shut_down /\
  (Worker.error_listeners (Worker.process Sample.shut_down) = [Worker.OnError] \/
   Worker.error_listeners (Worker.process Sample.shut_down) = [Worker.Inert]).
Proof.
  assert (Hr : Worker.reachable Sample.shut_down)
    by exact (Worker.reachable_step _ Worker.DoClose busy_reachable).
  split; [exact Hr|].
  exact (proj1 (child_error_is_always_handled Sample.shut_down Hr)).
Defined.
